(** * The project store of banana-slides: a shallow embedding

    The store ([useProjectStore], a zustand store) mirrors a server-held
    project, applies optimistic local edits with a debounced remote
    persist, and drives polling loops for generation tasks.

    The embedding follows the TypeScript source:
    - JavaScript objects typed [any] (pages, partial page data) are finite
      maps from property names to values ([gmap string value]);
    - the store state is a record with the fields of [ProjectState];
    - the asynchronous actions are programs of a small free monad [Prog]
      whose operations are the effects the source performs: [get()],
      [set(...)], awaiting a remote endpoint, [localStorage], [setTimeout]
      and [clearTimeout];
    - closures handed to [setTimeout] are named by the constructors of
      [Callback]; [callback_body] gives their code;
    - [exec] runs a program against a server (a function of the requests
      received so far), [run_timers] is the event loop that fires due timers.

    Console output is no state of the store and is left out. An action runs
    until it returns or throws, each [await] being answered by the server
    at once; timers fire between actions, when the clock is advanced. *)

From Stdlib Require Import Ascii String.
From stdpp Require Import gmap strings list fin_maps pretty.

#[local] Set Warnings "-register-all".
#[local] Open Scope string_scope.
#[local] Open Scope Z_scope.
#[local] Open Scope list_scope.

(** ** JavaScript values *)

Inductive value : Type :=
| VUndefined
| VNull
| VBool (b : bool)
| VNum (n : Z)
| VStr (s : string)
| VArr (xs : list value)
| VObj (o : gmap string value).

(** [!!v]: the falsy values are [undefined], [null], [false], [0] and the
    empty string. *)
Definition truthy (v : value) : bool :=
  match v with
  | VUndefined | VNull => false
  | VBool b => b
  | VNum n => negb (n =? 0)
  | VStr s => negb (String.eqb s "")
  | VArr _ | VObj _ => true
  end.

(** [a || b] on values. *)
Definition js_or (a b : value) : value := if truthy a then a else b.

(** [o.k] on an object held as a map: [undefined] when the key is absent. *)
Definition prop (k : string) (o : gmap string value) : value :=
  default VUndefined (o !! k).

(** [v === s] for a string [s]. *)
Definition strict_eq_str (v : value) (s : string) : bool :=
  match v with
  | VStr s' => String.eqb s' s
  | _ => false
  end.

(** Truthiness of a value typed [string | undefined | null]. *)
Definition truthy_str (o : option string) : bool :=
  match o with
  | Some s => negb (String.eqb s "")
  | None => false
  end.

(** [a || b] on such values. *)
Definition or_str (a b : option string) : option string :=
  if truthy_str a then a else b.

(** [a || 'literal']. *)
Definition or_lit (a : option string) (lit : string) : string :=
  match a with
  | Some s => if String.eqb s "" then lit else s
  | None => lit
  end.

(** ** Strings: [toLowerCase] and [includes]

    Strings are byte strings (UTF-8). The patterns searched for by
    [normalizeErrorMessage] are ASCII, none contains a [k] and none ends in
    [i], so lowering the ASCII letters only finds them exactly where
    JavaScript's Unicode [toLowerCase] does. *)

Definition lower_ascii (c : ascii) : ascii :=
  let n := nat_of_ascii c in
  if ((65 <=? n)%nat && (n <=? 90)%nat)%bool then ascii_of_nat (n + 32) else c.

Fixpoint toLowerCase (s : string) : string :=
  match s with
  | EmptyString => EmptyString
  | String c s' => String (lower_ascii c) (toLowerCase s')
  end.

Fixpoint includes (pat s : string) : bool :=
  if String.prefix pat s then true
  else match s with
       | EmptyString => false
       | String _ s' => includes pat s'
       end.

Definition msg_operation_failed : string := "操作失敗".
Definition msg_no_template : string :=
  "目前專案還沒有範本，請先點擊頁面工具欄的「更換範本」按鈕，選擇或上傳一張範本圖片後再生成。".
Definition msg_no_description : string :=
  "該頁面還沒有描述內容，請先在「編輯頁面描述」步驟為此頁生成或填寫描述。".
Definition msg_image_exists : string :=
  "該頁面已經有圖片，如需重新生成，請在生成時選擇「重新生成」或稍後重試。".

(** [normalizeErrorMessage] (utils). *)
Definition normalizeErrorMessage (errorMessage : option string) : string :=
  match errorMessage with
  | None => msg_operation_failed
  | Some m =>
      if String.eqb m "" then msg_operation_failed
      else
        let message := toLowerCase m in
        if includes "no template image found" message then msg_no_template
        else if includes "page must have description content" message
             then msg_no_description
        else if includes "image already exists" message then msg_image_exists
        else m
  end.

(** ** The data model *)

(** A page, and the partial data of an edit, are objects typed [any]. *)
Abbreviation Page := (gmap string value).
Abbreviation PageData := (gmap string value).

(** The project as the server sends it. [raw_attrs] holds every property
    other than [project_id], [id] and [pages]. An id is a string or is
    absent ([None], JavaScript's [undefined]), as the type [Project] has
    it; an id sent as JSON [null] is outside the model. *)
Record RawProject := {
  raw_project_id : option string;
  raw_id : option string;
  raw_pages : option (list Page);
  raw_attrs : gmap string value
}.

(** The project as the store holds it ([Project]). *)
Record Project := {
  proj_project_id : option string;
  proj_id : option string;
  proj_pages : list Page;
  proj_attrs : gmap string value
}.

(** [normalizePage]: [{...data, id: data.page_id || data.id,
    generated_image_path: data.generated_image_url || data.generated_image_path}]. *)
Definition normalizePage (data : Page) : Page :=
  <["generated_image_path" :=
      js_or (prop "generated_image_url" data) (prop "generated_image_path" data)]>
    (<["id" := js_or (prop "page_id" data) (prop "id" data)]> data).

(** [normalizeProject]. *)
Definition normalizeProject (data : RawProject) : Project :=
  {| proj_project_id := raw_project_id data;
     proj_id := or_str (raw_project_id data) (raw_id data);
     proj_pages := map normalizePage (default [] (raw_pages data));
     proj_attrs :=
       <["template_image_path" :=
           js_or (prop "template_image_url" (raw_attrs data))
                 (prop "template_image_path" (raw_attrs data))]>
         (raw_attrs data) |}.

(** The polled task ([Task]); [task_status] is the [status] string. *)
Record Task := {
  task_status : string;
  task_progress : value;
  task_error_message : option string;
  task_error : option string
}.

(** The body of an error response, in the backend's error format:
    [{error: string | {message?}, message?}]. *)
Inductive ErrField :=
| ErrString (s : string)
| ErrObject (message : option string).

Record ErrorData := {
  ed_error : option ErrField;
  ed_message : option string
}.

(** What a [catch] receives from a failed request (an axios error):
    [error.response] (status and body), [error.request], [error.message]. *)
Record JsError := {
  err_response : option (Z * option ErrorData);
  err_request : bool;
  err_message : option string
}.

(** [new Error(msg)]. *)
Definition Error (msg : string) : JsError :=
  {| err_response := None; err_request := false; err_message := Some msg |}.

(** ** The store state ([ProjectState]) *)

Record State := {
  currentProject : option Project;
  isGlobalLoading : bool;
  activeTaskId : option string;
  taskProgress : value;
  error : option string;
  pageGeneratingTasks : gmap string string;
  pageDescriptionGeneratingTasks : gmap string bool
}.

Definition initialState : State :=
  {| currentProject := None;
     isGlobalLoading := false;
     activeTaskId := None;
     taskProgress := VNull;
     error := None;
     pageGeneratingTasks := ∅;
     pageDescriptionGeneratingTasks := ∅ |}.

(** The partial updates handed to zustand's [set]. *)
Definition set_currentProject (p : option Project) (s : State) : State :=
  {| currentProject := p;
     isGlobalLoading := isGlobalLoading s;
     activeTaskId := activeTaskId s;
     taskProgress := taskProgress s;
     error := error s;
     pageGeneratingTasks := pageGeneratingTasks s;
     pageDescriptionGeneratingTasks := pageDescriptionGeneratingTasks s |}.

Definition set_isGlobalLoading (b : bool) (s : State) : State :=
  {| currentProject := currentProject s;
     isGlobalLoading := b;
     activeTaskId := activeTaskId s;
     taskProgress := taskProgress s;
     error := error s;
     pageGeneratingTasks := pageGeneratingTasks s;
     pageDescriptionGeneratingTasks := pageDescriptionGeneratingTasks s |}.

Definition set_activeTaskId (t : option string) (s : State) : State :=
  {| currentProject := currentProject s;
     isGlobalLoading := isGlobalLoading s;
     activeTaskId := t;
     taskProgress := taskProgress s;
     error := error s;
     pageGeneratingTasks := pageGeneratingTasks s;
     pageDescriptionGeneratingTasks := pageDescriptionGeneratingTasks s |}.

Definition set_taskProgress (v : value) (s : State) : State :=
  {| currentProject := currentProject s;
     isGlobalLoading := isGlobalLoading s;
     activeTaskId := activeTaskId s;
     taskProgress := v;
     error := error s;
     pageGeneratingTasks := pageGeneratingTasks s;
     pageDescriptionGeneratingTasks := pageDescriptionGeneratingTasks s |}.

Definition set_error (e : option string) (s : State) : State :=
  {| currentProject := currentProject s;
     isGlobalLoading := isGlobalLoading s;
     activeTaskId := activeTaskId s;
     taskProgress := taskProgress s;
     error := e;
     pageGeneratingTasks := pageGeneratingTasks s;
     pageDescriptionGeneratingTasks := pageDescriptionGeneratingTasks s |}.

Definition set_pageGeneratingTasks (m : gmap string string) (s : State) : State :=
  {| currentProject := currentProject s;
     isGlobalLoading := isGlobalLoading s;
     activeTaskId := activeTaskId s;
     taskProgress := taskProgress s;
     error := error s;
     pageGeneratingTasks := m;
     pageDescriptionGeneratingTasks := pageDescriptionGeneratingTasks s |}.

Definition set_pageDescriptionGeneratingTasks (m : gmap string bool) (s : State)
  : State :=
  {| currentProject := currentProject s;
     isGlobalLoading := isGlobalLoading s;
     activeTaskId := activeTaskId s;
     taskProgress := taskProgress s;
     error := error s;
     pageGeneratingTasks := pageGeneratingTasks s;
     pageDescriptionGeneratingTasks := m |}.

(** ** Remote endpoints

    The endpoints of [api] the store calls, with their arguments. A project
    id argument is [currentProject.id], which may be [undefined]. *)

Inductive Request :=
| getProject (projectId : string)
| updatePageDescription (projectId : option string) (pageId : string)
    (description_content : value)
| updatePageOutline (projectId : option string) (pageId : string)
    (outline_content : value)
| updatePage (projectId : option string) (pageId : string) (data : PageData)
| updatePagesOrder (projectId : option string) (newOrder : list string)
| getTaskStatus (projectId : option string) (taskId : string)
| generatePageImage_api (projectId : option string) (pageId : string)
    (forceRegenerate : bool)
| editPageImage_api (projectId : option string) (pageId : string)
    (editPrompt : string) (contextImages : value)
| generatePageDescription_api (projectId : option string) (pageId : string)
    (forceRegenerate : bool)
| generateDescriptions_api (projectId : string).

(** What the store reads of a response: [response.data] for [getProject]
    and [getTaskStatus] ([None] when absent), [response.data?.task_id] for
    the endpoints that start a task; nothing for the others. *)
Definition Response (r : Request) : Type :=
  match r with
  | getProject _ => option RawProject
  | getTaskStatus _ _ => option Task
  | generatePageImage_api _ _ _
  | editPageImage_api _ _ _ _
  | generateDescriptions_api _ => option string
  | _ => unit
  end.

(** A request resolves with a response or rejects with an error. *)
Definition Outcome (r : Request) : Type := JsError + Response r.

(** ** Timers and closures *)

(** The closures the store hands to [setTimeout], with the variables they
    capture. *)
Inductive Callback :=
| CbDebouncedUpdatePage (projectId : option string) (pageId : string)
    (data : PageData)
| CbPollTask (projectId : option string) (taskId : string)
| CbPollPageTask (projectId : option string) (pageId taskId : string)
| CbPollAndSync (projectId taskId : string) (initialTasks : gmap string bool).

Record Timer := {
  tm_id : positive;
  tm_due : Z;
  tm_cb : Callback
}.

(** ** Effects and programs *)

(** Observable events: the requests sent, and the entries into
    [syncProject] (a ghost mark, to count resynchronizations). *)
Inductive Event :=
| EvCall (r : Request)
| EvSync (projectId : option string).

Inductive Eff :=
| EGet
| ESet (f : State → State)
| ECall (r : Request)
| EStorageGet
| EStorageSet (v : string)
| EStorageRemove
| ESetTimeout (cb : Callback) (ms : Z)
| EClearTimeout (id : positive)
| EReadTimeoutVar
| EWriteTimeoutVar (v : option positive)
| EMark (ev : Event).

Definition Ans (e : Eff) : Type :=
  match e with
  | EGet => State
  | ECall r => Outcome r
  | EStorageGet => option string
  | ESetTimeout _ _ => positive
  | EReadTimeoutVar => option positive
  | _ => unit
  end.

Inductive Prog (R : Type) : Type :=
| Ret (r : R)
| Throw (e : JsError)
| Do (e : Eff) (k : Ans e → Prog R).

Arguments Ret {R} r.
Arguments Throw {R} e.
Arguments Do {R} e k.

Fixpoint bind {A B} (p : Prog A) (f : A → Prog B) : Prog B :=
  match p with
  | Ret a => f a
  | Throw e => Throw e
  | Do e k => Do e (λ a, bind (k a) f)
  end.

#[export] Instance prog_ret : MRet Prog := @Ret.
#[export] Instance prog_bind : MBind Prog := λ A B f p, bind p f.

(** [try { p } catch (e) { h e }]. *)
Fixpoint try_catch {R} (p : Prog R) (h : JsError → Prog R) : Prog R :=
  match p with
  | Ret r => Ret r
  | Throw e => h e
  | Do e k => Do e (λ a, try_catch (k a) h)
  end.

(** [try { p } finally { fin }]. *)
Fixpoint try_finally {R} (p : Prog R) (fin : Prog unit) : Prog R :=
  match p with
  | Ret r => fin ;; Ret r
  | Throw e => fin ;; Throw e
  | Do e k => Do e (λ a, try_finally (k a) fin)
  end.

Definition perform (e : Eff) : Prog (Ans e) := Do e Ret.

Definition get : Prog State := perform EGet.
Definition set (f : State → State) : Prog unit := perform (ESet f).
(** [await api.r(...)]: a rejection is thrown at the [await]. *)
Definition await (r : Request) : Prog (Response r) :=
  Do (ECall r) (λ o, match o with inl e => Throw e | inr x => Ret x end).
Definition setTimeout (cb : Callback) (ms : Z) : Prog positive :=
  perform (ESetTimeout cb ms).
Definition clearTimeout (id : positive) : Prog unit := perform (EClearTimeout id).
Definition mark (ev : Event) : Prog unit := perform (EMark ev).
Definition skip : Prog unit := Ret ().

(** ** The world a program runs in *)

Record World := {
  store : State;
  (** [localStorage['currentProjectId']] *)
  storage : option string;
  (** the variable [timeout] captured by [debounce] *)
  timeout_var : option positive;
  timers : list Timer;
  clock : Z;
  next_timer : positive;
  trace : list Event
}.

(** The requests among the events. *)
Definition requests (tr : list Event) : list Request :=
  omap (λ ev, match ev with EvCall r => Some r | EvSync _ => None end) tr.

(** The server answers a request knowing the requests it got before. *)
Definition Server : Type := list Request → ∀ r : Request, Outcome r.

Definition with_store (f : State → State) (w : World) : World :=
  {| store := f (store w); storage := storage w; timeout_var := timeout_var w;
     timers := timers w; clock := clock w; next_timer := next_timer w;
     trace := trace w |}.

Definition with_storage (v : option string) (w : World) : World :=
  {| store := store w; storage := v; timeout_var := timeout_var w;
     timers := timers w; clock := clock w; next_timer := next_timer w;
     trace := trace w |}.

Definition with_timeout_var (v : option positive) (w : World) : World :=
  {| store := store w; storage := storage w; timeout_var := v;
     timers := timers w; clock := clock w; next_timer := next_timer w;
     trace := trace w |}.

Definition with_timers (ts : list Timer) (w : World) : World :=
  {| store := store w; storage := storage w; timeout_var := timeout_var w;
     timers := ts; clock := clock w; next_timer := next_timer w;
     trace := trace w |}.

Definition with_clock (t : Z) (w : World) : World :=
  {| store := store w; storage := storage w; timeout_var := timeout_var w;
     timers := timers w; clock := t; next_timer := next_timer w;
     trace := trace w |}.

Definition log_event (ev : Event) (w : World) : World :=
  {| store := store w; storage := storage w; timeout_var := timeout_var w;
     timers := timers w; clock := clock w; next_timer := next_timer w;
     trace := trace w ++ [ev] |}.

(** [setTimeout]: a fresh id, due [ms] after now. *)
Definition add_timer (cb : Callback) (ms : Z) (w : World) : positive * World :=
  (next_timer w,
   {| store := store w; storage := storage w; timeout_var := timeout_var w;
      timers := timers w ++ [{| tm_id := next_timer w; tm_due := clock w + ms;
                                tm_cb := cb |}];
      clock := clock w; next_timer := Pos.succ (next_timer w);
      trace := trace w |}).

(** [clearTimeout]: drops the timer if it is still pending. *)
Definition remove_timer (id : positive) (ts : list Timer) : list Timer :=
  filter (λ t, tm_id t ≠ id) ts.

Definition handle (srv : Server) (e : Eff) (w : World) : Ans e * World :=
  match e return Ans e * World with
  | EGet => (store w, w)
  | ESet f => ((), with_store f w)
  | ECall r => (srv (requests (trace w)) r, log_event (EvCall r) w)
  | EStorageGet => (storage w, w)
  | EStorageSet v => ((), with_storage (Some v) w)
  | EStorageRemove => ((), with_storage None w)
  | ESetTimeout cb ms => add_timer cb ms w
  | EClearTimeout id => ((), with_timers (remove_timer id (timers w)) w)
  | EReadTimeoutVar => (timeout_var w, w)
  | EWriteTimeoutVar v => ((), with_timeout_var v w)
  | EMark ev => ((), log_event ev w)
  end.

(** How a program ends. *)
Inductive Completion (R : Type) :=
| Returned (r : R)
| Raised (e : JsError).

Arguments Returned {R} r.
Arguments Raised {R} e.

Fixpoint exec {R} (srv : Server) (p : Prog R) (w : World) : Completion R * World :=
  match p with
  | Ret r => (Returned r, w)
  | Throw e => (Raised e, w)
  | Do e k => let '(a, w') := handle srv e w in exec srv (k a) w'
  end.

(** The world an action leaves behind. *)
Definition run {R} (srv : Server) (p : Prog R) (w : World) : World :=
  (exec srv p w).2.

(** ** Plain objects read and written by key

    The registries of the store are plain objects. Reading [tasks[k]]
    finds the own property [k], else the member of [Object.prototype] of
    that name (a function, or for [__proto__] the prototype itself, all
    truthy), else [undefined]. *)

Definition proto_member (k : string) : bool :=
  bool_decide (k ∈ ["constructor"; "__defineGetter__"; "__defineSetter__";
                    "hasOwnProperty"; "__lookupGetter__"; "__lookupSetter__";
                    "isPrototypeOf"; "propertyIsEnumerable"; "toString";
                    "valueOf"; "__proto__"; "toLocaleString"]).

(** The truthiness of [tasks[k]]. *)
Definition held {V} (is_truthy : V → bool) (tasks : gmap string V) (k : string)
  : bool :=
  match tasks !! k with
  | Some v => is_truthy v
  | None => proto_member k
  end.

(** [tasks[k] = v] by assignment, for a [v] that is no object: the setter
    of [__proto__] ignores it; any other key becomes an own property.
    (A computed key in an object literal, [{...tasks, [k]: v}], always
    becomes an own property: that is the map's insert.) *)
Definition assign {V} (k : string) (v : V) (tasks : gmap string V) : gmap string V :=
  if String.eqb k "__proto__" then tasks else <[k := v]> tasks.

Definition nonempty (s : string) : bool := negb (String.eqb s "").

(** [String(v)], as a property key is made from a value; numbers are
    integers in the safe range, printed in decimal. *)
Fixpoint js_to_string (v : value) : string :=
  match v with
  | VUndefined => "undefined"
  | VNull => "null"
  | VBool b => if b then "true" else "false"
  | VNum n => pretty n
  | VStr s => s
  | VArr xs =>
      (fix join (xs : list value) : string :=
         match xs with
         | [] => ""
         | x :: xs' =>
             match x with
             | VUndefined | VNull => ""
             | _ => js_to_string x
             end +:+
             match xs' with
             | [] => ""
             | _ :: _ => "," +:+ join xs'
             end
         end) xs
  | VObj _ => "[object Object]"
  end.

(** ** The actions of the store *)

(** The message and the [shouldClearStorage] flag that the [catch] of
    [syncProject] computes from the error. *)
Definition err_field_message (f : ErrField) : option string :=
  match f with
  | ErrString _ => None
  | ErrObject m => m
  end.

Definition err_field_truthy (f : option ErrField) : bool :=
  match f with
  | Some (ErrString s) => negb (String.eqb s "")
  | Some (ErrObject _) => true
  | None => false
  end.

(** [errorData?.error?.message], [errorData?.message], [errorData?.error]. *)
Definition data_error_message (errorData : option ErrorData) : option string :=
  match errorData with
  | Some d => match ed_error d with
              | Some f => err_field_message f
              | None => None
              end
  | None => None
  end.

Definition data_message (errorData : option ErrorData) : option string :=
  match errorData with
  | Some d => ed_message d
  | None => None
  end.

Definition data_error (errorData : option ErrorData) : option ErrField :=
  match errorData with
  | Some d => ed_error d
  | None => None
  end.

Definition sync_error (error : JsError) : string * bool :=
  match err_response error with
  | Some (status, errorData) =>
      if status =? 404 then
        (or_lit (data_error_message errorData) "專案不存在，可能已被刪除", true)
      else if truthy_str (data_error_message errorData) then
        (default "" (data_error_message errorData), false)
      else if truthy_str (data_message errorData) then
        (default "" (data_message errorData), false)
      else if err_field_truthy (data_error errorData) then
        (match data_error errorData with
         | Some (ErrString s) => s
         | _ => or_lit (data_error_message errorData) "請求失敗"
         end, false)
      else ("請求失敗: " +:+ pretty (status : Z), false)
  | None =>
      if err_request error then ("網路錯誤，請檢查後端服務是否啟動", false)
      else if truthy_str (err_message error) then
        (default "" (err_message error), false)
      else ("同步專案失敗", false)
  end.

(** [syncProject(projectId?)]. *)
Definition syncProject (projectId : option string) : Prog unit :=
  mark (EvSync projectId) ;;
  s ← get ;
  targetProjectId ←
    (if truthy_str projectId then mret projectId
     else if truthy_str (currentProject s ≫= proj_id)
          then mret (currentProject s ≫= proj_id)
          else ls ← perform EStorageGet ; mret (or_str ls None)) ;
  match targetProjectId with
  | None => skip
  | Some target =>
      if String.eqb target "" then skip
      else
        try_catch
          (response ← await (getProject target) ;
           match response with
           | Some data =>
               let project := normalizeProject data in
               set (set_currentProject (Some project)) ;;
               perform (EStorageSet (default "undefined" (proj_id project)))
           | None => skip
           end)
          (λ error,
             let '(errorMessage, shouldClearStorage) := sync_error error in
             if shouldClearStorage : bool then
               perform EStorageRemove ;;
               set (λ st, set_error (Some (normalizeErrorMessage (Some errorMessage)))
                            (set_currentProject None st))
             else
               set (set_error (Some (normalizeErrorMessage (Some errorMessage)))))
  end.

(** [debounce(func, wait)] (utils): the returned function, applied to
    [args]. The variable [timeout] of the closure is [timeout_var]; timer
    ids are positive, hence truthy. *)
Definition debounce {A} (func : A → Callback) (wait : Z) (args : A) : Prog unit :=
  timeout ← perform EReadTimeoutVar ;
  match timeout with
  | Some id => clearTimeout id
  | None => skip
  end ;;
  id ← setTimeout (func args) wait ;
  perform (EWriteTimeoutVar (Some id)).

(** The function wrapped by [debouncedUpdatePage]. *)
Definition persistPage (projectId : option string) (pageId : string)
    (data : PageData) : Prog unit :=
  try_catch
    ((if truthy (prop "description_content" data) then
        await (updatePageDescription projectId pageId
                 (prop "description_content" data))
      else if truthy (prop "outline_content" data) then
        await (updatePageOutline projectId pageId (prop "outline_content" data))
      else
        await (updatePage projectId pageId data)) ;;
     syncProject projectId)
    (λ _, skip).

Definition debouncedUpdatePage
    (args : option string * string * PageData) : Prog unit :=
  debounce (λ '(projectId, pageId, data),
              CbDebouncedUpdatePage projectId pageId data) 1000 args.

(** [{...currentProject, pages}]. *)
Definition with_pages (pages : list Page) (p : Project) : Project :=
  {| proj_project_id := proj_project_id p;
     proj_id := proj_id p;
     proj_pages := pages;
     proj_attrs := proj_attrs p |}.

(** [updatePageLocal(pageId, data)]; [{...page, ...data}] is [data ∪ page]. *)
Definition updatePageLocal (pageId : string) (data : PageData) : Prog unit :=
  s ← get ;
  match currentProject s with
  | None => skip
  | Some currentProject =>
      let updatedPages :=
        map (λ page : Page,
               if strict_eq_str (prop "id" page) pageId then data ∪ page else page)
            (proj_pages currentProject) in
      set (set_currentProject (Some (with_pages updatedPages currentProject))) ;;
      debouncedUpdatePage (proj_id currentProject, pageId, data)
  end.

(** [reorderPages(newOrder)]; [find] gives a page object or [undefined],
    which [filter(Boolean)] drops. *)
Definition reorderPages (newOrder : list string) : Prog unit :=
  s ← get ;
  match currentProject s with
  | None => skip
  | Some currentProject =>
      let reorderedPages :=
        omap (λ id, List.find (λ p : Page, strict_eq_str (prop "id" p) id)
                      (proj_pages currentProject))
             newOrder in
      set (set_currentProject (Some (with_pages reorderedPages currentProject))) ;;
      try_catch
        (await (updatePagesOrder (proj_id currentProject) newOrder))
        (λ error,
           set (set_error (Some (or_lit (err_message error) "更新順序失敗"))) ;;
           syncProject None)
  end.

(** The closure [poll] of [pollTask]. *)
Definition pollTask_poll (projectId : option string) (taskId : string)
  : Prog unit :=
  try_catch
    (response ← await (getTaskStatus projectId taskId) ;
     match response with
     | None => skip
     | Some task =>
         (if truthy (task_progress task)
          then set (set_taskProgress (task_progress task)) else skip) ;;
         if String.eqb (task_status task) "COMPLETED" then
           set (λ st, set_isGlobalLoading false
                        (set_taskProgress VNull (set_activeTaskId None st))) ;;
           syncProject None
         else if String.eqb (task_status task) "FAILED" then
           set (λ st,
                  set_isGlobalLoading false
                    (set_taskProgress VNull
                       (set_activeTaskId None
                          (set_error
                             (Some (normalizeErrorMessage
                                      (Some (or_lit (or_str (task_error_message task)
                                                            (task_error task))
                                                    "任務失敗"))))
                             st))))
         else if (String.eqb (task_status task) "PENDING"
                  || String.eqb (task_status task) "PROCESSING")%bool then
           setTimeout (CbPollTask projectId taskId) 2000 ;; skip
         else
           set (λ st,
                  set_isGlobalLoading false
                    (set_taskProgress VNull
                       (set_activeTaskId None
                          (set_error (Some ("未知任務狀態: " +:+ task_status task))
                             st))))
     end)
    (λ error,
       set (λ st,
              set_isGlobalLoading false
                (set_activeTaskId None
                   (set_error
                      (Some (normalizeErrorMessage
                               (Some (or_lit (err_message error) "任務查詢失敗"))))
                      st)))).

(** [pollTask(taskId)]. *)
Definition pollTask (taskId : string) : Prog unit :=
  s ← get ;
  match currentProject s with
  | None => skip
  | Some currentProject => pollTask_poll (proj_id currentProject) taskId
  end.

(** Removing the page's entry: [newTasks = {...pageGeneratingTasks};
    delete newTasks[pageId]], read from [get()] at that moment. *)
Definition release_page (pageId : string) (st : State) : State :=
  set_pageGeneratingTasks (delete pageId (pageGeneratingTasks st)) st.

(** The closure [poll] of [pollPageTask]. *)
Definition pollPageTask_poll (projectId : option string) (pageId taskId : string)
  : Prog unit :=
  try_catch
    (response ← await (getTaskStatus projectId taskId) ;
     match response with
     | None => skip
     | Some task =>
         if String.eqb (task_status task) "COMPLETED" then
           set (release_page pageId) ;;
           syncProject None
         else if String.eqb (task_status task) "FAILED" then
           set (λ st,
                  set_error
                    (Some (normalizeErrorMessage
                             (Some (or_lit (or_str (task_error_message task)
                                                   (task_error task))
                                           "生成失敗"))))
                    (release_page pageId st)) ;;
           syncProject None
         else if (String.eqb (task_status task) "PENDING"
                  || String.eqb (task_status task) "PROCESSING")%bool then
           syncProject None ;;
           setTimeout (CbPollPageTask projectId pageId taskId) 2000 ;; skip
         else
           set (release_page pageId)
     end)
    (λ _, set (release_page pageId)).

(** [pollPageTask(pageId, taskId)]. *)
Definition pollPageTask (pageId taskId : string) : Prog unit :=
  s ← get ;
  match currentProject s with
  | None => skip
  | Some currentProject =>
      pollPageTask_poll (proj_id currentProject) pageId taskId
  end.

(** [generatePageImage(pageId, forceRegenerate = false)]. The task id is
    registered over the map read at entry. *)
Definition generatePageImage (pageId : string) (forceRegenerate : bool)
  : Prog unit :=
  s ← get ;
  match currentProject s with
  | None => skip
  | Some currentProject =>
      let pageGeneratingTasks0 := pageGeneratingTasks s in
      if held nonempty pageGeneratingTasks0 pageId then skip
      else
        set (set_error None) ;;
        try_catch
          (taskId ← await (generatePageImage_api (proj_id currentProject) pageId
                             forceRegenerate) ;
           if truthy_str taskId then
             set (set_pageGeneratingTasks
                    (<[pageId := default "" taskId]> pageGeneratingTasks0)) ;;
             syncProject None ;;
             pollPageTask pageId (default "" taskId)
           else syncProject None)
          (λ error,
             set (λ st,
                    set_error
                      (Some (normalizeErrorMessage
                               (Some (or_lit (err_message error) "生成圖片失敗"))))
                      (release_page pageId st)) ;;
             Throw error)
  end.

(** [editPageImage(pageId, editPrompt, contextImages)]. *)
Definition editPageImage (pageId editPrompt : string) (contextImages : value)
  : Prog unit :=
  s ← get ;
  match currentProject s with
  | None => skip
  | Some currentProject =>
      let pageGeneratingTasks0 := pageGeneratingTasks s in
      if held nonempty pageGeneratingTasks0 pageId then skip
      else
        set (set_error None) ;;
        try_catch
          (taskId ← await (editPageImage_api (proj_id currentProject) pageId
                             editPrompt contextImages) ;
           if truthy_str taskId then
             set (set_pageGeneratingTasks
                    (<[pageId := default "" taskId]> pageGeneratingTasks0)) ;;
             syncProject None ;;
             pollPageTask pageId (default "" taskId)
           else syncProject None)
          (λ error,
             set (λ st,
                    set_error
                      (Some (normalizeErrorMessage
                               (Some (or_lit (err_message error) "編輯圖片失敗"))))
                      (release_page pageId st)) ;;
             Throw error)
  end.

(** [generatePageDescription(pageId)]. *)
Definition generatePageDescription (pageId : string) : Prog unit :=
  s ← get ;
  match currentProject s with
  | None => skip
  | Some currentProject =>
      let pageDescriptionGeneratingTasks0 := pageDescriptionGeneratingTasks s in
      if held id pageDescriptionGeneratingTasks0 pageId then skip
      else
        set (set_error None) ;;
        set (set_pageDescriptionGeneratingTasks
               (<[pageId := true]> pageDescriptionGeneratingTasks0)) ;;
        try_finally
          (try_catch
             (syncProject None ;;
              await (generatePageDescription_api (proj_id currentProject)
                       pageId true) ;;
              syncProject None)
             (λ error,
                set (set_error
                       (Some (normalizeErrorMessage
                                (Some (or_lit (err_message error) "生成描述失敗"))))) ;;
                Throw error))
          (s' ← get ;
           set (set_pageDescriptionGeneratingTasks
                  (delete pageId (pageDescriptionGeneratingTasks s'))))
  end.

(** The key a page id gives in a [Record<string, boolean>], under the
    guard [if (page.id)]: any truthy id, made a string. *)
Definition page_key (page : Page) : option string :=
  if truthy (prop "id" page) then Some (js_to_string (prop "id" page)) else None.

(** [initialTasks] of [generateDescriptions]: every page with an id. *)
Definition mark_all (pages : list Page) : gmap string bool :=
  foldl (λ tasks page,
           match page_key page with
           | Some k => assign k true tasks
           | None => tasks
           end) ∅ pages.

(** [updatedTasks] of [pollAndSync]: the pages still generating. *)
Definition still_generating (initialTasks : gmap string bool)
    (pages : list Page) : gmap string bool :=
  foldl (λ tasks page,
           match page_key page with
           | Some k =>
               let hasDescription := truthy (prop "description_content" page) in
               let isGenerating :=
                 (strict_eq_str (prop "status" page) "GENERATING"
                  || (negb hasDescription && held id initialTasks k))%bool in
               if isGenerating then assign k true tasks else tasks
           | None => tasks
           end) ∅ pages.

(** The closure [pollAndSync] of [generateDescriptions]. *)
Definition pollAndSync (projectId taskId : string)
    (initialTasks : gmap string bool) : Prog unit :=
  try_catch
    (taskResponse ← await (getTaskStatus (Some projectId) taskId) ;
     match taskResponse with
     | None => skip
     | Some task =>
         (if truthy (task_progress task)
          then set (set_taskProgress (task_progress task)) else skip) ;;
         syncProject None ;;
         s ← get ;
         match currentProject s with
         | Some updatedProject =>
             set (set_pageDescriptionGeneratingTasks
                    (still_generating initialTasks (proj_pages updatedProject)))
         | None => skip
         end ;;
         if String.eqb (task_status task) "COMPLETED" then
           set (λ st, set_activeTaskId None
                        (set_taskProgress VNull
                           (set_pageDescriptionGeneratingTasks ∅ st))) ;;
           syncProject None
         else if String.eqb (task_status task) "FAILED" then
           set (λ st,
                  set_error
                    (Some (normalizeErrorMessage
                             (Some (or_lit (or_str (task_error_message task)
                                                   (task_error task))
                                           "生成描述失敗"))))
                    (set_activeTaskId None
                       (set_taskProgress VNull
                          (set_pageDescriptionGeneratingTasks ∅ st))))
         else if (String.eqb (task_status task) "PENDING"
                  || String.eqb (task_status task) "PROCESSING")%bool then
           setTimeout (CbPollAndSync projectId taskId initialTasks) 2000 ;; skip
         else skip
     end)
    (λ _,
       syncProject None ;;
       setTimeout (CbPollAndSync projectId taskId initialTasks) 2000 ;; skip).

(** [generateDescriptions()]. The second test of [projectId] inside the
    [try] cannot fail after the first and is left out. *)
Definition generateDescriptions : Prog unit :=
  s ← get ;
  match currentProject s with
  | None => skip
  | Some currentProject =>
      match proj_id currentProject with
      | None => skip
      | Some projectId =>
          if String.eqb projectId "" then skip
          else
            let pages := filter (λ p : Page, truthy (prop "id" p) = true)
                           (proj_pages currentProject) in
            match pages with
            | [] => skip
            | _ =>
                set (set_error None) ;;
                let initialTasks := mark_all pages in
                set (set_pageDescriptionGeneratingTasks initialTasks) ;;
                try_catch
                  (taskId ← await (generateDescriptions_api projectId) ;
                   if truthy_str taskId then
                     setTimeout
                       (CbPollAndSync projectId (default "" taskId) initialTasks)
                       2000 ;; skip
                   else Throw (Error "未收到任務ID"))
                  (λ error,
                     set (λ st,
                            set_error
                              (Some (normalizeErrorMessage
                                       (Some (or_lit (err_message error)
                                                     "啟動生成任務失敗"))))
                              (set_pageDescriptionGeneratingTasks ∅ st)) ;;
                     Throw error)
            end
      end
  end.

(** ** The event loop *)

(** The code of each closure. *)
Definition callback_body (cb : Callback) : Prog unit :=
  match cb with
  | CbDebouncedUpdatePage projectId pageId data =>
      persistPage projectId pageId data
  | CbPollTask projectId taskId => pollTask_poll projectId taskId
  | CbPollPageTask projectId pageId taskId =>
      pollPageTask_poll projectId pageId taskId
  | CbPollAndSync projectId taskId initialTasks =>
      pollAndSync projectId taskId initialTasks
  end.

(** The pending timer that fires first among those due by [limit]: the
    earliest due time, the oldest timer among equals. *)
Fixpoint next_due (limit : Z) (ts : list Timer) : option Timer :=
  match ts with
  | [] => None
  | t :: ts' =>
      match next_due limit ts' with
      | Some t' =>
          if (tm_due t <=? limit) && (tm_due t <=? tm_due t') then Some t
          else Some t'
      | None => if tm_due t <=? limit then Some t else None
      end
  end.

(** Fires the timers due by [limit], one after the other, and moves the
    clock to [limit]; [None] when [fuel] firings do not suffice. *)
Fixpoint run_timers (fuel : nat) (srv : Server) (limit : Z) (w : World)
  : option World :=
  match next_due limit (timers w) with
  | None => Some (with_clock limit w)
  | Some t =>
      match fuel with
      | O => None
      | S fuel' =>
          let w1 := with_clock (Z.max (clock w) (tm_due t))
                      (with_timers (remove_timer (tm_id t) (timers w)) w) in
          run_timers fuel' srv limit (run srv (callback_body (tm_cb t)) w1)
      end
  end.

(** Lets [ms] milliseconds pass. *)
Definition advance (fuel : nat) (srv : Server) (ms : Z) (w : World)
  : option World :=
  run_timers fuel srv (clock w + ms) w.

(** A world with nothing pending. *)
Definition world_of (st : State) (ls : option string) : World :=
  {| store := st; storage := ls; timeout_var := None; timers := [];
     clock := 0; next_timer := 1%positive; trace := [] |}.

(** ** The material generator's poller

    [pollMaterialTask] of the material generation dialog keeps its state in
    the component: the attempt counter, [isGenerating], the preview, the
    interval handle and the toasts shown. [getImageUrl] belongs to the API
    client. *)

Module Material.

Record PollState := {
  attempts : nat;
  isGenerating : bool;
  previewUrl : option string;
  (** [pollingIntervalRef.current] is set: the interval keeps firing *)
  polling : bool;
  toasts : list (string * string)
}.

Definition maxAttempts : nat := 60.

Definition show (message type : string) (m : PollState) : PollState :=
  {| attempts := attempts m; isGenerating := isGenerating m;
     previewUrl := previewUrl m; polling := polling m;
     toasts := toasts m ++ [(message, type)] |}.

(** [setIsGenerating(false)] and the clearing of the interval. *)
Definition stop (m : PollState) : PollState :=
  {| attempts := attempts m; isGenerating := false;
     previewUrl := previewUrl m; polling := false; toasts := toasts m |}.

Definition setPreviewUrl (url : string) (m : PollState) : PollState :=
  {| attempts := attempts m; isGenerating := isGenerating m;
     previewUrl := Some url; polling := polling m; toasts := toasts m |}.

Definition count_attempt (m : PollState) : PollState :=
  {| attempts := S (attempts m); isGenerating := isGenerating m;
     previewUrl := previewUrl m; polling := polling m; toasts := toasts m |}.

(** [progress.image_url] of a completed task. *)
Definition image_url (progress : value) : value :=
  match js_or progress (VObj ∅) with
  | VObj o => prop "image_url" o
  | _ => VUndefined
  end.

(** The [catch] of [poll]. *)
Definition poll_failed (m : PollState) : PollState :=
  if (maxAttempts <=? attempts m)%nat
  then stop (show "輪詢任務狀態失敗，請稍後檢視素材庫" "error" m)
  else m.

(** One run of the closure [poll], given the outcome of [getTaskStatus];
    [hasProject] is the truthiness of the [projectId] prop. Reading
    [task.status] of an absent task throws, which the [catch] receives.
    [getImageUrl] of the API client takes a string: an [image_url] that is
    truthy and no string is outside the model. *)
Definition poll (getImageUrl : string → string) (hasProject : bool)
    (outcome : JsError + option Task) (m0 : PollState) : PollState :=
  let m := count_attempt m0 in
  match outcome with
  | inl _ | inr None => poll_failed m
  | inr (Some task) =>
      if String.eqb (task_status task) "COMPLETED" then
        stop (match image_url (task_progress task) with
              | VStr imageUrl =>
                  if String.eqb imageUrl ""
                  then show "素材生成完成，但未找到圖片位址" "error" m
                  else show (if hasProject
                             then "素材生成成功，已保存到歷史素材庫"
                             else "素材生成成功，已保存到全域素材庫")
                            "success" (setPreviewUrl (getImageUrl imageUrl) m)
              | _ => show "素材生成完成，但未找到圖片位址" "error" m
              end)
      else if String.eqb (task_status task) "FAILED" then
        stop (show (or_lit (task_error_message task) "素材生成失敗") "error" m)
      else if (String.eqb (task_status task) "PENDING"
               || String.eqb (task_status task) "PROCESSING")%bool then
        if (maxAttempts <=? attempts m)%nat
        then stop (show "素材生成超時，請稍後檢視素材庫" "warning" m)
        else m
      else m
  end.

End Material.

(** The request at which a program first suspends, and the world at that
    moment: the effects before the first [await] have run, the request is
    not yet answered. *)
Fixpoint first_await {R} (srv : Server) (p : Prog R) (w : World)
  : option (Request * World) :=
  match p with
  | Ret _ | Throw _ => None
  | Do e k =>
      match e as e0
            return (Ans e0 → World → option (Request * World)) →
                   option (Request * World) with
      | ECall r => λ _, Some (r, w)
      | e0 => λ rest, let '(a, w') := handle srv e0 w in rest a w'
      end (λ a w', first_await srv (k a) w')
  end.

(** ** Observations used in the statements *)

(** The project id [syncProject] fetches, if any: its argument, else the
    id of the mirrored project, else the pointer in [localStorage]. *)
Definition sync_target (projectId : option string) (w : World) : option string :=
  let target :=
    if truthy_str projectId then projectId
    else if truthy_str (currentProject (store w) ≫= proj_id)
         then currentProject (store w) ≫= proj_id
         else or_str (storage w) None in
  if truthy_str target then target else None.

(** The server answered with status 404. *)
Definition is_not_found (e : JsError) : bool :=
  match err_response e with
  | Some (status, _) => status =? 404
  | None => false
  end.

(** The three endpoints that persist a page edit. *)
Definition is_page_write (r : Request) : bool :=
  match r with
  | updatePageDescription _ _ _ | updatePageOutline _ _ _ | updatePage _ _ _ => true
  | _ => false
  end.

Definition page_writes (tr : list Event) : list Request :=
  List.filter is_page_write (requests tr).

(** The page a write is for. *)
Definition written_page (r : Request) : option string :=
  match r with
  | updatePageDescription _ pageId _
  | updatePageOutline _ pageId _
  | updatePage _ pageId _ => Some pageId
  | _ => None
  end.

(** The write a firing of the debounced persist sends for an edit. *)
Definition persist_request (projectId : option string) (pageId : string)
    (data : PageData) : Request :=
  if truthy (prop "description_content" data) then
    updatePageDescription projectId pageId (prop "description_content" data)
  else if truthy (prop "outline_content" data) then
    updatePageOutline projectId pageId (prop "outline_content" data)
  else updatePage projectId pageId data.

(** A local edit, [gap] milliseconds after the previous one. *)
Record Edit := {
  gap : Z;
  edit_page : string;
  edit_data : PageData
}.

(** The edits, each made through [updatePageLocal] after its gap. *)
Fixpoint apply_edits (fuel : nat) (srv : Server) (edits : list Edit) (w : World)
  : option World :=
  match edits with
  | [] => Some w
  | e :: es =>
      match advance fuel srv (gap e) w with
      | Some w1 =>
          apply_edits fuel srv es
            (run srv (updatePageLocal (edit_page e) (edit_data e)) w1)
      | None => None
      end
  end.

(** What a poller run shows of polls and resynchronizations, in order. *)
Inductive PollEvent :=
| Polled
| Synced.

Definition poll_view (tr : list Event) : list PollEvent :=
  omap (λ ev, match ev with
              | EvCall (getTaskStatus _ _) => Some Polled
              | EvSync _ => Some Synced
              | _ => None
              end) tr.

Definition syncs (tr : list Event) : nat :=
  length (List.filter (λ v, match v with Synced => true | Polled => false end)
            (poll_view tr)).

Definition is_poll (r : Request) : bool :=
  match r with
  | getTaskStatus _ _ => true
  | _ => false
  end.

Definition count_polls (hist : list Request) : nat :=
  length (List.filter is_poll hist).

(** After [n] status polls, the server answers the next ones with [tasks],
    in order. *)
Definition answers_polls_from (srv : Server) (n : nat) (tasks : list Task) : Prop :=
  ∀ hist pid tid (i : nat) task,
    count_polls hist = (n + i)%nat →
    tasks !! i = Some task →
    srv hist (getTaskStatus pid tid) = inr (Some task).

(** A server that answers the status polls with [tasks] and every other
    request like [other]. *)
Definition polls_server (tasks : list Task) (other : Server) : Server :=
  λ hist r,
    match r as r0 return Outcome r0 with
    | getTaskStatus pid tid =>
        match tasks !! count_polls hist with
        | Some task => inr (Some task)
        | None => other hist (getTaskStatus pid tid)
        end
    | r0 => other hist r0
    end.

(** A server whose every request fails on the network. *)
Definition network_error : JsError :=
  {| err_response := None; err_request := true;
     err_message := Some "Network Error" |}.

Definition offline : Server := λ _ _, inl network_error.

(** A server that accepts every write and knows no project or task. *)
Definition quiet : Server :=
  λ _ r,
    match r as r0 return Outcome r0 with
    | getProject _ => inr None
    | getTaskStatus _ _ => inr None
    | generatePageImage_api _ _ _ => inr None
    | editPageImage_api _ _ _ _ => inr None
    | generateDescriptions_api _ => inr None
    | updatePageDescription _ _ _ => inr ()
    | updatePageOutline _ _ _ => inr ()
    | updatePage _ _ _ => inr ()
    | updatePagesOrder _ _ => inr ()
    | generatePageDescription_api _ _ _ => inr ()
    end.

(** The answer to a fetch of a project that was deleted. *)
Definition not_found_error : JsError :=
  {| err_response := Some (404, None); err_request := true;
     err_message := Some "Request failed with status code 404" |}.

(** A server on which no project exists any more. *)
Definition gone : Server :=
  λ hist r,
    match r as r0 return Outcome r0 with
    | getProject _ => inl not_found_error
    | r0 => quiet hist r0
    end.

(** A small project used in the examples: pages [p1], [p2], [p3]. *)
Definition page_of (id title : string) : Page :=
  {[ "id" := VStr id; "title" := VStr title ]}.

Definition demo_project : Project :=
  {| proj_project_id := Some "proj-1";
     proj_id := Some "proj-1";
     proj_pages := [page_of "p1" "one"; page_of "p2" "two"; page_of "p3" "three"];
     proj_attrs := {[ "status" := VStr "DRAFT" ]} |}.

Definition demo_state : State := set_currentProject (Some demo_project) initialState.

Definition demo_world : World := world_of demo_state (Some "proj-1").

(** The world [syncProject] leaves, by cases on the target and on the
    server's answer (proved to be its run in [exec_syncProject]). *)
Definition sync_result (srv : Server) (projectId : option string) (w : World)
  : World :=
  match sync_target projectId w with
  | None => log_event (EvSync projectId) w
  | Some target =>
      let w1 := log_event (EvCall (getProject target))
                  (log_event (EvSync projectId) w) in
      match srv (requests (trace w)) (getProject target) with
      | inr (Some data) =>
          with_storage (Some (default "undefined" (proj_id (normalizeProject data))))
            (with_store (set_currentProject (Some (normalizeProject data))) w1)
      | inr None => w1
      | inl e =>
          if is_not_found e then
            with_store (λ st, set_error
                                (Some (normalizeErrorMessage (Some (sync_error e).1)))
                                (set_currentProject None st))
              (with_storage None w1)
          else
            with_store (set_error
                          (Some (normalizeErrorMessage (Some (sync_error e).1)))) w1
      end
  end.

Arguments normalizeErrorMessage : simpl never.
Arguments normalizeProject : simpl never.
Arguments requests : simpl never.
Arguments poll_view : simpl never.
Arguments page_writes : simpl never.
Arguments sync_error : simpl never.
Arguments syncProject : simpl never.

(** The demo world while an image task and a description task of page
    [p1] are registered. *)
Definition busy_world : World :=
  with_store (λ st, set_pageDescriptionGeneratingTasks {[ "p1" := true ]}
                      (set_pageGeneratingTasks {[ "p1" := "task-9" ]} st))
    demo_world.

Definition two_pages_snapshot : RawProject :=
  {| raw_project_id := Some "proj-1"; raw_id := None;
     raw_pages := Some [ {[ "page_id" := VStr "p2" ]}; {[ "page_id" := VStr "p1" ]} ];
     raw_attrs := ∅ |}.

(** A server that refuses the reorder and serves [two_pages_snapshot]. *)
Definition refuses_reorder : Server :=
  λ hist r,
    match r as r0 return Outcome r0 with
    | updatePagesOrder _ _ => inl network_error
    | getProject _ => inr (Some two_pages_snapshot)
    | r0 => quiet hist r0
    end.

(** The world in which the event loop runs the callback of timer [t]:
    the timer is gone and the clock has reached its due time. *)
Definition fired (t : Timer) (w : World) : World :=
  with_clock (Z.max (clock w) (tm_due t))
    (with_timers (remove_timer (tm_id t) (timers w)) w).

(** A tick that goes on: it showed [view] and left one more timer, for
    [cb], 2000 ms ahead. *)
Definition ticked (view : list PollEvent) (cb : Callback) (w w' : World) : Prop :=
  timers w' = timers w ++ [{| tm_id := next_timer w; tm_due := clock w + 2000;
                              tm_cb := cb |}] ∧
  clock w' = clock w ∧
  poll_view (trace w') = poll_view (trace w) ++ view ∧
  count_polls (requests (trace w')) = S (count_polls (requests (trace w))).

(** A tick that ends the polling: it showed [view] and left no timer. *)
Definition finished (view : list PollEvent) (w w' : World) : Prop :=
  timers w' = timers w ∧
  clock w' = clock w ∧
  poll_view (trace w') = poll_view (trace w) ++ view ∧
  count_polls (requests (trace w')) = S (count_polls (requests (trace w))).

(** A status with which the pollers go on polling. *)
Definition in_progress (status : string) : Prop :=
  status = "PENDING" ∨ status = "PROCESSING".

(** A status none of the pollers knows. *)
Definition unknown_status (status : string) : Prop :=
  status ≠ "COMPLETED" ∧ status ≠ "FAILED" ∧
  status ≠ "PENDING" ∧ status ≠ "PROCESSING".

Definition task_with (status : string) : Task :=
  {| task_status := status; task_progress := VUndefined;
     task_error_message := None; task_error := None |}.

(** The state of the debounce after an edit [e] of a project with the id
    of [cp]: one timer, a full window ahead, holds the persist of [e]; the
    variable [timeout] names it; [writes] are the page writes sent so far. *)
Definition pending (cp : Project) (e : Edit) (writes : list Request) (w : World)
  : Prop :=
  ∃ id,
    timers w = [{| tm_id := id; tm_due := clock w + 1000;
                   tm_cb := CbDebouncedUpdatePage (proj_id cp) (edit_page e)
                              (edit_data e) |}] ∧
    timeout_var w = Some id ∧
    page_writes (trace w) = writes ∧
    ∃ cp', currentProject (store w) = Some cp' ∧ proj_id cp' = proj_id cp.

(** An edit made within the window opened by the previous one. *)
Definition in_window (e : Edit) : Prop := 0 ≤ gap e < 1000.

(** Two edits of different pages, half a window apart. *)
Definition two_page_edits : list Edit :=
  [ {| gap := 0; edit_page := "p1"; edit_data := {[ "title" := VStr "A" ]} |};
    {| gap := 500; edit_page := "p2"; edit_data := {[ "title" := VStr "B" ]} |} ].

(** The page writes sent by the edits and the closing of the window. *)
Definition writes_after (srv : Server) (edits : list Edit) (w : World)
  : option (list Request) :=
  match apply_edits 1 srv edits w with
  | Some w1 => page_writes ∘ trace <$> advance 1 srv 1000 w1
  | None => None
  end.

(** The four answers of the scenario. *)
Definition scenario_tasks : list Task :=
  [task_with "PENDING"; task_with "PROCESSING"; task_with "PROCESSING";
   task_with "COMPLETED"].

(** What a run of a poller over the scenario shows. *)
Definition scenario_view (poller : Prog unit) : option (list PollEvent) :=
  poll_view ∘ trace
    <$> advance 3 (polls_server scenario_tasks quiet) 6000
          (run (polls_server scenario_tasks quiet) poller demo_world).

(** The demo world while a global task is being polled. *)
Definition loading_world : World :=
  with_store (λ st, set_isGlobalLoading true (set_activeTaskId (Some "task-1") st))
    demo_world.

(** A failed task with the server's message. *)
Definition failed_task (message : string) : Task :=
  {| task_status := "FAILED"; task_progress := VUndefined;
     task_error_message := Some message; task_error := None |}.

(** The server never answers a fetch of a project with 404. *)
Definition never_not_found (srv : Server) : Prop :=
  ∀ hist target e, srv hist (getProject target) = inl e → is_not_found e = false.

(** Running [p] leaves a pointer that is set, set. *)
Definition keeps_pointer {R} (srv : Server) (p : Prog R) : Prop :=
  ∀ w, storage w ≠ None → storage (run srv p w) ≠ None.

(** ** Further observations *)

(** The outcomes of a status poll on which [pollPageTask] stops polling
    for good: a failed request, or a task whose status is neither PENDING
    nor PROCESSING. *)
Definition ends_polling {pid tid} (o : Outcome (getTaskStatus pid tid)) : Prop :=
  match o with
  | inl _ => True
  | inr (Some task) => ¬ in_progress (task_status task)
  | inr None => False
  end.

(** The condition under which [pollAndSync] keeps a page flagged. *)
Definition is_generating (initialTasks : gmap string bool) (page : Page) : bool :=
  match page_key page with
  | Some k =>
      strict_eq_str (prop "status" page) "GENERATING"
      || (negb (truthy (prop "description_content" page))
          && held id initialTasks k)
  | None => false
  end.

(** ** The actions that use the other endpoints

    The rest of [api] as the store calls it. What the store reads of a
    response: [response.data?.project_id] for [createProject],
    [response.data?.task_id] for [generateImages], the truthiness of
    [response.data] for [addPage]; nothing for the others. *)

(** A [File], named. *)
Definition File : Type := string.

Inductive Endpoint :=
| createProject (request : gmap string value)
| uploadTemplate (projectId : string) (templateImage : File)
| generateFromDescription_api (projectId : option string) (content : option string)
| addPage (projectId : option string) (newPage : gmap string value)
| deletePage (projectId : option string) (pageId : string)
| generateOutline_api (projectId : option string)
| generateImages_api (projectId : option string).

Definition Reply (r : Endpoint) : Type :=
  match r with
  | createProject _ => option string
  | generateImages_api _ => option string
  | addPage _ _ => bool
  | _ => unit
  end.

Definition Settled (r : Endpoint) : Type := JsError + Reply r.

(** Programs that may also call these endpoints; [Step] is an effect of
    [Prog]. *)
Inductive Act (R : Type) : Type :=
| Done (r : R)
| Fail (e : JsError)
| Step (e : Eff) (k : Ans e → Act R)
| Ask (r : Endpoint) (k : Settled r → Act R).

Arguments Done {R} r.
Arguments Fail {R} e.
Arguments Step {R} e k.
Arguments Ask {R} r k.

Fixpoint act_bind {A B} (p : Act A) (f : A → Act B) : Act B :=
  match p with
  | Done a => f a
  | Fail e => Fail e
  | Step e k => Step e (λ a, act_bind (k a) f)
  | Ask r k => Ask r (λ o, act_bind (k o) f)
  end.

#[export] Instance act_ret : MRet Act := @Done.
#[export] Instance act_mbind : MBind Act := λ A B f p, act_bind p f.

(** [try { p } catch (e) { h e }]. *)
Fixpoint act_catch {R} (p : Act R) (h : JsError → Act R) : Act R :=
  match p with
  | Done r => Done r
  | Fail e => h e
  | Step e k => Step e (λ a, act_catch (k a) h)
  | Ask r k => Ask r (λ o, act_catch (k o) h)
  end.

(** [try { p } finally { fin }]. *)
Fixpoint act_finally {R} (p : Act R) (fin : Act unit) : Act R :=
  match p with
  | Done r => fin ;; Done r
  | Fail e => fin ;; Fail e
  | Step e k => Step e (λ a, act_finally (k a) fin)
  | Ask r k => Ask r (λ o, act_finally (k o) fin)
  end.

(** An action of [Prog], as it is. *)
Fixpoint lift {R} (p : Prog R) : Act R :=
  match p with
  | Ret r => Done r
  | Throw e => Fail e
  | Do e k => Step e (λ a, lift (k a))
  end.

(** [await api.r(...)]. *)
Definition ask (r : Endpoint) : Act (Reply r) :=
  Ask r (λ o, match o with inl e => Fail e | inr x => Done x end).

(** The world, and the calls of these endpoints so far. *)
Record Site := {
  world : World;
  asked : list Endpoint
}.

Definition Backend : Type := list Endpoint → ∀ r : Endpoint, Settled r.

Fixpoint act_exec {R} (srv : Server) (api : Backend) (p : Act R) (s : Site)
  : Completion R * Site :=
  match p with
  | Done r => (Returned r, s)
  | Fail e => (Raised e, s)
  | Step e k =>
      let '(a, w') := handle srv e (world s) in
      act_exec srv api (k a) {| world := w'; asked := asked s |}
  | Ask r k =>
      act_exec srv api (k (api (asked s) r))
        {| world := world s; asked := asked s ++ [r] |}
  end.

(** What [normalizeProject(undefined)] throws (the message is V8's). *)
Definition undefined_data : JsError :=
  Error "Cannot read properties of undefined (reading 'project_id')".

(** [initializeProject(type, content, templateImage)]. *)
Definition initializeProject (type content : string) (templateImage : option File)
  : Act unit :=
  lift (set (λ st, set_error None (set_isGlobalLoading true st))) ;;
  act_finally
    (act_catch
       (let request : gmap string value :=
          if String.eqb type "idea" then {[ "idea_prompt" := VStr content ]}
          else if String.eqb type "outline" then {[ "outline_text" := VStr content ]}
          else if String.eqb type "description"
               then {[ "description_text" := VStr content ]}
          else ∅ in
        response ← ask (createProject request) ;
        match response with
        | Some projectId =>
            if String.eqb projectId "" then
              Fail (Error "專案建立失敗：未返回專案ID")
            else
              match templateImage with
              | Some file =>
                  act_catch (ask (uploadTemplate projectId file)) (λ _, Done ())
              | None => Done ()
              end ;;
              (if String.eqb type "description" then
                 act_catch
                   (ask (generateFromDescription_api (Some projectId) (Some content)))
                   (λ _, Done ())
               else Done ()) ;;
              projectResponse ← lift (await (getProject projectId)) ;
              match projectResponse with
              | Some data =>
                  let project := normalizeProject data in
                  lift (set (set_currentProject (Some project))) ;;
                  lift (perform (EStorageSet (default "undefined" (proj_id project))))
              | None => Fail undefined_data
              end
        | None => Fail (Error "專案建立失敗：未返回專案ID")
        end)
       (λ error,
          lift (set (set_error
                       (Some (normalizeErrorMessage
                                (Some (or_lit (err_message error) "建立專案失敗")))))) ;;
          Fail error))
    (lift (set (set_isGlobalLoading false))).

(** [addNewPage()]. *)
Definition addNewPage : Act unit :=
  s ← lift get ;
  match currentProject s with
  | None => Done ()
  | Some currentProject =>
      act_catch
        (let newPage : gmap string value :=
           {[ "outline_content" :=
                VObj {[ "title" := VStr "新頁面"; "points" := VArr [] ]};
              "order_index" :=
                VNum (Z.of_nat (length (proj_pages currentProject))) ]} in
         data ← ask (addPage (proj_id currentProject) newPage) ;
         if data : bool then lift (syncProject None) else Done ())
        (λ error,
           lift (set (set_error (Some (or_lit (err_message error) "新增頁面失敗")))))
  end.

(** [deletePageById(pageId)]. *)
Definition deletePageById (pageId : string) : Act unit :=
  s ← lift get ;
  match currentProject s with
  | None => Done ()
  | Some currentProject =>
      act_catch
        (ask (deletePage (proj_id currentProject) pageId) ;;
         lift (syncProject None))
        (λ error,
           lift (set (set_error (Some (or_lit (err_message error) "刪除頁面失敗")))))
  end.

(** [startAsyncTask(apiCall)]; [apiCall] gives [response.data?.task_id]. *)
Definition startAsyncTask (apiCall : Act (option string)) : Act unit :=
  lift (set (λ st, set_error None (set_isGlobalLoading true st))) ;;
  act_catch
    (taskId ← apiCall ;
     match taskId with
     | Some id =>
         if String.eqb id "" then
           lift (syncProject None) ;;
           lift (set (set_isGlobalLoading false))
         else
           lift (set (set_activeTaskId (Some id))) ;;
           lift (pollTask id)
     | None =>
         lift (syncProject None) ;;
         lift (set (set_isGlobalLoading false))
     end)
    (λ error,
       lift (set (λ st, set_isGlobalLoading false
                          (set_error (Some (or_lit (err_message error) "任務啟動失敗"))
                             st))) ;;
       Fail error).

(** [generateImages()]. *)
Definition generateImages : Act unit :=
  s ← lift get ;
  match currentProject s with
  | None => Done ()
  | Some currentProject =>
      startAsyncTask (ask (generateImages_api (proj_id currentProject)))
  end.

(** [generateOutline()]. *)
Definition generateOutline : Act unit :=
  s ← lift get ;
  match currentProject s with
  | None => Done ()
  | Some currentProject =>
      lift (set (λ st, set_error None (set_isGlobalLoading true st))) ;;
      act_finally
        (act_catch
           (ask (generateOutline_api (proj_id currentProject)) ;;
            lift (syncProject None))
           (λ error,
              lift (set (set_error (Some (or_lit (err_message error) "生成大綱失敗")))) ;;
              Fail error))
        (lift (set (set_isGlobalLoading false)))
  end.

(** [generateFromDescription()]. *)
Definition generateFromDescription : Act unit :=
  s ← lift get ;
  match currentProject s with
  | None => Done ()
  | Some currentProject =>
      lift (set (λ st, set_error None (set_isGlobalLoading true st))) ;;
      act_finally
        (act_catch
           (ask (generateFromDescription_api (proj_id currentProject) None) ;;
            lift (syncProject None))
           (λ error,
              lift (set (set_error (Some (or_lit (err_message error) "從描述生成失敗")))) ;;
              Fail error))
        (lift (set (set_isGlobalLoading false)))
  end.

(** [saveAllPages()]. The promise of the 1500 ms timer resolves after
    every timer that was pending and due by then has fired; the id passed
    to [syncProject] is the one read before the wait. [None] when [fuel]
    firings do not suffice. *)
Definition saveAllPages (fuel : nat) (srv : Server) (w : World) : option World :=
  match currentProject (store w) with
  | None => Some w
  | Some currentProject =>
      match advance fuel srv 1500 w with
      | Some w1 => Some (run srv (syncProject (proj_id currentProject)) w1)
      | None => None
      end
  end.

(** ** [throttle] (utils)

    The closure returned by [throttle(func, limit)]: its variable
    [inThrottle] ([undefined] at first, which is falsy), the reset timers it
    has pending, the time, and the calls of [func] it let through, with
    their times. [func] returns or throws ([throws]). A reset is due
    [limit] after it is set, as [setTimeout] has it for a delay below
    2^31 ms; a negative delay fires at the next turn, like none. *)

Module Throttle.
Section Throttle.
Context {A : Type} (throws : A → bool) (limit : Z).

Record Closure := {
  inThrottle : bool;
  resets : list Z;
  now : Z;
  passed : list (Z * A)
}.

Definition fresh : Closure :=
  {| inThrottle := false; resets := []; now := 0; passed := [] |}.

(** The returned function, applied to [args]. A throw of [func] leaves
    before [inThrottle] is set. *)
Definition throttle (args : A) (c : Closure) : Closure :=
  if inThrottle c then c
  else if throws args then
    {| inThrottle := inThrottle c; resets := resets c; now := now c;
       passed := passed c ++ [(now c, args)] |}
  else
    {| inThrottle := true; resets := resets c ++ [now c + limit]; now := now c;
       passed := passed c ++ [(now c, args)] |}.

(** [ms] milliseconds pass; the reset timers due by then fire. *)
Definition elapse (ms : Z) (c : Closure) : Closure :=
  let t := now c + ms in
  {| inThrottle := if existsb (λ due, due <=? t) (resets c) then false
                   else inThrottle c;
     resets := List.filter (λ due, t <? due) (resets c);
     now := t;
     passed := passed c |}.

Inductive Action :=
| Call (args : A)
| Wait (ms : Z).

Definition act (c : Closure) (a : Action) : Closure :=
  match a with
  | Call args => throttle args c
  | Wait ms => elapse ms c
  end.

Definition play (actions : list Action) : Closure := foldl act fresh actions.

(** Time does not run backwards. *)
Definition forward (a : Action) : Prop :=
  match a with
  | Wait ms => 0 ≤ ms
  | Call _ => True
  end.

End Throttle.
End Throttle.

(** ** The form of the material generator

    The reference images of [MaterialGeneratorModal]: [refImage],
    [extraImages], and the toasts its handlers show. *)

Module MaterialForm.

Record Form := {
  refImage : option File;
  extraImages : list File;
  toasts : list (string * string)
}.

Definition show (message type : string) (f : Form) : Form :=
  {| refImage := refImage f; extraImages := extraImages f;
     toasts := toasts f ++ [(message, type)] |}.

(** [handleRefImageChange]; [files] is [e.target.files], empty when null. *)
Definition handleRefImageChange (files : list File) (f : Form) : Form :=
  match files with
  | file :: _ =>
      {| refImage := Some file; extraImages := extraImages f; toasts := toasts f |}
  | [] => f
  end.

(** [handleExtraImagesChange]: without a main reference the first file
    becomes it. *)
Definition handleExtraImagesChange (files : list File) (f : Form) : Form :=
  match files with
  | [] => f
  | first :: rest =>
      match refImage f with
      | None =>
          {| refImage := Some first;
             extraImages := match rest with
                            | [] => extraImages f
                            | _ :: _ => extraImages f ++ rest
                            end;
             toasts := toasts f |}
      | Some _ =>
          {| refImage := refImage f; extraImages := extraImages f ++ files;
             toasts := toasts f |}
      end
  end.

(** [prev.filter((_, i) => ...)], from index [i] on. *)
Fixpoint filter_index {A} (keep : A → nat → bool) (i : nat) (xs : list A) : list A :=
  match xs with
  | [] => []
  | x :: xs' =>
      if keep x i then x :: filter_index keep (S i) xs'
      else filter_index keep (S i) xs'
  end.

(** [removeExtraImage(index)]. *)
Definition removeExtraImage (index : nat) (f : Form) : Form :=
  {| refImage := refImage f;
     extraImages := filter_index (λ _ i, negb (i =? index)%nat) 0 (extraImages f);
     toasts := toasts f |}.

(** [handleSelectMaterials], given what the conversion of the materials
    to files resolved or rejected with. *)
Definition handleSelectMaterials (files : JsError + list File) (f : Form) : Form :=
  match files with
  | inr [] => f
  | inr ((first :: rest) as files) =>
      show ("已加入 " +:+ pretty (length files) +:+ " 個素材") "success"
        match refImage f with
        | None =>
            {| refImage := Some first;
               extraImages := match rest with
                              | [] => extraImages f
                              | _ :: _ => extraImages f ++ rest
                              end;
               toasts := toasts f |}
        | Some _ =>
            {| refImage := refImage f; extraImages := extraImages f ++ files;
               toasts := toasts f |}
        end
  | inl error =>
      show ("載入素材失敗: " +:+ or_lit (err_message error) "未知錯誤") "error" f
  end.

(** Every image chosen, the main reference first. *)
Definition chosen (f : Form) : list File :=
  option_list (refImage f) ++ extraImages f.

End MaterialForm.

(** ** Servers and sites of the examples *)

(** A server that starts a task for every submission, answers the status
    polls with [tasks] and otherwise behaves like [quiet]. *)
Definition starts_tasks (taskId : string) (tasks : list Task) : Server :=
  polls_server tasks
    (λ hist r,
       match r as r0 return Outcome r0 with
       | generatePageImage_api _ _ _ => inr (Some taskId)
       | editPageImage_api _ _ _ _ => inr (Some taskId)
       | generateDescriptions_api _ => inr (Some taskId)
       | r0 => quiet hist r0
       end).

(** A backend that accepts everything: it creates the project
    [projectId] and starts the task [taskId]. *)
Definition accepting (projectId taskId : string) : Backend :=
  λ _ r,
    match r as r0 return Settled r0 with
    | createProject _ => inr (Some projectId)
    | generateImages_api _ => inr (Some taskId)
    | addPage _ _ => inr true
    | uploadTemplate _ _ => inr ()
    | generateFromDescription_api _ _ => inr ()
    | deletePage _ _ => inr ()
    | generateOutline_api _ => inr ()
    end.

(** A backend that creates the project but fails its optional steps. *)
Definition creating_only (projectId : string) : Backend :=
  λ _ r,
    match r as r0 return Settled r0 with
    | createProject _ => inr (Some projectId)
    | _ => inl network_error
    end.

(** A backend out of reach. *)
Definition unreachable : Backend := λ _ _, inl network_error.

(** The home page before any project, and the demo project opened. *)
Definition home_site : Site :=
  {| world := world_of initialState None; asked := [] |}.

Definition demo_site : Site := {| world := demo_world; asked := [] |}.

(** An edit of the title of [p1], and the demo world just after it. *)
Definition title_edit : Edit :=
  {| gap := 0; edit_page := "p1"; edit_data := {[ "title" := VStr "A" ]} |}.

Definition editing_world : World :=
  run quiet (updatePageLocal (edit_page title_edit) (edit_data title_edit)) demo_world.


(** ** Properties *)

Section ExecLaws.
Context (srv : Server).

Lemma exec_bind {A B} (p : Prog A) (f : A → Prog B) (w : World) :
  exec srv (p ≫= f) w =
  match exec srv p w with
  | (Returned a, w') => exec srv (f a) w'
  | (Raised e, w') => (Raised e, w')
  end.
Proof.
  revert w. induction p as [a|e|e k IH]; intros w; cbn; try reflexivity.
  destruct (handle srv e w) as [a w']. apply IH.
Qed.

Lemma exec_try_catch {R} (p : Prog R) (h : JsError → Prog R) (w : World) :
  exec srv (try_catch p h) w =
  match exec srv p w with
  | (Returned r, w') => (Returned r, w')
  | (Raised e, w') => exec srv (h e) w'
  end.
Proof.
  revert w. induction p as [a|e|e k IH]; intros w; cbn; try reflexivity.
  destruct (handle srv e w) as [a w']. apply IH.
Qed.

End ExecLaws.

Lemma requests_app (tr1 tr2 : list Event) :
  requests (tr1 ++ tr2) = requests tr1 ++ requests tr2.
Proof. apply omap_app. Qed.

Lemma poll_view_app (tr1 tr2 : list Event) :
  poll_view (tr1 ++ tr2) = poll_view tr1 ++ poll_view tr2.
Proof. apply omap_app. Qed.

Lemma page_writes_app (tr1 tr2 : list Event) :
  page_writes (tr1 ++ tr2) = page_writes tr1 ++ page_writes tr2.
Proof. unfold page_writes. by rewrite requests_app, List.filter_app. Qed.

Lemma count_polls_app (h1 h2 : list Request) :
  count_polls (h1 ++ h2) = (count_polls h1 + count_polls h2)%nat.
Proof. unfold count_polls. by rewrite List.filter_app, length_app. Qed.

(** The [catch] of [syncProject] clears the pointer exactly on a 404. *)
Lemma sync_error_clears (e : JsError) : (sync_error e).2 = is_not_found e.
Proof.
  unfold sync_error, is_not_found.
  destruct (err_response e) as [[status d]|].
  - destruct (status =? 404); [done|].
    by repeat match goal with |- context [if ?c then _ else _] => destruct c end.
  - by repeat match goal with |- context [if ?c then _ else _] => destruct c end.
Qed.

Lemma requests_snoc_sync tr a : requests (tr ++ [EvSync a]) = requests tr.
Proof. rewrite requests_app. apply app_nil_r. Qed.

Lemma requests_snoc_call tr r : requests (tr ++ [EvCall r]) = requests tr ++ [r].
Proof. by rewrite requests_app. Qed.

(** *** [syncProject] *)

Section Sync.
Context (srv : Server).

(** [syncProject] never throws, and leaves the world [sync_result]. *)
Lemma exec_syncProject (projectId : option string) (w : World) :
  exec srv (syncProject projectId) w = (Returned (), sync_result srv projectId w).
Proof.
  unfold syncProject, sync_result, sync_target. cbn.
  destruct (truthy_str projectId) eqn:E1; cbn.
  - rewrite E1. destruct projectId as [t|]; [|done]. cbn in E1. cbn.
    destruct (String.eqb t ""); [done|]. cbn. rewrite requests_snoc_sync.
    destruct (srv _ _) as [e|[raw|]]; cbn; try done.
    rewrite <- sync_error_clears. by destruct (sync_error e) as [m [|]].
  - destruct (truthy_str (currentProject (store w) ≫= proj_id)) eqn:E2; cbn.
    + rewrite E2. destruct (currentProject (store w) ≫= proj_id) as [t|]; [|done].
      cbn in E2. cbn. destruct (String.eqb t ""); [done|]. cbn.
      rewrite requests_snoc_sync.
      destruct (srv _ _) as [e|[raw|]]; cbn; try done.
      rewrite <- sync_error_clears. by destruct (sync_error e) as [m [|]].
    + unfold or_str. destruct (truthy_str (storage w)) eqn:E3; rewrite ?E3; cbn.
      * destruct (storage w) as [t|]; [|done]. cbn in E3. cbn.
        destruct (String.eqb t ""); [done|]. cbn.
        rewrite requests_snoc_sync.
        destruct (srv _ _) as [e|[raw|]]; cbn; try done.
        rewrite <- sync_error_clears. by destruct (sync_error e) as [m [|]].
      * done.
Qed.

Lemma run_syncProject (projectId : option string) (w : World) :
  run srv (syncProject projectId) w = sync_result srv projectId w.
Proof. unfold run. by rewrite exec_syncProject. Qed.

(** What a resynchronization leaves alone: timers, clock, the debounce
    variable, and every field of the store but the mirror and the error. *)
Lemma sync_result_frame (projectId : option string) (w : World) :
  let w' := sync_result srv projectId w in
  timers w' = timers w ∧ clock w' = clock w ∧ next_timer w' = next_timer w ∧
  timeout_var w' = timeout_var w ∧
  isGlobalLoading (store w') = isGlobalLoading (store w) ∧
  activeTaskId (store w') = activeTaskId (store w) ∧
  taskProgress (store w') = taskProgress (store w) ∧
  pageGeneratingTasks (store w') = pageGeneratingTasks (store w) ∧
  pageDescriptionGeneratingTasks (store w') =
    pageDescriptionGeneratingTasks (store w).
Proof.
  unfold sync_result. destruct (sync_target projectId w) as [t|]; [|done].
  destruct (srv _ _) as [e|[raw|]]; [destruct (is_not_found e)| |]; done.
Qed.

(** The events of a resynchronization: the mark, then at most the fetch. *)
Lemma sync_result_trace (projectId : option string) (w : World) :
  trace (sync_result srv projectId w) =
  trace w ++ EvSync projectId ::
    match sync_target projectId w with
    | Some target => [EvCall (getProject target)]
    | None => []
    end.
Proof.
  unfold sync_result. destruct (sync_target projectId w) as [t|]; [|done].
  destruct (srv _ _) as [e|[raw|]]; [destruct (is_not_found e)| |]; cbn;
    by rewrite <- app_assoc.
Qed.

End Sync.

(** C5. For every run of [syncProject] that fetches a project: when the
    server answers 404, the pointer in [localStorage] is cleared and the
    mirror is emptied; a pointer that was set is cleared by no other path;
    and on any other failure of the fetch the pointer and the whole store
    but its error string are as before. *)
Theorem syncProject_not_found_and_other_failures
    (srv : Server) (projectId : option string) (w : World) :
  let w' := run srv (syncProject projectId) w in
  (∀ target e,
      sync_target projectId w = Some target →
      srv (requests (trace w)) (getProject target) = inl e →
      is_not_found e = true →
      storage w' = None ∧ currentProject (store w') = None) ∧
  (storage w ≠ None → storage w' = None →
     ∃ target e,
       sync_target projectId w = Some target ∧
       srv (requests (trace w)) (getProject target) = inl e ∧
       is_not_found e = true) ∧
  (∀ target e,
      sync_target projectId w = Some target →
      srv (requests (trace w)) (getProject target) = inl e →
      is_not_found e = false →
      storage w' = storage w ∧
      currentProject (store w') = currentProject (store w) ∧
      ∃ msg, store w' = set_error (Some msg) (store w)).
Proof.
  cbv zeta. rewrite run_syncProject. unfold sync_result.
  split; [|split].
  - by intros target e -> -> ->.
  - intros Hset Hnone. destruct (sync_target projectId w) as [t|]; [|done].
    destruct (srv _ _) as [e|[raw|]] eqn:Hsrv; [|done..].
    destruct (is_not_found e) eqn:H404; [by eauto|done].
  - intros target e -> -> ->. eauto.
Qed.

Lemma syncProject_not_found_witness :
  storage (run gone (syncProject None) demo_world) = None ∧
  currentProject (store (run gone (syncProject None) demo_world)) = None.
Proof.
  apply (proj1 (syncProject_not_found_and_other_failures gone None demo_world)
           "proj-1" not_found_error); reflexivity.
Defined.

(** *** [updatePageLocal] *)

(** C9. [updatePageLocal(pageId, data)] with a project loaded replaces each
    page whose id is [pageId] by its merge with [data] and keeps every other
    page, in place; the project's other attributes, the rest of the store
    and the pointer are unchanged and no request is sent by the call. With
    no project loaded the world is unchanged: nothing is set, no timer is
    started, no request is sent. *)
Theorem updatePageLocal_frame
    (srv : Server) (pageId : string) (data : PageData) (w : World) :
  let w' := run srv (updatePageLocal pageId data) w in
  match currentProject (store w) with
  | None => w' = w
  | Some cp =>
      ∃ cp',
        store w' = set_currentProject (Some cp') (store w) ∧
        proj_id cp' = proj_id cp ∧
        proj_project_id cp' = proj_project_id cp ∧
        proj_attrs cp' = proj_attrs cp ∧
        length (proj_pages cp') = length (proj_pages cp) ∧
        (∀ (i : nat) (page : Page),
            proj_pages cp !! i = Some page →
            proj_pages cp' !! i =
              Some (if strict_eq_str (prop "id" page) pageId
                    then data ∪ page else page)) ∧
        storage w' = storage w ∧
        trace w' = trace w
  end.
Proof.
  unfold run, updatePageLocal. cbn.
  destruct (currentProject (store w)) as [cp|] eqn:E; cbn; [|done].
  eexists (with_pages _ cp).
  destruct (timeout_var w); cbn;
    (split; [reflexivity|]; repeat (split; [done|]);
     split; [by rewrite length_map|]; split; [|done];
     intros i page Hi; by rewrite list_lookup_fmap, Hi).
Qed.

Lemma updatePageLocal_frame_witness :
  ∃ cp',
    currentProject
      (store (run quiet (updatePageLocal "p2" {[ "title" := VStr "TWO" ]})
                demo_world)) = Some cp' ∧
    proj_attrs cp' = proj_attrs demo_project ∧
    proj_pages cp' !! 0%nat = Some (page_of "p1" "one") ∧
    proj_pages cp' !! 1%nat = Some (page_of "p2" "TWO") ∧
    proj_pages cp' !! 2%nat = Some (page_of "p3" "three").
Proof.
  destruct (updatePageLocal_frame quiet "p2" {[ "title" := VStr "TWO" ]} demo_world)
    as (cp' & Hstore & _ & _ & Hattrs & _ & Hpages & _).
  exists cp'. split; [by rewrite Hstore|]. split; [done|].
  split; [|split].
  - by rewrite (Hpages 0%nat (page_of "p1" "one")).
  - by rewrite (Hpages 1%nat (page_of "p2" "two")).
  - by rewrite (Hpages 2%nat (page_of "p3" "three")).
Defined.

(** *** The debounced persist *)

Lemma page_writes_sync_result srv projectId w :
  page_writes (trace (sync_result srv projectId w)) = page_writes (trace w).
Proof.
  rewrite sync_result_trace, page_writes_app.
  destruct (sync_target projectId w); apply app_nil_r.
Qed.

Lemma page_writes_snoc_call tr r :
  page_writes (tr ++ [EvCall r]) =
  page_writes tr ++ (if is_page_write r then [r] else []).
Proof.
  rewrite page_writes_app. unfold page_writes at 2, requests. cbn.
  by destruct (is_page_write r).
Qed.

(** C10. A firing of the debounced persist sends exactly one page write,
    chosen by precedence: the description endpoint with
    [data.description_content] when that is truthy; else the outline
    endpoint with [data.outline_content] when that is truthy; else the
    generic page update with the whole partial. *)
Theorem persistPage_one_endpoint
    (srv : Server) (projectId : option string) (pageId : string)
    (data : PageData) (w : World) :
  let w' := run srv (persistPage projectId pageId data) w in
  (truthy (prop "description_content" data) = true →
     page_writes (trace w') = page_writes (trace w) ++
       [updatePageDescription projectId pageId (prop "description_content" data)]) ∧
  (truthy (prop "description_content" data) = false →
   truthy (prop "outline_content" data) = true →
     page_writes (trace w') = page_writes (trace w) ++
       [updatePageOutline projectId pageId (prop "outline_content" data)]) ∧
  (truthy (prop "description_content" data) = false →
   truthy (prop "outline_content" data) = false →
     page_writes (trace w') = page_writes (trace w) ++
       [updatePage projectId pageId data]).
Proof.
  cbv zeta. unfold run, persistPage.
  rewrite exec_try_catch, exec_bind.
  destruct (truthy (prop "description_content" data));
    [|destruct (truthy (prop "outline_content" data))]; cbn;
    (destruct (srv _ _) as [e|[]]; cbn;
     rewrite ?exec_syncProject; cbn;
     rewrite ?page_writes_sync_result; cbn;
     rewrite page_writes_snoc_call; cbn; by repeat split).
Qed.

Lemma persistPage_one_endpoint_witness :
  page_writes
    (trace (run quiet
              (persistPage (Some "proj-1") "p1"
                 {[ "description_content" := VStr "text";
                    "outline_content" := VObj {[ "title" := VStr "t" ]} ]})
              demo_world)) =
  [updatePageDescription (Some "proj-1") "p1" (VStr "text")].
Proof.
  refine (eq_trans
            (proj1 (persistPage_one_endpoint quiet (Some "proj-1") "p1"
                      {[ "description_content" := VStr "text";
                         "outline_content" := VObj {[ "title" := VStr "t" ]} ]}
                      demo_world) _) _);
    vm_compute; reflexivity.
Defined.

(** *** Duplicate submissions *)

(** C2. While the registry holds a task for a page, submitting again for
    the same key does nothing: with an entry in [pageGeneratingTasks],
    [generatePageImage] and [editPageImage] return at once, and with the
    page flagged in [pageDescriptionGeneratingTasks] so does
    [generatePageDescription]; the world is unchanged, so no request was
    sent and the registry still holds the one entry of that key. *)
Theorem duplicate_submission_is_noop (srv : Server) (pageId : string) (w : World) :
  (∀ taskId,
      pageGeneratingTasks (store w) !! pageId = Some taskId → taskId ≠ "" →
      (∀ forceRegenerate,
          exec srv (generatePageImage pageId forceRegenerate) w = (Returned (), w)) ∧
      (∀ editPrompt contextImages,
          exec srv (editPageImage pageId editPrompt contextImages) w
          = (Returned (), w))) ∧
  (pageDescriptionGeneratingTasks (store w) !! pageId = Some true →
   exec srv (generatePageDescription pageId) w = (Returned (), w)).
Proof.
  split.
  - intros taskId Hreg Hne.
    assert (held nonempty (pageGeneratingTasks (store w)) pageId = true) as Hbusy.
    { unfold held, nonempty. rewrite Hreg. by apply negb_true_iff, String.eqb_neq. }
    split; intros; unfold generatePageImage, editPageImage;
      cbn -[held]; destruct (currentProject (store w)); [|done| |done];
      by rewrite Hbusy.
  - intros Hreg. unfold generatePageDescription. cbn -[held].
    destruct (currentProject (store w)); [|done].
    unfold held. by rewrite Hreg.
Qed.

Lemma duplicate_submission_is_noop_witness :
  exec offline (generatePageImage "p1" false) busy_world = (Returned (), busy_world) ∧
  exec offline (editPageImage "p1" "brighter" VUndefined) busy_world
  = (Returned (), busy_world) ∧
  exec offline (generatePageDescription "p1") busy_world = (Returned (), busy_world).
Proof.
  destruct (duplicate_submission_is_noop offline "p1" busy_world) as [Himg Hdesc].
  destruct (Himg "task-9") as [Hgen Hedit]; [reflexivity|discriminate|].
  split; [apply Hgen|]. split; [apply Hedit|]. apply Hdesc. reflexivity.
Defined.

Lemma sync_target_loaded (w : World) (cp : Project) (pid : string) :
  currentProject (store w) = Some cp → proj_id cp = Some pid → pid ≠ "" →
  sync_target None w = Some pid.
Proof.
  intros Hcp Hid Hne. unfold sync_target. cbn. rewrite Hcp. cbn. rewrite Hid. cbn.
  apply String.eqb_neq in Hne. rewrite Hne. cbn. by rewrite Hne.
Qed.

(** *** [reorderPages] *)

(** C8 (amended). When the remote persist of a reorder fails, the store
    records the error and forces a resynchronization, so that an error is
    set afterwards in every case. If the server answers that fetch with
    its snapshot, the error is the message of the failed persist (or the
    fallback) and the mirror is the normalized snapshot: its pages are the
    server's pages in the server's order, whatever the order before the
    call and whatever [newOrder] was. If the fetch fails too, and not with
    a 404, the error is that of the failed fetch and the mirror keeps the
    order applied optimistically. *)
Theorem reorderPages_failure_resyncs
    (srv : Server) (newOrder : list string) (w : World)
    (cp : Project) (pid : string) (e : JsError) :
  currentProject (store w) = Some cp →
  proj_id cp = Some pid → pid ≠ "" →
  srv (requests (trace w)) (updatePagesOrder (Some pid) newOrder) = inl e →
  let w' := run srv (reorderPages newOrder) w in
  let fetch :=
    srv (requests (trace w) ++ [updatePagesOrder (Some pid) newOrder])
      (getProject pid) in
  trace w' = trace w ++ [EvCall (updatePagesOrder (Some pid) newOrder);
                         EvSync None; EvCall (getProject pid)] ∧
  (∃ message, error (store w') = Some message) ∧
  (∀ snapshot, fetch = inr (Some snapshot) →
     error (store w') = Some (or_lit (err_message e) "更新順序失敗") ∧
     currentProject (store w') = Some (normalizeProject snapshot) ∧
     (proj_pages <$> currentProject (store w')) =
       Some (map normalizePage (default [] (raw_pages snapshot)))) ∧
  (∀ e', fetch = inl e' → is_not_found e' = false →
     error (store w') = Some (normalizeErrorMessage (Some (sync_error e').1)) ∧
     (proj_pages <$> currentProject (store w')) =
       Some (omap (λ id, List.find (λ p : Page, strict_eq_str (prop "id" p) id)
                           (proj_pages cp))
               newOrder)).
Proof.
  intros Hcp Hid Hne Hfail. cbv zeta.
  unfold run, reorderPages. cbn. rewrite Hcp. cbn. rewrite Hid, Hfail. cbn.
  rewrite exec_syncProject. cbn.
  unfold sync_result.
  erewrite sync_target_loaded; [|reflexivity|exact Hid|exact Hne].
  cbn. rewrite requests_snoc_call.
  destruct (srv _ (getProject pid)) as [e'|[snapshot|]];
    [destruct (is_not_found e') eqn:H404|..]; cbn; rewrite <- !app_assoc;
    (split; [done|]; split; [by eexists|];
     split; [intros ? [= <-] | intros ? [= <-] ?]);
    done || congruence.
Qed.

Lemma reorderPages_failure_resyncs_witness :
  error (store (run refuses_reorder (reorderPages ["p3"; "p1"; "p2"]) demo_world))
  = Some "Network Error" ∧
  (proj_pages <$> currentProject
                    (store (run refuses_reorder (reorderPages ["p3"; "p1"; "p2"])
                              demo_world))) =
  Some (map normalizePage (default [] (raw_pages two_pages_snapshot))).
Proof.
  destruct (reorderPages_failure_resyncs refuses_reorder ["p3"; "p1"; "p2"]
              demo_world demo_project "proj-1" network_error
              eq_refl eq_refl ltac:(discriminate) eq_refl) as (_ & _ & Hok & _).
  destruct (Hok two_pages_snapshot eq_refl) as (Herr & _ & Hpages).
  split; [exact Herr|exact Hpages].
Defined.

(** *** The polling loops *)

Lemma poll_view_snoc_poll tr pid tid :
  poll_view (tr ++ [EvCall (getTaskStatus pid tid)]) = poll_view tr ++ [Polled].
Proof. by rewrite poll_view_app. Qed.

Lemma count_polls_snoc_poll tr pid tid :
  count_polls (requests (tr ++ [EvCall (getTaskStatus pid tid)]))
  = S (count_polls (requests tr)).
Proof.
  rewrite requests_snoc_call, count_polls_app. unfold count_polls at 2. cbn. lia.
Qed.

Section SyncFrame.
Context (srv : Server) (projectId : option string) (w : World).

Lemma timers_sync_result : timers (sync_result srv projectId w) = timers w.
Proof. apply sync_result_frame. Qed.

Lemma clock_sync_result : clock (sync_result srv projectId w) = clock w.
Proof. apply sync_result_frame. Qed.

Lemma next_timer_sync_result :
  next_timer (sync_result srv projectId w) = next_timer w.
Proof. apply sync_result_frame. Qed.

Lemma pageGeneratingTasks_sync_result :
  pageGeneratingTasks (store (sync_result srv projectId w))
  = pageGeneratingTasks (store w).
Proof. apply sync_result_frame. Qed.

Lemma pageDescriptionGeneratingTasks_sync_result :
  pageDescriptionGeneratingTasks (store (sync_result srv projectId w))
  = pageDescriptionGeneratingTasks (store w).
Proof. apply sync_result_frame. Qed.

Lemma activeTaskId_sync_result :
  activeTaskId (store (sync_result srv projectId w)) = activeTaskId (store w).
Proof. apply sync_result_frame. Qed.

Lemma poll_view_sync_result :
  poll_view (trace (sync_result srv projectId w)) = poll_view (trace w) ++ [Synced].
Proof.
  rewrite sync_result_trace, poll_view_app. by destruct (sync_target projectId w).
Qed.

Lemma count_polls_sync_result :
  count_polls (requests (trace (sync_result srv projectId w)))
  = count_polls (requests (trace w)).
Proof.
  rewrite sync_result_trace, requests_app, count_polls_app.
  destruct (sync_target projectId w); unfold count_polls at 2, requests; cbn; lia.
Qed.

End SyncFrame.

Create Rewrite HintDb sync.
#[local] Hint Rewrite timers_sync_result clock_sync_result next_timer_sync_result
  pageGeneratingTasks_sync_result pageDescriptionGeneratingTasks_sync_result
  activeTaskId_sync_result poll_view_sync_result count_polls_sync_result
  poll_view_snoc_poll count_polls_snoc_poll : sync.

Ltac sync_facts := cbn; autorewrite with sync; cbn; autorewrite with sync;
  rewrite <- ?app_assoc; try done.

Section Pollers.
Context (srv : Server).

Lemma pollTask_poll_continues pid tid task w :
  srv (requests (trace w)) (getTaskStatus pid tid) = inr (Some task) →
  in_progress (task_status task) →
  ticked [Polled] (CbPollTask pid tid) w (run srv (pollTask_poll pid tid) w).
Proof.
  intros Hsrv Hst. unfold run, pollTask_poll. cbn. rewrite Hsrv. cbn.
  destruct (truthy (task_progress task)); cbn;
    destruct Hst as [-> | ->]; cbn; repeat split; sync_facts.
Qed.

Lemma pollTask_poll_completed pid tid task w :
  srv (requests (trace w)) (getTaskStatus pid tid) = inr (Some task) →
  task_status task = "COMPLETED" →
  finished [Polled; Synced] w (run srv (pollTask_poll pid tid) w).
Proof.
  intros Hsrv Hst. unfold run, pollTask_poll. rewrite exec_try_catch. cbn.
  rewrite Hsrv. cbn.
  destruct (truthy (task_progress task)); cbn; rewrite Hst; cbn;
    rewrite exec_syncProject; cbn; repeat split; sync_facts.
Qed.

Lemma pollPageTask_poll_continues pid pageId tid task w :
  srv (requests (trace w)) (getTaskStatus pid tid) = inr (Some task) →
  in_progress (task_status task) →
  ticked [Polled; Synced] (CbPollPageTask pid pageId tid) w
    (run srv (pollPageTask_poll pid pageId tid) w).
Proof.
  intros Hsrv Hst. unfold run, pollPageTask_poll. rewrite exec_try_catch. cbn.
  rewrite Hsrv. cbn.
  destruct Hst as [-> | ->]; cbn; rewrite exec_bind, exec_syncProject; cbn;
    repeat split; sync_facts.
Qed.

Lemma pollPageTask_poll_completed pid pageId tid task w :
  srv (requests (trace w)) (getTaskStatus pid tid) = inr (Some task) →
  task_status task = "COMPLETED" →
  finished [Polled; Synced] w (run srv (pollPageTask_poll pid pageId tid) w).
Proof.
  intros Hsrv Hst. unfold run, pollPageTask_poll. rewrite exec_try_catch. cbn.
  rewrite Hsrv. cbn. rewrite Hst; cbn.
  rewrite exec_syncProject; cbn; repeat split; sync_facts.
Qed.

End Pollers.

Section EventLoop.
Context (srv : Server).

Lemma run_timers_idle fuel limit w :
  timers w = [] → run_timers fuel srv limit w = Some (with_clock limit w).
Proof. intros H. destruct fuel; cbn; rewrite H; cbn; reflexivity. Qed.

Lemma run_timers_single fuel limit w t :
  timers w = [t] → tm_due t ≤ limit →
  run_timers (S fuel) srv limit w =
  run_timers fuel srv limit (run srv (callback_body (tm_cb t)) (fired t w)).
Proof.
  intros H Hdue. unfold fired. cbn. rewrite H. cbn.
  apply Z.leb_le in Hdue. by rewrite Hdue.
Qed.

Lemma fired_single t w : timers w = [t] → timers (fired t w) = [].
Proof.
  intros H. unfold fired. cbn. rewrite H. unfold remove_timer. cbn.
  by rewrite decide_False by (intros Hn; by apply Hn).
Qed.

End EventLoop.

Section PollLoop.
Context (srv : Server) (pid : option string) (tid : string).
Context (body : Prog unit) (cb : Callback) (v_go v_end : list PollEvent).
Hypothesis cb_body : callback_body cb = body.
Hypothesis goes_on : ∀ w task,
  srv (requests (trace w)) (getTaskStatus pid tid) = inr (Some task) →
  in_progress (task_status task) → ticked v_go cb w (run srv body w).
Hypothesis ends : ∀ w task,
  srv (requests (trace w)) (getTaskStatus pid tid) = inr (Some task) →
  task_status task = "COMPLETED" → finished v_end w (run srv body w).

(** A poller whose ticks go on with [going] and end with [last] fires
    [length going] timers, 2000 ms apart, and shows the views of its ticks
    in order. *)
Lemma poll_loop (going : list Task) (last : Task) (limit : Z) :
  Forall (λ t, in_progress (task_status t)) going →
  task_status last = "COMPLETED" →
  ∀ w,
    timers w = [] →
    answers_polls_from srv (count_polls (requests (trace w))) (going ++ [last]) →
    clock w + 2000 * Z.of_nat (length going) ≤ limit →
    ∃ w',
      run_timers (length going) srv limit (run srv body w) = Some w' ∧
      poll_view (trace w') =
        poll_view (trace w) ++ concat (replicate (length going) v_go) ++ v_end ∧
      timers w' = [].
Proof.
  intros Hgoing Hlast. induction Hgoing as [|t going Ht Hgoing IH];
    intros w Htimers Hsrv Hlimit.
  - destruct (ends w last) as (Ht' & Hc & Hv & Hn); [|done|].
    { apply (Hsrv _ _ _ 0%nat); [lia|done]. }
    exists (with_clock limit (run srv body w)). split; [|split].
    + apply run_timers_idle. by rewrite Ht'.
    + cbn. by rewrite Hv.
    + cbn. by rewrite Ht'.
  - destruct (goes_on w t) as (Ht' & Hc & Hv & Hn); [|done|].
    { apply (Hsrv _ _ _ 0%nat); [lia|done]. }
    rewrite Htimers in Ht'. cbn in Ht'.
    set (w1 := run srv body w) in *.
    set (T := {| tm_id := next_timer w; tm_due := clock w + 2000; tm_cb := cb |}) in *.
    cbn [length] in *.
    rewrite (run_timers_single srv _ limit w1 T Ht') by (cbn; lia).
    cbn [tm_cb T]. rewrite cb_body.
    destruct (IH (fired T w1)) as (w' & Hrun & Hview & Hno).
    + by apply fired_single.
    + intros hist pid' tid' i task Hcount Hi. cbn in Hcount.
      apply (Hsrv hist pid' tid' (S i)); [lia|done].
    + cbn. lia.
    + exists w'. split; [done|]. split; [|done].
      rewrite Hview. cbn. rewrite Hv. by rewrite <- !app_assoc.
Qed.

End PollLoop.

(** *** The debounce *)

Section Debounce.
Context (srv : Server).

Lemma updatePageLocal_pending (cp cp0 : Project) (e : Edit) (w : World) :
  currentProject (store w) = Some cp0 → proj_id cp0 = proj_id cp →
  (timers w = [] ∨
   ∃ t, timers w = [t] ∧ timeout_var w = Some (tm_id t)) →
  pending cp e (page_writes (trace w))
    (run srv (updatePageLocal (edit_page e) (edit_data e)) w).
Proof.
  intros Hcp Hid Htimers. unfold run, updatePageLocal. cbn. rewrite Hcp. cbn.
  destruct Htimers as [Hnone | (t & Hone & Hvar)].
  - destruct (timeout_var w) as [id|]; cbn; rewrite Hnone; cbn;
      (eexists; split; [by rewrite Hid|]; split; [done|]; split; [done|]; by eauto).
  - rewrite Hvar. cbn. rewrite Hone. unfold remove_timer. cbn.
    rewrite decide_False by (intros Hn; by apply Hn). cbn.
    eexists; split; [by rewrite Hid|]; split; [done|]; split; [done|]; by eauto.
Qed.

Lemma advance_within_window fuel cp e writes w ms :
  pending cp e writes w → 0 ≤ ms < 1000 →
  advance fuel srv ms w = Some (with_clock (clock w + ms) w).
Proof.
  intros (id & Ht & _) Hms. unfold advance.
  assert (next_due (clock w + ms) (timers w) = None) as Hnone.
  { rewrite Ht. cbn. by rewrite (proj2 (Z.leb_gt _ _)) by lia. }
  destruct fuel; cbn; by rewrite Hnone.
Qed.

Lemma edits_keep_one_timer fuel cp writes (rest : list Edit) :
  Forall in_window rest →
  ∀ e w, pending cp e writes w →
    ∃ w1, apply_edits fuel srv rest w = Some w1 ∧
          pending cp (default e (last rest)) writes w1.
Proof.
  induction 1 as [|e' rest He' Hrest IH]; intros e w Hp.
  - by exists w.
  - cbn [apply_edits]. rewrite (advance_within_window fuel cp e writes w) by done.
    destruct Hp as (id & Ht & Hv & Hw & cp' & Hcp & Hid).
    destruct (IH e' (run srv (updatePageLocal (edit_page e') (edit_data e'))
                       (with_clock (clock w + gap e') w))) as (w1 & Hrun & Hp1).
    + pose proof (updatePageLocal_pending cp cp' e'
                    (with_clock (clock w + gap e') w) Hcp Hid) as Hstep.
      cbn in Hstep. rewrite Hw in Hstep. apply Hstep.
      right. eexists. split; [exact Ht|done].
    + exists w1. split; [done|].
      replace (default e (last (e' :: rest))) with (default e' (last rest)); [done|].
      destruct rest as [|r rest']; [done|].
      change (last (e' :: r :: rest')) with (last (r :: rest')).
      by destruct (proj2 (last_is_Some (r :: rest'))) as [x ->].
Qed.

Lemma persistPage_frame projectId pageId data w :
  let w' := run srv (persistPage projectId pageId data) w in
  timers w' = timers w ∧
  page_writes (trace w') =
    page_writes (trace w) ++ [persist_request projectId pageId data].
Proof.
  cbv zeta. unfold run, persistPage, persist_request.
  rewrite exec_try_catch, exec_bind.
  destruct (truthy (prop "description_content" data));
    [|destruct (truthy (prop "outline_content" data))]; cbn;
    (destruct (srv _ _) as [e|[]]; cbn;
     rewrite ?exec_syncProject; cbn;
     rewrite ?page_writes_sync_result, ?timers_sync_result; cbn;
     by rewrite page_writes_snoc_call).
Qed.

Lemma window_closes fuel cp e writes w :
  pending cp e writes w →
  ∃ w2, advance (S fuel) srv 1000 w = Some w2 ∧
        page_writes (trace w2) =
          writes ++ [persist_request (proj_id cp) (edit_page e) (edit_data e)] ∧
        timers w2 = [].
Proof.
  intros (id & Ht & Hv & Hw & _). unfold advance.
  rewrite (run_timers_single srv fuel _ w _ Ht) by (cbn; lia). cbn [tm_cb callback_body].
  pose proof (fired_single _ _ Ht) as Hfired.
  destruct (persistPage_frame (proj_id cp) (edit_page e) (edit_data e)
              (fired {| tm_id := id; tm_due := clock w + 1000;
                        tm_cb := CbDebouncedUpdatePage (proj_id cp) (edit_page e)
                                   (edit_data e) |} w)) as [Htimers Hwrites].
  rewrite Hfired in Htimers. cbn in Hwrites. rewrite Hw in Hwrites.
  eexists. split; [by apply run_timers_idle|]. by split.
Qed.

End Debounce.

(** C1 (amended). The delay timer is one for the whole store. For every
    sequence of local edits, to any pages, each made less than the window
    (1000 ms) after the one before, no page write is sent while the edits
    go on, and when the window closes exactly one is sent, the one for
    the last edit (its page, its partial data). *)
Theorem debounce_sends_last_edit_only
    (srv : Server) (fuel : nat) (w : World) (cp : Project)
    (first : Edit) (rest : list Edit) :
  currentProject (store w) = Some cp →
  timers w = [] →
  Forall in_window rest →
  let final := default first (last rest) in
  ∃ w1 w2,
    apply_edits (S fuel) srv (first :: rest) w = Some w1 ∧
    page_writes (trace w1) = page_writes (trace w) ∧
    advance (S fuel) srv 1000 w1 = Some w2 ∧
    page_writes (trace w2) =
      page_writes (trace w) ++
      [persist_request (proj_id cp) (edit_page final) (edit_data final)] ∧
    timers w2 = [].
Proof.
  intros Hcp Htimers Hrest final. cbn [apply_edits]. unfold advance at 1.
  rewrite run_timers_idle by done.
  pose proof (updatePageLocal_pending srv cp cp first
                (with_clock (clock w + gap first) w) Hcp eq_refl (or_introl Htimers))
    as Hp. cbn in Hp.
  destruct (edits_keep_one_timer srv (S fuel) cp _ rest Hrest _ _ Hp)
    as (w1 & Hrun & Hp1).
  destruct (window_closes srv fuel cp _ _ w1 Hp1) as (w2 & Hadv & Hwrites & Hno).
  exists w1, w2. split; [done|]. split; [|done].
  by destruct Hp1 as (id & _ & _ & Hw & _).
Qed.

Lemma debounce_sends_last_edit_only_witness :
  writes_after quiet two_page_edits demo_world =
  Some [updatePage (Some "proj-1") "p2" {[ "title" := VStr "B" ]}].
Proof.
  destruct (debounce_sends_last_edit_only quiet 0 demo_world demo_project
              {| gap := 0; edit_page := "p1"; edit_data := {[ "title" := VStr "A" ]} |}
              [ {| gap := 500; edit_page := "p2";
                   edit_data := {[ "title" := VStr "B" ]} |} ])
    as (w1 & w2 & Hrun & _ & Hadv & Hwrites & _).
  - reflexivity.
  - reflexivity.
  - repeat constructor; cbn; lia.
  - unfold writes_after, two_page_edits. rewrite Hrun, Hadv. cbn.
    by rewrite Hwrites.
Defined.

(** C1, as stated, fails: the timer is not keyed by page. An edit of [p1]
    followed half a window later by an edit of [p2] sends one write, for
    [p2]; the edit of [p1] is never written. *)
Lemma debounce_is_not_per_page :
  ∃ ws, writes_after quiet two_page_edits demo_world = Some ws ∧
        length ws = 1%nat ∧
        ¬ ∃ r, r ∈ ws ∧ written_page r = Some "p1".
Proof.
  exists [updatePage (Some "proj-1") "p2" {[ "title" := VStr "B" ]}].
  split; [vm_compute; reflexivity|]. split; [done|].
  intros (r & Hr & Hp). apply list_elem_of_singleton in Hr. by subst r.
Qed.

(** *** Polling to completion *)

Lemma polls_server_answers (tasks : list Task) (other : Server) :
  answers_polls_from (polls_server tasks other) 0 tasks.
Proof.
  intros hist pid tid i task Hcount Hi. cbn in *. by rewrite Hcount, Hi.
Defined.

Section Scenario.
Context (srv : Server) (w : World) (cp : Project).
Context (t1 t2 t3 t4 : Task).
Hypothesis loaded : currentProject (store w) = Some cp.
Hypothesis no_timers : timers w = [].
Hypothesis answers :
  answers_polls_from srv (count_polls (requests (trace w))) [t1; t2; t3; t4].
Hypothesis status1 : task_status t1 = "PENDING".
Hypothesis status2 : task_status t2 = "PROCESSING".
Hypothesis status3 : task_status t3 = "PROCESSING".
Hypothesis status4 : task_status t4 = "COMPLETED".

Lemma scenario_going :
  Forall (λ t, in_progress (task_status t)) [t1; t2; t3].
Proof.
  constructor; [left; exact status1|].
  constructor; [right; exact status2|].
  constructor; [right; exact status3|]. constructor.
Qed.

Lemma pollTask_scenario (taskId : string) :
  ∃ w',
    advance 3 srv 6000 (run srv (pollTask taskId) w) = Some w' ∧
    poll_view (trace w') =
      poll_view (trace w) ++ [Polled; Polled; Polled; Polled; Synced] ∧
    timers w' = [].
Proof.
  assert (run srv (pollTask taskId) w = run srv (pollTask_poll (proj_id cp) taskId) w)
    as -> by (unfold run, pollTask; cbn; by rewrite loaded).
  assert (clock (run srv (pollTask_poll (proj_id cp) taskId) w) = clock w) as Hclock.
  { eapply (pollTask_poll_continues srv _ _ t1);
      [apply (answers _ _ _ 0%nat); [lia|done] | left; exact status1]. }
  unfold advance. rewrite Hclock.
  apply (poll_loop srv (proj_id cp) taskId _ (CbPollTask (proj_id cp) taskId)
           [Polled] [Polled; Synced] eq_refl
           (λ w0 t, pollTask_poll_continues srv _ _ t w0)
           (λ w0 t, pollTask_poll_completed srv _ _ t w0)
           [t1; t2; t3] t4 (clock w + 6000) scenario_going status4 w no_timers answers).
  cbn. lia.
Qed.

Lemma pollPageTask_scenario (pageId taskId : string) :
  ∃ w',
    advance 3 srv 6000 (run srv (pollPageTask pageId taskId) w) = Some w' ∧
    poll_view (trace w') =
      poll_view (trace w) ++
      [Polled; Synced; Polled; Synced; Polled; Synced; Polled; Synced] ∧
    timers w' = [].
Proof.
  assert (run srv (pollPageTask pageId taskId) w
          = run srv (pollPageTask_poll (proj_id cp) pageId taskId) w)
    as -> by (unfold run, pollPageTask; cbn; by rewrite loaded).
  assert (clock (run srv (pollPageTask_poll (proj_id cp) pageId taskId) w) = clock w)
    as Hclock.
  { eapply (pollPageTask_poll_continues srv _ _ _ t1);
      [apply (answers _ _ _ 0%nat); [lia|done] | left; exact status1]. }
  unfold advance. rewrite Hclock.
  apply (poll_loop srv (proj_id cp) taskId _
           (CbPollPageTask (proj_id cp) pageId taskId)
           [Polled; Synced] [Polled; Synced] eq_refl
           (λ w0 t, pollPageTask_poll_continues srv _ pageId _ t w0)
           (λ w0 t, pollPageTask_poll_completed srv _ pageId _ t w0)
           [t1; t2; t3] t4 (clock w + 6000) scenario_going status4 w no_timers answers).
  cbn. lia.
Qed.

End Scenario.

(** C3 (amended). Over the status sequence PENDING, PROCESSING,
    PROCESSING, COMPLETED, with a project loaded: [pollTask] polls four
    times and resynchronizes once, after the COMPLETED tick;
    [pollPageTask] resynchronizes on every tick, after the poll, four times
    in all, the last after the COMPLETED tick. Both stop there. *)
Theorem pollers_resync_over_scenario
    (srv : Server) (w : World) (cp : Project) (t1 t2 t3 t4 : Task)
    (pageId taskId : string) :
  currentProject (store w) = Some cp →
  timers w = [] →
  answers_polls_from srv (count_polls (requests (trace w))) [t1; t2; t3; t4] →
  task_status t1 = "PENDING" → task_status t2 = "PROCESSING" →
  task_status t3 = "PROCESSING" → task_status t4 = "COMPLETED" →
  (∃ w',
      advance 3 srv 6000 (run srv (pollTask taskId) w) = Some w' ∧
      poll_view (trace w') =
        poll_view (trace w) ++ [Polled; Polled; Polled; Polled; Synced] ∧
      timers w' = []) ∧
  (∃ w',
      advance 3 srv 6000 (run srv (pollPageTask pageId taskId) w) = Some w' ∧
      poll_view (trace w') =
        poll_view (trace w) ++
        [Polled; Synced; Polled; Synced; Polled; Synced; Polled; Synced] ∧
      timers w' = []).
Proof.
  intros. split; [by eapply pollTask_scenario|by eapply pollPageTask_scenario].
Qed.

Lemma pollers_resync_over_scenario_witness :
  scenario_view (pollTask "task-9") = Some [Polled; Polled; Polled; Polled; Synced].
Proof.
  destruct (pollers_resync_over_scenario (polls_server scenario_tasks quiet)
              demo_world demo_project
              (task_with "PENDING") (task_with "PROCESSING")
              (task_with "PROCESSING") (task_with "COMPLETED") "p1" "task-9"
              eq_refl eq_refl (polls_server_answers scenario_tasks quiet)
              eq_refl eq_refl eq_refl eq_refl)
    as [(w' & Hrun & Hview & _) _].
  unfold scenario_view. rewrite Hrun. cbn. by rewrite Hview.
Defined.

(** C3, as stated, fails for [pollPageTask]: over the scenario it
    resynchronizes four times, already on the PENDING tick. *)
Lemma pollPageTask_resyncs_on_every_tick :
  ∃ view, scenario_view (pollPageTask "p1" "task-9") = Some view ∧
          view !! 1%nat = Some Synced ∧
          length (List.filter (λ v, match v with Synced => true | Polled => false end)
                    view) ≠ 1%nat.
Proof.
  exists [Polled; Synced; Polled; Synced; Polled; Synced; Polled; Synced].
  split; [vm_compute; reflexivity|]. split; [done|]. cbn. lia.
Qed.

(** *** Failed tasks *)

(** C4 (amended). On a FAILED status both pollers set the error to
    [normalizeErrorMessage] of the server's [error_message], else its
    [error], else a fallback, release the slot and schedule no further
    tick: [pollTask] clears [activeTaskId] and [isGlobalLoading];
    [pollPageTask] removes the page's entry and then resynchronizes. *)
Theorem failed_task_sets_error_and_releases
    (srv : Server) (pid : option string) (pageId taskId : string)
    (task : Task) (w : World) :
  srv (requests (trace w)) (getTaskStatus pid taskId) = inr (Some task) →
  task_status task = "FAILED" →
  let message fallback :=
    normalizeErrorMessage
      (Some (or_lit (or_str (task_error_message task) (task_error task)) fallback)) in
  (let w' := run srv (pollTask_poll pid taskId) w in
   error (store w') = Some (message "任務失敗") ∧
   activeTaskId (store w') = None ∧
   taskProgress (store w') = VNull ∧
   isGlobalLoading (store w') = false ∧
   timers w' = timers w) ∧
  (let w' := run srv (pollPageTask_poll pid pageId taskId) w in
   ∃ w1,
     w' = run srv (syncProject None) w1 ∧
     error (store w1) = Some (message "生成失敗") ∧
     pageGeneratingTasks (store w1) = delete pageId (pageGeneratingTasks (store w)) ∧
     pageGeneratingTasks (store w') !! pageId = None ∧
     timers w' = timers w ∧
     poll_view (trace w') = poll_view (trace w) ++ [Polled; Synced]).
Proof.
  intros Hsrv Hst. cbv zeta. split.
  - unfold run, pollTask_poll. cbn. rewrite Hsrv. cbn.
    destruct (truthy (task_progress task)); cbn; by rewrite Hst.
  - unfold run, pollPageTask_poll. rewrite exec_try_catch. cbn. rewrite Hsrv. cbn.
    rewrite Hst. cbn. rewrite exec_syncProject. cbn.
    eexists. split; [symmetry; apply run_syncProject|]. cbn.
    autorewrite with sync. cbn. autorewrite with sync.
    rewrite <- app_assoc. repeat split; try done. apply lookup_delete_eq.
Qed.

Lemma failed_task_sets_error_and_releases_witness :
  error (store (run (polls_server [failed_task "out of quota"] quiet)
                  (pollTask_poll (Some "proj-1") "task-1") loading_world))
  = Some "out of quota" ∧
  activeTaskId (store (run (polls_server [failed_task "out of quota"] quiet)
                         (pollTask_poll (Some "proj-1") "task-1") loading_world))
  = None.
Proof.
  destruct (failed_task_sets_error_and_releases
              (polls_server [failed_task "out of quota"] quiet)
              (Some "proj-1") "p1" "task-1" (failed_task "out of quota")
              loading_world eq_refl eq_refl) as [(Herr & Hid & _) _].
  split; [|exact Hid]. rewrite Herr. vm_compute. reflexivity.
Defined.

(** C4, as stated, fails on [pollTask]: the error shown is the normalized
    text, not the server's message, and no resynchronization is started. *)
Lemma pollTask_failed_normalizes_without_resync :
  let w' := run (polls_server [failed_task "No template image found"] quiet)
              (pollTask "task-1") loading_world in
  error (store w') = Some msg_no_template ∧
  error (store w') ≠ Some "No template image found" ∧
  syncs (trace w') = 0%nat.
Proof. vm_compute. repeat split; discriminate. Qed.

(** On a FAILED status [pollTask] sends the poll and nothing more. *)
Lemma pollTask_failed_no_resync
    (srv : Server) (pid : option string) (taskId : string) (task : Task) (w : World) :
  srv (requests (trace w)) (getTaskStatus pid taskId) = inr (Some task) →
  task_status task = "FAILED" →
  trace (run srv (pollTask_poll pid taskId) w)
  = trace w ++ [EvCall (getTaskStatus pid taskId)].
Proof.
  intros Hsrv Hst. unfold run, pollTask_poll. cbn. rewrite Hsrv. cbn.
  destruct (truthy (task_progress task)); cbn; by rewrite Hst.
Qed.

(** *** Transport errors *)

(** C6 (amended). A transport error on a tick ends [pollTask] and
    [pollPageTask] at once: [pollTask] sets the error and clears
    [activeTaskId] and [isGlobalLoading], [pollPageTask] removes the page's
    entry, and neither starts a timer. The [pollAndSync] loop of
    [generateDescriptions] goes on: it resynchronizes and schedules the
    next tick 2000 ms ahead, keeping the registry. The material poller
    counts the attempt and keeps its interval while attempts remain. *)
Theorem transport_error_ends_or_retries
    (srv : Server) (pid : option string) (projectId pageId taskId : string)
    (initialTasks : gmap string bool) (e : JsError) (w : World) :
  (srv (requests (trace w)) (getTaskStatus pid taskId) = inl e →
   (let w' := run srv (pollTask_poll pid taskId) w in
    store w' =
      set_isGlobalLoading false
        (set_activeTaskId None
           (set_error
              (Some (normalizeErrorMessage
                       (Some (or_lit (err_message e) "任務查詢失敗"))))
              (store w))) ∧
    timers w' = timers w) ∧
   (let w' := run srv (pollPageTask_poll pid pageId taskId) w in
    store w' = release_page pageId (store w) ∧
    timers w' = timers w)) ∧
  (srv (requests (trace w)) (getTaskStatus (Some projectId) taskId) = inl e →
   let w' := run srv (pollAndSync projectId taskId initialTasks) w in
   timers w' =
     timers w ++ [{| tm_id := next_timer w; tm_due := clock w + 2000;
                     tm_cb := CbPollAndSync projectId taskId initialTasks |}] ∧
   poll_view (trace w') = poll_view (trace w) ++ [Polled; Synced] ∧
   pageDescriptionGeneratingTasks (store w') =
     pageDescriptionGeneratingTasks (store w) ∧
   activeTaskId (store w') = activeTaskId (store w)) ∧
  (∀ getImageUrl hasProject m,
      (S (Material.attempts m) < Material.maxAttempts)%nat →
      Material.poll getImageUrl hasProject (inl e) m = Material.count_attempt m).
Proof.
  split; [|split].
  - intros Hsrv. split; cbv zeta.
    + unfold run, pollTask_poll. cbn. by rewrite Hsrv.
    + unfold run, pollPageTask_poll. cbn. by rewrite Hsrv.
  - intros Hsrv. cbv zeta. unfold run, pollAndSync. rewrite exec_try_catch. cbn.
    rewrite Hsrv. cbn. rewrite exec_bind, exec_syncProject. cbn.
    autorewrite with sync. cbn. autorewrite with sync.
    rewrite <- app_assoc. done.
  - intros getImageUrl hasProject m Hm. unfold Material.poll, Material.poll_failed.
    cbn [Material.attempts Material.count_attempt].
    by rewrite (proj2 (Nat.leb_gt _ _)) by lia.
Qed.

Lemma transport_error_ends_or_retries_witness :
  activeTaskId (store (run offline (pollTask_poll (Some "proj-1") "task-1")
                         loading_world)) = None ∧
  timers (run offline (pollTask_poll (Some "proj-1") "task-1") loading_world) = [].
Proof.
  destruct (transport_error_ends_or_retries offline (Some "proj-1") "proj-1" "p1"
              "task-1" ∅ network_error loading_world) as [Hends _].
  destruct (Hends eq_refl) as [[Hstore Htimers] _].
  split; [by rewrite Hstore|by rewrite Htimers].
Defined.

(** C6, as stated, fails: on the first transport error [pollTask] gives
    the task up. No tick is scheduled, and a minute later the server has
    been polled once. *)
Lemma pollTask_stops_on_transport_error :
  let w' := run offline (pollTask "task-1") loading_world in
  timers w' = [] ∧
  activeTaskId (store w') = None ∧
  isGlobalLoading (store w') = false ∧
  error (store w') = Some "Network Error" ∧
  (count_polls ∘ requests ∘ trace <$> advance 1 offline 60000 w') = Some 1%nat.
Proof. vm_compute. repeat split. Qed.

(** *** Unrecognized statuses *)

Lemma unknown_status_eqb (status : string) :
  unknown_status status →
  String.eqb status "COMPLETED" = false ∧ String.eqb status "FAILED" = false ∧
  String.eqb status "PENDING" = false ∧ String.eqb status "PROCESSING" = false.
Proof. intros (?&?&?&?). by rewrite !String.eqb_neq. Qed.

(** On an unrecognized status [pollTask] stops, clears the active task and
    sets an error naming the status. *)
Lemma pollTask_unknown_status
    (srv : Server) (pid : option string) (taskId : string) (task : Task) (w : World) :
  srv (requests (trace w)) (getTaskStatus pid taskId) = inr (Some task) →
  unknown_status (task_status task) →
  let w' := run srv (pollTask_poll pid taskId) w in
  error (store w') = Some ("未知任務狀態: " +:+ task_status task) ∧
  activeTaskId (store w') = None ∧
  isGlobalLoading (store w') = false ∧
  timers w' = timers w.
Proof.
  intros Hsrv (Hc & Hf & Hp & Hg)%unknown_status_eqb. cbv zeta.
  unfold run, pollTask_poll. cbn. rewrite Hsrv. cbn.
  destruct (truthy (task_progress task)); cbn; by rewrite Hc, Hf, Hp, Hg.
Qed.

(** On an unrecognized status [pollPageTask] stops and removes the page's
    entry, and that is all: the store's error is what it was. *)
Lemma pollPageTask_unknown_status
    (srv : Server) (pid : option string) (pageId taskId : string)
    (task : Task) (w : World) :
  srv (requests (trace w)) (getTaskStatus pid taskId) = inr (Some task) →
  unknown_status (task_status task) →
  let w' := run srv (pollPageTask_poll pid pageId taskId) w in
  store w' = release_page pageId (store w) ∧
  error (store w') = error (store w) ∧
  timers w' = timers w.
Proof.
  intros Hsrv (Hc & Hf & Hp & Hg)%unknown_status_eqb. cbv zeta.
  unfold run, pollPageTask_poll. cbn. rewrite Hsrv. cbn.
  by rewrite Hc, Hf, Hp, Hg.
Qed.

(** C7 at a failing input: the status CANCELLED polled by [pollPageTask]
    for page [p1]. The poller stops and the slot is released, but no error
    is set. *)
Lemma pollPageTask_unknown_status_surfaces_no_error :
  let w' := run (polls_server [task_with "CANCELLED"] quiet)
              (pollPageTask "p1" "task-9") busy_world in
  timers w' = [] ∧
  pageGeneratingTasks (store w') !! "p1" = None ∧
  error (store w') = None.
Proof. vm_compute. repeat split. Qed.

(** The same status in the [pollAndSync] loop: the loop stops, no error is
    set and the page stays flagged as generating. *)
Lemma pollAndSync_unknown_status_keeps_slot :
  let w' := run (polls_server [task_with "CANCELLED"] quiet)
              (pollAndSync "proj-1" "task-1" {[ "p1" := true ]}) busy_world in
  timers w' = [] ∧
  pageDescriptionGeneratingTasks (store w') !! "p1" = Some true ∧
  error (store w') = None.
Proof. vm_compute. repeat split. Qed.

(** The material poller has no case for it: it counts the attempt and
    keeps its interval, however many attempts were made. *)
Lemma material_poll_unknown_status
    (getImageUrl : string → string) (hasProject : bool) (task : Task)
    (m : Material.PollState) :
  unknown_status (task_status task) →
  Material.poll getImageUrl hasProject (inr (Some task)) m = Material.count_attempt m.
Proof.
  intros (Hc & Hf & Hp & Hg)%unknown_status_eqb. unfold Material.poll.
  by rewrite Hc, Hf, Hp, Hg.
Qed.

(** *** A reorder whose resynchronization fails too *)

(** C8, as stated, fails when the server cannot be reached: the persist of
    the reorder [p3, p1, p2] fails, the forced fetch fails as well, and the
    mirror is left in the order applied optimistically. *)
Lemma reorderPages_offline_keeps_new_order :
  let w' := run offline (reorderPages ["p3"; "p1"; "p2"]) demo_world in
  trace w' = [EvCall (updatePagesOrder (Some "proj-1") ["p3"; "p1"; "p2"]);
              EvSync None; EvCall (getProject "proj-1")] ∧
  (map (prop "id") ∘ proj_pages <$> currentProject (store w'))
  = Some [VStr "p3"; VStr "p1"; VStr "p2"].
Proof. vm_compute. split; reflexivity. Qed.

(** *** The pointer is cleared by a 404 only *)

Section Pointer.
Context (srv : Server).
Hypothesis no_404 : never_not_found srv.

Lemma keeps_ret {R} (r : R) : keeps_pointer srv (Ret r).
Proof. by intros w. Qed.

Lemma keeps_throw {R} (e : JsError) : keeps_pointer srv (@Throw R e).
Proof. by intros w. Qed.

Lemma keeps_do {R} (e : Eff) (k : Ans e → Prog R) :
  e ≠ EStorageRemove → (∀ a, keeps_pointer srv (k a)) → keeps_pointer srv (Do e k).
Proof.
  intros He Hk w Hw. unfold run. cbn.
  destruct e; cbn; try (by apply Hk); by destruct He.
Qed.

Lemma keeps_bind {A B} (p : Prog A) (f : A → Prog B) :
  keeps_pointer srv p → (∀ a, keeps_pointer srv (f a)) →
  keeps_pointer srv (p ≫= f).
Proof.
  intros Hp Hf w Hw. unfold run. rewrite exec_bind.
  specialize (Hp w Hw). unfold run in Hp.
  destruct (exec srv p w) as [[a|e] w']; [by apply Hf|done].
Qed.

Lemma keeps_try_catch {R} (p : Prog R) (h : JsError → Prog R) :
  keeps_pointer srv p → (∀ e, keeps_pointer srv (h e)) →
  keeps_pointer srv (try_catch p h).
Proof.
  intros Hp Hh w Hw. unfold run. rewrite exec_try_catch.
  specialize (Hp w Hw). unfold run in Hp.
  destruct (exec srv p w) as [[a|e] w']; [done|by apply Hh].
Qed.

Lemma exec_try_finally {R} (p : Prog R) (fin : Prog unit) (w : World) :
  exec srv (try_finally p fin) w =
  match exec srv p w with
  | (Returned r, w') => exec srv (fin ;; Ret r) w'
  | (Raised e, w') => exec srv (fin ;; Throw e) w'
  end.
Proof.
  revert w. induction p as [a|e|e k IH]; intros w; cbn [try_finally exec];
    try reflexivity.
  destruct (handle srv e w) as [a w']. apply IH.
Qed.

Lemma keeps_try_finally {R} (p : Prog R) (fin : Prog unit) :
  keeps_pointer srv p → keeps_pointer srv fin →
  keeps_pointer srv (try_finally p fin).
Proof.
  intros Hp Hfin w Hw. unfold run. rewrite exec_try_finally.
  specialize (Hp w Hw). unfold run in Hp.
  destruct (exec srv p w) as [[a|e] w']; cbn [snd] in Hp.
  - by apply (keeps_bind fin (λ _, Ret a) Hfin (λ _, keeps_ret a)).
  - by apply (keeps_bind fin (λ _, Throw e) Hfin (λ _, keeps_throw e)).
Qed.

Lemma keeps_syncProject (projectId : option string) :
  keeps_pointer srv (syncProject projectId).
Proof.
  intros w Hw. rewrite run_syncProject. unfold sync_result.
  destruct (sync_target projectId w) as [t|]; [|done].
  destruct (srv _ _) as [e|[raw|]] eqn:Hsrv; [|done..].
  by rewrite (no_404 _ _ _ Hsrv).
Qed.

Ltac keeps :=
  unfold get, set, await, setTimeout, clearTimeout, mark, skip, perform;
  repeat first
    [ apply keeps_syncProject
    | apply keeps_ret
    | apply keeps_throw
    | apply keeps_try_catch; [|intros]
    | apply keeps_try_finally
    | apply keeps_bind; [|intros]
    | apply keeps_do; [discriminate|intros]
    | match goal with
      | |- keeps_pointer _ (match ?x with _ => _ end) => destruct x
      end ].

Lemma keeps_persistPage projectId pageId data :
  keeps_pointer srv (persistPage projectId pageId data).
Proof. unfold persistPage. keeps. Qed.

Lemma keeps_pollTask_poll projectId taskId :
  keeps_pointer srv (pollTask_poll projectId taskId).
Proof. unfold pollTask_poll. keeps. Qed.

Lemma keeps_pollPageTask_poll projectId pageId taskId :
  keeps_pointer srv (pollPageTask_poll projectId pageId taskId).
Proof. unfold pollPageTask_poll. keeps. Qed.

Lemma keeps_pollAndSync projectId taskId initialTasks :
  keeps_pointer srv (pollAndSync projectId taskId initialTasks).
Proof. unfold pollAndSync. keeps. Qed.

Lemma keeps_callback (cb : Callback) : keeps_pointer srv (callback_body cb).
Proof.
  destruct cb; cbn [callback_body];
    auto using keeps_persistPage, keeps_pollTask_poll, keeps_pollPageTask_poll,
      keeps_pollAndSync.
Qed.

Lemma keeps_updatePageLocal pageId data :
  keeps_pointer srv (updatePageLocal pageId data).
Proof. unfold updatePageLocal, debouncedUpdatePage, debounce. keeps. Qed.

Lemma keeps_reorderPages newOrder : keeps_pointer srv (reorderPages newOrder).
Proof. unfold reorderPages. keeps. Qed.

Lemma keeps_pollTask taskId : keeps_pointer srv (pollTask taskId).
Proof. unfold pollTask. keeps. Qed.

Lemma keeps_pollPageTask pageId taskId :
  keeps_pointer srv (pollPageTask pageId taskId).
Proof. unfold pollPageTask. keeps. Qed.

Lemma keeps_generatePageImage pageId forceRegenerate :
  keeps_pointer srv (generatePageImage pageId forceRegenerate).
Proof. unfold generatePageImage. keeps. Qed.

Lemma keeps_editPageImage pageId editPrompt contextImages :
  keeps_pointer srv (editPageImage pageId editPrompt contextImages).
Proof. unfold editPageImage. keeps. Qed.

Lemma keeps_generatePageDescription pageId :
  keeps_pointer srv (generatePageDescription pageId).
Proof. unfold generatePageDescription. keeps. Qed.

Lemma keeps_generateDescriptions : keeps_pointer srv generateDescriptions.
Proof. unfold generateDescriptions. keeps. Qed.

(** The event loop keeps it as well. *)
Lemma run_timers_keeps_pointer (fuel : nat) (limit : Z) (w w' : World) :
  storage w ≠ None → run_timers fuel srv limit w = Some w' → storage w' ≠ None.
Proof.
  revert w. induction fuel as [|fuel IH]; intros w Hw; cbn;
    destruct (next_due limit (timers w)) as [t|]; try discriminate;
    try (intros [= <-]; exact Hw).
  apply IH. by apply keeps_callback.
Qed.

(** With a server that never answers 404, no action of the store and no
    timer callback clears a pointer that is set: the 404 branch of
    [syncProject] is the only place that removes it. *)
Lemma pointer_cleared_by_not_found_only :
  (∀ projectId, keeps_pointer srv (syncProject projectId)) ∧
  (∀ pageId data, keeps_pointer srv (updatePageLocal pageId data)) ∧
  (∀ newOrder, keeps_pointer srv (reorderPages newOrder)) ∧
  (∀ taskId, keeps_pointer srv (pollTask taskId)) ∧
  (∀ pageId taskId, keeps_pointer srv (pollPageTask pageId taskId)) ∧
  (∀ pageId force, keeps_pointer srv (generatePageImage pageId force)) ∧
  (∀ pageId editPrompt contextImages,
      keeps_pointer srv (editPageImage pageId editPrompt contextImages)) ∧
  (∀ pageId, keeps_pointer srv (generatePageDescription pageId)) ∧
  keeps_pointer srv generateDescriptions ∧
  (∀ cb, keeps_pointer srv (callback_body cb)).
Proof.
  repeat split;
    auto using keeps_syncProject, keeps_updatePageLocal, keeps_reorderPages,
      keeps_pollTask, keeps_pollPageTask, keeps_generatePageImage,
      keeps_editPageImage, keeps_generatePageDescription,
      keeps_generateDescriptions, keeps_callback.
Qed.

End Pointer.

(** *** When a page's image task gets registered *)

(** [generatePageImage] registers the task once the submit request is
    answered: when it suspends at that request, the registry is as it was
    at entry. *)
Lemma generatePageImage_suspends_unregistered
    (srv : Server) (pageId : string) (forceRegenerate : bool)
    (w : World) (cp : Project) :
  currentProject (store w) = Some cp →
  held nonempty (pageGeneratingTasks (store w)) pageId = false →
  first_await srv (generatePageImage pageId forceRegenerate) w =
  Some (generatePageImage_api (proj_id cp) pageId forceRegenerate,
        with_store (set_error None) w).
Proof.
  intros Hcp Hfree. unfold generatePageImage. cbn -[held]. rewrite Hcp. cbn -[held].
  by rewrite Hfree.
Qed.

(** ** Further properties of the utilities *)

(** *** [normalizeErrorMessage] *)

Lemma append_cons (c : ascii) (a b : string) :
  String c a +:+ b = String c (a +:+ b).
Proof. reflexivity. Qed.

Lemma toLowerCase_app (a b : string) :
  toLowerCase (a +:+ b) = toLowerCase a +:+ toLowerCase b.
Proof.
  induction a as [|c a IH]; [done|].
  rewrite append_cons. cbn [toLowerCase]. by rewrite append_cons, IH.
Qed.

Lemma prefix_app (pat rest : string) : String.prefix pat (pat +:+ rest) = true.
Proof.
  induction pat as [|c pat IH]; [by destruct rest|].
  rewrite append_cons. cbn [String.prefix].
  destruct (Ascii.ascii_dec c c); [done|congruence].
Qed.

Lemma includes_app (pat pre post : string) :
  includes pat (pre +:+ pat +:+ post) = true.
Proof.
  induction pre as [|c pre IH].
  - change ("" +:+ pat +:+ post) with (pat +:+ post).
    destruct (pat +:+ post) eqn:E; cbn [includes]; rewrite <- ?E, prefix_app; done.
  - rewrite append_cons. cbn [includes]. rewrite IH.
    by destruct (String.prefix pat _).
Qed.

(** X1. The message shown is never empty, and which one it is: the
    fallback for an absent or empty message; for any other message the
    hint of the first of the three phrases that its lowered text
    contains; and the message itself, unchanged, when it contains none. *)
Theorem normalizeErrorMessage_cases (errorMessage : option string) :
  let shown := normalizeErrorMessage errorMessage in
  let has pat := includes pat (toLowerCase (default "" errorMessage)) in
  shown ≠ "" ∧
  (truthy_str errorMessage = false → shown = msg_operation_failed) ∧
  (truthy_str errorMessage = true →
   (has "no template image found" = true → shown = msg_no_template) ∧
   (has "no template image found" = false →
    has "page must have description content" = true →
    shown = msg_no_description) ∧
   (has "no template image found" = false →
    has "page must have description content" = false →
    has "image already exists" = true →
    shown = msg_image_exists) ∧
   (has "no template image found" = false →
    has "page must have description content" = false →
    has "image already exists" = false →
    Some shown = errorMessage)).
Proof.
  cbv zeta. unfold normalizeErrorMessage.
  destruct errorMessage as [m|]; [|done].
  change (default "" (Some m)) with m. cbn [truthy_str].
  destruct (String.eqb m "") eqn:E; cbn [negb].
  { split; [done|]. by split. }
  split; [|split; [done|]].
  - repeat case_match; try done. by apply String.eqb_neq.
  - intros _. split; [by intros ->|]. split; [by intros -> ->|].
    split; by intros -> -> ->.
Qed.

Lemma normalizeErrorMessage_cases_witness :
  normalizeErrorMessage (Some "Timeout while rendering page 3")
  = "Timeout while rendering page 3" ∧
  normalizeErrorMessage (Some "") = msg_operation_failed.
Proof.
  split.
  - destruct (normalizeErrorMessage_cases (Some "Timeout while rendering page 3"))
      as (_ & _ & Hsome).
    destruct (Hsome eq_refl) as (_ & _ & _ & Hkept).
    apply (inj Some). exact (Hkept eq_refl eq_refl eq_refl).
  - by apply (normalizeErrorMessage_cases (Some "")).
Defined.

Lemma normalizeErrorMessage_fixed_hints :
  normalizeErrorMessage (Some msg_operation_failed) = msg_operation_failed ∧
  normalizeErrorMessage (Some msg_no_template) = msg_no_template ∧
  normalizeErrorMessage (Some msg_no_description) = msg_no_description ∧
  normalizeErrorMessage (Some msg_image_exists) = msg_image_exists.
Proof. vm_compute. done. Qed.

(** X2. Normalizing twice is normalizing once: the fallback and the three
    hints are themselves left alone. *)
Theorem normalizeErrorMessage_idempotent (errorMessage : option string) :
  normalizeErrorMessage (Some (normalizeErrorMessage errorMessage))
  = normalizeErrorMessage errorMessage.
Proof.
  destruct normalizeErrorMessage_fixed_hints as (H0 & H1 & H2 & H3).
  unfold normalizeErrorMessage at 2 3.
  destruct errorMessage as [m|]; [|done].
  destruct (String.eqb m "") eqn:E; [done|].
  destruct (includes "no template image found" _) eqn:E1; [done|].
  destruct (includes "page must have description content" _) eqn:E2; [done|].
  destruct (includes "image already exists" _) eqn:E3; [done|].
  unfold normalizeErrorMessage. by rewrite E, E1, E2, E3.
Qed.

(** X3. The three backend messages are recognized wherever they occur in
    the message and in whatever letter case, the earlier pattern winning
    when several occur. *)
Theorem normalizeErrorMessage_any_case (pre s post : string) :
  let m := pre +:+ s +:+ post in
  (toLowerCase s = "no template image found" →
   normalizeErrorMessage (Some m) = msg_no_template) ∧
  (toLowerCase s = "page must have description content" →
   includes "no template image found" (toLowerCase m) = false →
   normalizeErrorMessage (Some m) = msg_no_description) ∧
  (toLowerCase s = "image already exists" →
   includes "no template image found" (toLowerCase m) = false →
   includes "page must have description content" (toLowerCase m) = false →
   normalizeErrorMessage (Some m) = msg_image_exists).
Proof.
  cbv zeta.
  assert (∀ pat, toLowerCase s = pat → pat ≠ "" →
            String.eqb (pre +:+ s +:+ post) "" = false ∧
            includes pat (toLowerCase (pre +:+ s +:+ post)) = true) as Hfound.
  { intros pat Hs Hpat. split.
    - apply String.eqb_neq. destruct pre; [|done]. destruct s; [|done].
      by destruct Hpat.
    - by rewrite !toLowerCase_app, Hs, includes_app. }
  unfold normalizeErrorMessage. split; [|split].
  - intros Hs. destruct (Hfound _ Hs) as [-> ->]; done.
  - intros Hs H1. destruct (Hfound _ Hs) as [-> ->]; [done|]. by rewrite H1.
  - intros Hs H1 H2. destruct (Hfound _ Hs) as [-> ->]; [done|]. by rewrite H1, H2.
Qed.

Lemma normalizeErrorMessage_any_case_witness :
  normalizeErrorMessage (Some "Error 400: No Template Image Found (project 7)")
  = msg_no_template.
Proof.
  exact (proj1 (normalizeErrorMessage_any_case
                  "Error 400: " "No Template Image Found" " (project 7)") eq_refl).
Defined.

(** *** [normalizePage] and [normalizeProject] *)

Lemma js_or_absorb (a b : value) : js_or a (js_or a b) = js_or a b.
Proof. unfold js_or. by destruct (truthy a) eqn:E; rewrite ?E. Qed.

(** [normalizePage] touches two properties only: [id], which becomes
    [page_id] when that is truthy and stays otherwise, and
    [generated_image_path], likewise from [generated_image_url]; every
    other property of the page is kept, present or absent. *)
Lemma normalizePage_frame (data : Page) :
  prop "id" (normalizePage data) = js_or (prop "page_id" data) (prop "id" data) ∧
  prop "generated_image_path" (normalizePage data)
  = js_or (prop "generated_image_url" data) (prop "generated_image_path" data) ∧
  ∀ k, k ≠ "id" → k ≠ "generated_image_path" →
       normalizePage data !! k = data !! k.
Proof.
  unfold normalizePage, prop. split; [|split].
  - by rewrite lookup_insert_ne, lookup_insert_eq.
  - by rewrite lookup_insert_eq.
  - intros k H1 H2. by rewrite !lookup_insert_ne.
Qed.

(** X4. Normalizing a page that is already normalized changes nothing, so
    a snapshot can be normalized again without harm. *)
Theorem normalizePage_idempotent (data : Page) :
  normalizePage (normalizePage data) = normalizePage data.
Proof.
  destruct (normalizePage_frame data) as (Hid & Hpath & Hrest).
  apply map_eq. intros k. unfold normalizePage at 1.
  destruct (decide (k = "generated_image_path")) as [->|Hk1].
  - rewrite lookup_insert_eq. rewrite Hpath.
    unfold prop at 1. rewrite Hrest by done. fold (prop "generated_image_url" data).
    rewrite js_or_absorb. unfold normalizePage. by rewrite lookup_insert_eq.
  - rewrite lookup_insert_ne by done.
    destruct (decide (k = "id")) as [->|Hk2].
    + rewrite lookup_insert_eq. rewrite Hid.
      unfold prop at 1. rewrite Hrest by done. fold (prop "page_id" data).
      rewrite js_or_absorb. unfold normalizePage.
      by rewrite lookup_insert_ne, lookup_insert_eq.
    + by rewrite lookup_insert_ne.
Qed.

(** ** Further properties of [syncProject] *)

Lemma sync_result_success (srv : Server) (projectId : option string) (w : World)
    (target : string) (data : RawProject) :
  sync_target projectId w = Some target →
  srv (requests (trace w)) (getProject target) = inr (Some data) →
  store (sync_result srv projectId w)
  = set_currentProject (Some (normalizeProject data)) (store w) ∧
  storage (sync_result srv projectId w)
  = Some (default "undefined" (proj_id (normalizeProject data))).
Proof. intros Ht Hsrv. unfold sync_result. by rewrite Ht, Hsrv. Qed.

Lemma sync_result_not_found (srv : Server) (projectId : option string) (w : World)
    (target : string) (e : JsError) :
  sync_target projectId w = Some target →
  srv (requests (trace w)) (getProject target) = inl e →
  is_not_found e = true →
  currentProject (store (sync_result srv projectId w)) = None ∧
  storage (sync_result srv projectId w) = None.
Proof. intros Ht Hsrv H404. unfold sync_result. by rewrite Ht, Hsrv, H404. Qed.

(** X5. Resynchronizing twice in a row, the server answering both fetches
    with the same snapshot, leaves the store and the pointer as the first
    resynchronization left them. *)
Theorem syncProject_twice
    (srv : Server) (projectId : option string) (w : World)
    (target target' : string) (data : RawProject) :
  let w1 := run srv (syncProject projectId) w in
  let w2 := run srv (syncProject projectId) w1 in
  sync_target projectId w = Some target →
  srv (requests (trace w)) (getProject target) = inr (Some data) →
  sync_target projectId w1 = Some target' →
  srv (requests (trace w1)) (getProject target') = inr (Some data) →
  store w2 = store w1 ∧ storage w2 = storage w1.
Proof.
  cbv zeta. intros Ht Hsrv. rewrite !run_syncProject. intros Ht' Hsrv'.
  destruct (sync_result_success _ _ _ _ _ Ht Hsrv) as [Hst1 Hls1].
  destruct (sync_result_success _ _ _ _ _ Ht' Hsrv') as [Hst2 Hls2].
  by rewrite Hst2, Hls2, Hls1, Hst1.
Qed.

Lemma syncProject_twice_witness :
  let w1 := run refuses_reorder (syncProject None) demo_world in
  let w2 := run refuses_reorder (syncProject None) w1 in
  store w2 = store w1 ∧ storage w2 = storage w1.
Proof.
  apply (syncProject_twice refuses_reorder None demo_world "proj-1" "proj-1"
           two_pages_snapshot).
  - reflexivity.
  - reflexivity.
  - vm_compute. reflexivity.
  - reflexivity.
Defined.

(** X6. Once the server has answered 404, a resynchronization without an
    argument finds no project id anywhere: it sends no request and leaves
    the store and the pointer alone. *)
Theorem syncProject_after_not_found
    (srv : Server) (projectId : option string) (w : World)
    (target : string) (e : JsError) :
  let w1 := run srv (syncProject projectId) w in
  let w2 := run srv (syncProject None) w1 in
  sync_target projectId w = Some target →
  srv (requests (trace w)) (getProject target) = inl e →
  is_not_found e = true →
  store w2 = store w1 ∧ storage w2 = None ∧
  requests (trace w2) = requests (trace w1).
Proof.
  cbv zeta. intros Ht Hsrv H404. rewrite !run_syncProject.
  destruct (sync_result_not_found _ _ _ _ _ Ht Hsrv H404) as [Hcp Hls].
  set (w1 := sync_result srv projectId w) in *.
  assert (sync_target None w1 = None) as Hnone.
  { unfold sync_target. cbn. by rewrite Hcp, Hls. }
  unfold sync_result. rewrite Hnone. cbn. by rewrite requests_snoc_sync.
Qed.

Lemma syncProject_after_not_found_witness :
  let w1 := run gone (syncProject None) demo_world in
  let w2 := run gone (syncProject None) w1 in
  store w2 = store w1 ∧ storage w2 = None ∧
  requests (trace w2) = requests (trace w1).
Proof.
  apply (syncProject_after_not_found gone None demo_world "proj-1" not_found_error).
  - reflexivity.
  - reflexivity.
  - reflexivity.
Defined.

(** X7. After a resynchronization that brought a snapshot with an id
    ([project_id], else [id]), the pointer holds that id and the next
    resynchronization without argument fetches that project, whatever
    project was asked for and whatever the pointer held before. *)
Theorem syncProject_repoints
    (srv : Server) (projectId : option string) (w : World)
    (target : string) (data : RawProject) :
  let w1 := run srv (syncProject projectId) w in
  sync_target projectId w = Some target →
  srv (requests (trace w)) (getProject target) = inr (Some data) →
  ∀ id, or_str (raw_project_id data) (raw_id data) = Some id → id ≠ "" →
    storage w1 = Some id ∧ sync_target None w1 = Some id ∧
    (proj_id <$> currentProject (store w1)) = Some (Some id).
Proof.
  cbv zeta. intros Ht Hsrv. rewrite run_syncProject.
  unfold sync_result. rewrite Ht, Hsrv. unfold sync_target, normalizeProject. cbn.
  intros id -> Hid%String.eqb_neq. cbn. rewrite Hid. cbn. by rewrite Hid.
Qed.

Lemma syncProject_repoints_witness :
  let w1 := run refuses_reorder (syncProject (Some "proj-0")) demo_world in
  storage w1 = Some "proj-1" ∧ sync_target None w1 = Some "proj-1" ∧
  (proj_id <$> currentProject (store w1)) = Some (Some "proj-1").
Proof.
  apply (syncProject_repoints refuses_reorder (Some "proj-0") demo_world
           "proj-0" two_pages_snapshot eq_refl eq_refl "proj-1").
  - reflexivity.
  - done.
Defined.

(** ** Further properties of the polling loops *)

(** No action moves the clock: time passes in the event loop only. *)
Lemma exec_clock {R} (srv : Server) (p : Prog R) (w : World) :
  clock (exec srv p w).2 = clock w.
Proof.
  revert w. induction p as [r|e|e k IH]; intros w; cbn; try done.
  destruct (handle srv e w) as [a w'] eqn:Hh. rewrite IH.
  destruct e; cbn in Hh; by injection Hh as <- <-.
Qed.

Section PollTimes.
Context (srv : Server) (pid : option string) (tid : string).
Context (body : Prog unit) (cb : Callback) (v_go v_end : list PollEvent).
Hypothesis cb_body : callback_body cb = body.
Hypothesis goes_on : ∀ w task,
  srv (requests (trace w)) (getTaskStatus pid tid) = inr (Some task) →
  in_progress (task_status task) → ticked v_go cb w (run srv body w).
Hypothesis ends : ∀ w task,
  srv (requests (trace w)) (getTaskStatus pid tid) = inr (Some task) →
  task_status task = "COMPLETED" → finished v_end w (run srv body w).

(** When each poll is sent: by the time [limit], which falls in the
    [k]-th period of 2000 ms after the start (or anywhere after the last
    one), the loop has sent [k + 1] polls, no more and no less. *)
Lemma poll_loop_times (going : list Task) (last : Task) (limit : Z) :
  Forall (λ t, in_progress (task_status t)) going →
  task_status last = "COMPLETED" →
  ∀ (k : nat) w,
    timers w = [] →
    answers_polls_from srv (count_polls (requests (trace w))) (going ++ [last]) →
    (k ≤ length going)%nat →
    clock w + 2000 * Z.of_nat k ≤ limit →
    ((k < length going)%nat → limit < clock w + 2000 * Z.of_nat (S k)) →
    ∃ w',
      run_timers (length going) srv limit (run srv body w) = Some w' ∧
      count_polls (requests (trace w')) = (count_polls (requests (trace w)) + S k)%nat.
Proof.
  intros Hgoing Hlast. induction Hgoing as [|t going Ht Hgoing IH];
    intros k w Htimers Hsrv Hk Hlow Hhigh.
  - destruct (ends w last) as (Ht' & Hc & Hv & Hn); [|done|].
    { apply (Hsrv _ _ _ 0%nat); [lia|done]. }
    cbn in Hk. assert (k = 0%nat) as -> by lia.
    exists (with_clock limit (run srv body w)). split.
    + apply run_timers_idle. by rewrite Ht'.
    + cbn. rewrite Hn. lia.
  - destruct (goes_on w t) as (Ht' & Hc & Hv & Hn); [|done|].
    { apply (Hsrv _ _ _ 0%nat); [lia|done]. }
    rewrite Htimers in Ht'. cbn in Ht'.
    set (w1 := run srv body w) in *.
    set (T := {| tm_id := next_timer w; tm_due := clock w + 2000; tm_cb := cb |}) in *.
    cbn [length] in *. destruct k as [|k].
    + exists (with_clock limit w1). split; [|cbn; rewrite Hn; lia].
      cbn. rewrite Ht'. cbn.
      by rewrite (proj2 (Z.leb_gt (clock w + 2000) limit)) by lia.
    + rewrite (run_timers_single srv _ limit w1 T Ht') by (cbn; lia).
      cbn [tm_cb T]. rewrite cb_body.
      destruct (IH k (fired T w1)) as (w' & Hrun & Hcount).
      * by apply fired_single.
      * intros hist pid' tid' i task Hcount Hi. cbn in Hcount.
        apply (Hsrv hist pid' tid' (S i)); [lia|done].
      * lia.
      * cbn. lia.
      * intros Hlt. cbn. specialize (Hhigh ltac:(lia)). lia.
      * exists w'. split; [done|]. rewrite Hcount. cbn. rewrite Hn. lia.
Qed.

End PollTimes.



Lemma held_registered (tasks : gmap string string) (k : string) :
  truthy_str (tasks !! k) = true → held nonempty tasks k = true.
Proof. unfold held. by destruct (tasks !! k). Qed.

Lemma generatePageImage_busy
    (srv : Server) (pageId : string) (forceRegenerate : bool) (w : World) :
  held nonempty (pageGeneratingTasks (store w)) pageId = true →
  exec srv (generatePageImage pageId forceRegenerate) w = (Returned (), w).
Proof.
  intros Hbusy. unfold generatePageImage. cbn -[held].
  destruct (currentProject (store w)); [|done]. by rewrite Hbusy.
Qed.

(** X9. A status response without task data ends the polling without a
    word: no tick is scheduled and nothing is released. [pollTask] leaves
    [activeTaskId] and [isGlobalLoading] as they are; [pollPageTask] leaves
    the page's entry in the registry, so that every later
    [generatePageImage] for that page is skipped. *)
Theorem poll_without_task_data
    (srv : Server) (pid : option string) (pageId taskId : string) (w : World) :
  srv (requests (trace w)) (getTaskStatus pid taskId) = inr None →
  (let w' := run srv (pollTask_poll pid taskId) w in
   store w' = store w ∧ timers w' = timers w) ∧
  (let w' := run srv (pollPageTask_poll pid pageId taskId) w in
   store w' = store w ∧ timers w' = timers w ∧
   ∀ forceRegenerate,
     truthy_str (pageGeneratingTasks (store w) !! pageId) = true →
     exec srv (generatePageImage pageId forceRegenerate) w' = (Returned (), w')).
Proof.
  intros Hsrv. cbv zeta. split.
  - unfold run, pollTask_poll. cbn. by rewrite Hsrv.
  - unfold run, pollPageTask_poll. cbn. rewrite Hsrv. cbn.
    split; [done|]. split; [done|]. intros f Hbusy.
    exact (generatePageImage_busy srv pageId f
             (log_event (EvCall (getTaskStatus pid taskId)) w)
             (held_registered _ _ Hbusy)).
Qed.

Lemma poll_without_task_data_witness :
  let w' := run quiet (pollPageTask_poll (Some "proj-1") "p1" "task-9") busy_world in
  pageGeneratingTasks (store w') !! "p1" = Some "task-9" ∧
  exec quiet (generatePageImage "p1" true) w' = (Returned (), w').
Proof.
  destruct (poll_without_task_data quiet (Some "proj-1") "p1" "task-9" busy_world
              eq_refl) as [_ (Hstore & _ & Hskip)].
  cbv zeta. split; [by rewrite Hstore|]. by apply Hskip.
Defined.


(** X10. On every outcome that ends its polling (COMPLETED, FAILED, an
    unrecognized status, a failed request) [pollPageTask] removes the entry
    of its own page and of no other, and schedules nothing. *)
Theorem pollPageTask_releases_own_slot
    (srv : Server) (pid : option string) (pageId taskId : string) (w : World) :
  ends_polling (srv (requests (trace w)) (getTaskStatus pid taskId)) →
  let w' := run srv (pollPageTask_poll pid pageId taskId) w in
  pageGeneratingTasks (store w') = delete pageId (pageGeneratingTasks (store w)) ∧
  (∀ other, other ≠ pageId →
     pageGeneratingTasks (store w') !! other = pageGeneratingTasks (store w) !! other) ∧
  timers w' = timers w.
Proof.
  intros Hends. cbv zeta.
  assert (pageGeneratingTasks (store (run srv (pollPageTask_poll pid pageId taskId) w))
          = delete pageId (pageGeneratingTasks (store w)) ∧
          timers (run srv (pollPageTask_poll pid pageId taskId) w) = timers w)
    as [Hreg Htimers].
  { unfold run, pollPageTask_poll. rewrite exec_try_catch. cbn.
    destruct (srv _ _) as [e|[task|]]; cbn in *; [done| |done].
    destruct (String.eqb (task_status task) "COMPLETED") eqn:Hc; cbn.
    { rewrite exec_syncProject. cbn. by autorewrite with sync. }
    destruct (String.eqb (task_status task) "FAILED") eqn:Hf; cbn.
    { rewrite exec_syncProject. cbn. by autorewrite with sync. }
    destruct (String.eqb (task_status task) "PENDING") eqn:Hp; cbn.
    { apply String.eqb_eq in Hp. destruct Hends. by left. }
    destruct (String.eqb (task_status task) "PROCESSING") eqn:Hg; cbn.
    { apply String.eqb_eq in Hg. destruct Hends. by right. }
    done. }
  split; [done|]. split; [|done].
  intros other Hother. rewrite Hreg. by apply lookup_delete_ne.
Qed.

Lemma pollPageTask_releases_own_slot_witness :
  let w' := run offline (pollPageTask_poll (Some "proj-1") "p1" "task-9") busy_world in
  pageGeneratingTasks (store w') = delete "p1" (pageGeneratingTasks (store busy_world)) ∧
  (∀ other, other ≠ "p1" →
     pageGeneratingTasks (store w') !! other
     = pageGeneratingTasks (store busy_world) !! other) ∧
  timers w' = timers busy_world.
Proof.
  apply (pollPageTask_releases_own_slot offline (Some "proj-1") "p1" "task-9"
           busy_world).
  exact I.
Defined.

Lemma poll_view_snoc_call tr r :
  poll_view (tr ++ [EvCall r]) = poll_view tr ++ (if is_poll r then [Polled] else []).
Proof. rewrite poll_view_app. unfold poll_view at 2. by destruct r. Qed.

(** ** Submitting page tasks *)

(** X11. For a page whose entry in the registry reads as unset (no task
    held under its id, and the id names no member of [Object.prototype]):
    when the submission of a page image task fails, or is answered without
    a task id, nothing is left registered for the page and no polling
    starts. A rejected request is thrown on to the caller after the error
    is set; an answer without task id only resynchronizes.
    [generatePageImage] and [editPageImage] behave alike. *)
Theorem page_image_submission_without_task
    (srv : Server) (w : World) (cp : Project) (pageId editPrompt : string)
    (forceRegenerate : bool) (contextImages : value) :
  currentProject (store w) = Some cp →
  held nonempty (pageGeneratingTasks (store w)) pageId = false →
  let generate := generatePageImage_api (proj_id cp) pageId forceRegenerate in
  let edit := editPageImage_api (proj_id cp) pageId editPrompt contextImages in
  let rejected action request fallback e :=
    ∃ w', exec srv action w = (Raised e, w') ∧
          error (store w')
          = Some (normalizeErrorMessage (Some (or_lit (err_message e) fallback))) ∧
          pageGeneratingTasks (store w') !! pageId = None ∧
          timers w' = timers w ∧
          trace w' = trace w ++ [EvCall request] in
  let unanswered action :=
    ∃ w', exec srv action w = (Returned (), w') ∧
          pageGeneratingTasks (store w') = pageGeneratingTasks (store w) ∧
          timers w' = timers w ∧
          poll_view (trace w') = poll_view (trace w) ++ [Synced] in
  (∀ e, srv (requests (trace w)) generate = inl e →
     rejected (generatePageImage pageId forceRegenerate) generate "生成圖片失敗" e) ∧
  (∀ taskId, srv (requests (trace w)) generate = inr taskId →
     truthy_str taskId = false →
     unanswered (generatePageImage pageId forceRegenerate)) ∧
  (∀ e, srv (requests (trace w)) edit = inl e →
     rejected (editPageImage pageId editPrompt contextImages) edit "編輯圖片失敗" e) ∧
  (∀ taskId, srv (requests (trace w)) edit = inr taskId →
     truthy_str taskId = false →
     unanswered (editPageImage pageId editPrompt contextImages)).
Proof.
  intros Hcp Hfree. cbv zeta.
  split; [|split; [|split]].
  - intros e Hsrv. unfold generatePageImage. cbn. rewrite Hcp. cbn.
    rewrite Hfree. cbn. rewrite Hsrv. cbn.
    eexists; split; [reflexivity|]; cbn.
    repeat split; try done; apply lookup_delete_eq.
  - intros taskId Hsrv Hno. unfold generatePageImage. cbn. rewrite Hcp. cbn.
    rewrite Hfree. cbn. rewrite Hsrv. cbn. rewrite Hno.
    rewrite exec_try_catch, exec_syncProject.
    eexists; split; [reflexivity|]. repeat split; sync_facts.
    rewrite poll_view_snoc_call. cbn. by rewrite app_nil_r.
  - intros e Hsrv. unfold editPageImage. cbn. rewrite Hcp. cbn.
    rewrite Hfree. cbn. rewrite Hsrv. cbn.
    eexists; split; [reflexivity|]; cbn.
    repeat split; try done; apply lookup_delete_eq.
  - intros taskId Hsrv Hno. unfold editPageImage. cbn. rewrite Hcp. cbn.
    rewrite Hfree. cbn. rewrite Hsrv. cbn. rewrite Hno.
    rewrite exec_try_catch, exec_syncProject.
    eexists; split; [reflexivity|]. repeat split; sync_facts.
    rewrite poll_view_snoc_call. cbn. by rewrite app_nil_r.
Qed.

Lemma page_image_submission_without_task_witness :
  ∃ w', exec quiet (generatePageImage "p2" false) demo_world = (Returned (), w') ∧
        pageGeneratingTasks (store w') = pageGeneratingTasks (store demo_world) ∧
        timers w' = timers demo_world ∧
        poll_view (trace w') = poll_view (trace demo_world) ++ [Synced].
Proof.
  destruct (page_image_submission_without_task quiet demo_world demo_project
              "p2" "brighter" false VUndefined eq_refl eq_refl)
    as (_ & Hnone & _).
  apply (Hnone None); reflexivity.
Defined.

Lemma sync_result_loaded (srv : Server) (projectId : option string) (w : World)
    (cp : Project) :
  never_not_found srv →
  currentProject (store w) = Some cp →
  ∃ cp', currentProject (store (sync_result srv projectId w)) = Some cp'.
Proof.
  intros Hnever Hcp. unfold sync_result.
  destruct (sync_target projectId w) as [t|]; [|by eauto].
  destruct (srv _ _) as [e|[raw|]] eqn:Hsrv; cbn; [|by eauto..].
  rewrite (Hnever _ _ _ Hsrv). cbn. by eauto.
Qed.

Lemma exec_pollPageTask_poll_continues
    (srv : Server) (pid : option string) (pageId taskId : string)
    (task : Task) (w : World) :
  srv (requests (trace w)) (getTaskStatus pid taskId) = inr (Some task) →
  in_progress (task_status task) →
  exec srv (pollPageTask_poll pid pageId taskId) w =
  (Returned (),
   (add_timer (CbPollPageTask pid pageId taskId) 2000
      (sync_result srv None (log_event (EvCall (getTaskStatus pid taskId)) w))).2).
Proof.
  intros Hsrv Hst. unfold pollPageTask_poll. rewrite exec_try_catch. cbn.
  rewrite Hsrv. cbn.
  destruct Hst as [-> | ->]; cbn; by rewrite exec_bind, exec_syncProject.
Qed.




Lemma requests_sync_result srv projectId w :
  requests (trace (sync_result srv projectId w))
  = requests (trace w) ++
    match sync_target projectId w with
    | Some target => [getProject target]
    | None => []
    end.
Proof.
  rewrite sync_result_trace, requests_app.
  change (EvSync projectId :: ?l) with ([EvSync projectId] ++ l).
  rewrite requests_app. by destruct (sync_target projectId w).
Qed.

(** X13. [generatePageDescription] for a page whose flag reads as unset
    resynchronizes, sends the request, and ends by the server's answer to
    it, in both cases with the page's flag removed and no timer started.
    When the request is rejected, that error is thrown on after the error
    message was set from it, and nothing more is sent; when it is
    accepted, the action returns after one more resynchronization. *)
Theorem generatePageDescription_always_releases
    (srv : Server) (w : World) (cp : Project) (pageId : string) :
  currentProject (store w) = Some cp →
  held id (pageDescriptionGeneratingTasks (store w)) pageId = false →
  let fetch := match sync_target None w with
               | Some target => [getProject target]
               | None => []
               end in
  let request := generatePageDescription_api (proj_id cp) pageId true in
  let answer := srv (requests (trace w) ++ fetch) request in
  ∃ w',
    exec srv (generatePageDescription pageId) w
    = (match answer with inl e => Raised e | inr _ => Returned () end, w') ∧
    pageDescriptionGeneratingTasks (store w')
    = delete pageId (pageDescriptionGeneratingTasks (store w)) ∧
    timers w' = timers w ∧
    match answer with
    | inl e =>
        error (store w')
        = Some (normalizeErrorMessage (Some (or_lit (err_message e) "生成描述失敗"))) ∧
        requests (trace w') = requests (trace w) ++ fetch ++ [request] ∧
        poll_view (trace w') = poll_view (trace w) ++ [Synced]
    | inr _ =>
        (∃ refetch, requests (trace w')
                    = requests (trace w) ++ fetch ++ request :: refetch) ∧
        poll_view (trace w') = poll_view (trace w) ++ [Synced; Synced]
    end.
Proof.
  intros Hcp Hfree. cbv zeta. unfold generatePageDescription. cbn. rewrite Hcp. cbn.
  rewrite Hfree. cbn.
  rewrite exec_try_finally, exec_try_catch, exec_bind, exec_syncProject.
  cbn. autorewrite with sync.
  set (w0 := with_store _ (with_store (set_error None) w)).
  assert (requests (trace (sync_result srv None w0))
          = requests (trace w) ++
            match sync_target None w with
            | Some target => [getProject target]
            | None => []
            end) as Hreq by exact (requests_sync_result srv None w0).
  set (w1 := sync_result srv None w0) in *. rewrite Hreq.
  destruct (srv _ (generatePageDescription_api _ _ _)) as [e|[]] eqn:Hsrv; cbn.
  - eexists. split; [reflexivity|]. cbn.
    subst w1. autorewrite with sync. cbn.
    rewrite delete_insert_eq. split; [done|]. split; [done|].
    split; [done|]. rewrite requests_snoc_call, Hreq, <- app_assoc.
    split; [done|]. rewrite poll_view_snoc_call. cbn.
    autorewrite with sync. cbn. by rewrite app_nil_r.
  - rewrite exec_syncProject. cbn.
    eexists. split; [reflexivity|]. cbn. autorewrite with sync. cbn.
    subst w1. autorewrite with sync. cbn.
    rewrite delete_insert_eq. split; [done|]. split; [done|]. split.
    + eexists. rewrite requests_sync_result. cbn.
      rewrite requests_snoc_call, Hreq, <- !app_assoc. reflexivity.
    + rewrite poll_view_snoc_call. cbn.
      autorewrite with sync. cbn. by rewrite app_nil_r, <- app_assoc.
Qed.

Lemma generatePageDescription_always_releases_witness :
  ∃ w',
    exec offline (generatePageDescription "p2") demo_world
    = (Raised network_error, w') ∧
    pageDescriptionGeneratingTasks (store w')
    = delete "p2" (pageDescriptionGeneratingTasks (store demo_world)) ∧
    timers w' = timers demo_world ∧
    error (store w') = Some "Network Error" ∧
    requests (trace w')
    = [getProject "proj-1"; generatePageDescription_api (Some "proj-1") "p2" true] ∧
    poll_view (trace w') = [Synced].
Proof.
  apply (generatePageDescription_always_releases offline demo_world demo_project "p2").
  - reflexivity.
  - reflexivity.
Defined.

(** ** The batch description task *)

Lemma lookup_assign {V} (k k' : string) (v : V) (tasks : gmap string V) :
  assign k' v tasks !! k
  = if bool_decide (k' = k ∧ k ≠ "__proto__") then Some v else tasks !! k.
Proof.
  unfold assign. destruct (String.eqb k' "__proto__") eqn:E.
  - apply String.eqb_eq in E as ->.
    rewrite bool_decide_eq_false_2; [done|]. by intros [<- ?].
  - apply String.eqb_neq in E. destruct (decide (k' = k)) as [<-|Hne].
    + by rewrite lookup_insert_eq, bool_decide_eq_true_2.
    + rewrite lookup_insert_ne by done.
      rewrite bool_decide_eq_false_2; [done|]. by intros [? _].
Qed.

Lemma mark_fold (pages : list Page) (acc : gmap string bool) (k : string) :
  foldl (λ tasks page,
           match page_key page with
           | Some k => assign k true tasks
           | None => tasks
           end) acc pages !! k
  = if bool_decide (k ≠ "__proto__" ∧ Exists (λ p, page_key p = Some k) pages)
    then Some true else acc !! k.
Proof.
  revert acc. induction pages as [|p pages IH]; intros acc; cbn [foldl].
  - rewrite bool_decide_eq_false_2; [done|]. by intros [_ ?%Exists_nil].
  - rewrite IH. cbv beta. destruct (bool_decide (_ ∧ Exists _ pages)) eqn:E.
    + apply bool_decide_eq_true in E as [Hk E].
      rewrite bool_decide_eq_true_2; [done|]. split; [done|by apply Exists_cons_tl].
    + apply bool_decide_eq_false in E.
      destruct (page_key p) as [k'|] eqn:Hkey.
      * rewrite lookup_assign. destruct (bool_decide (k' = k ∧ _)) eqn:E'.
        -- apply bool_decide_eq_true in E' as [<- Hk].
           rewrite bool_decide_eq_true_2; [done|]. split; [done|by apply Exists_cons_hd].
        -- apply bool_decide_eq_false in E'.
           rewrite bool_decide_eq_false_2; [done|].
           intros [Hk [Hp|?]%Exists_cons]; [|by apply E].
           rewrite Hkey in Hp. injection Hp as ->. by apply E'.
      * rewrite bool_decide_eq_false_2; [done|].
        intros [Hk [Hp|?]%Exists_cons]; [by rewrite Hkey in Hp|by apply E].
Qed.





(** Without a project, without a project id or without a page that has
    an id, [generateDescriptions] does nothing at all. *)
Lemma generateDescriptions_nothing_to_do (srv : Server) (w : World) :
  match currentProject (store w) with
  | None => True
  | Some cp =>
      truthy_str (proj_id cp) = false ∨
      filter (λ p : Page, truthy (prop "id" p) = true) (proj_pages cp) = []
  end →
  exec srv generateDescriptions w = (Returned (), w).
Proof.
  unfold generateDescriptions. cbn.
  destruct (currentProject (store w)) as [cp|]; [|done].
  destruct (proj_id cp) as [projectId|]; [|done]. cbn.
  destruct (String.eqb projectId ""); [done|]. cbn.
  intros [H|H]; [discriminate H|by rewrite H].
Qed.


Lemma still_fold (initialTasks : gmap string bool) (pages : list Page)
    (acc : gmap string bool) (k : string) :
  foldl (λ tasks page,
           match page_key page with
           | Some k =>
               let hasDescription := truthy (prop "description_content" page) in
               let isGenerating :=
                 (strict_eq_str (prop "status" page) "GENERATING"
                  || (negb hasDescription && held id initialTasks k))%bool in
               if isGenerating then assign k true tasks else tasks
           | None => tasks
           end) acc pages !! k
  = if bool_decide (k ≠ "__proto__" ∧
                    Exists (λ p, page_key p = Some k ∧
                                 is_generating initialTasks p = true) pages)
    then Some true else acc !! k.
Proof.
  revert acc. induction pages as [|p pages IH]; intros acc; cbn [foldl].
  - rewrite bool_decide_eq_false_2; [done|]. by intros [_ ?%Exists_nil].
  - rewrite IH. cbv beta zeta.
    destruct (bool_decide (_ ∧ Exists _ pages)) eqn:E.
    + apply bool_decide_eq_true in E as [Hk E].
      rewrite bool_decide_eq_true_2; [done|]. split; [done|by apply Exists_cons_tl].
    + apply bool_decide_eq_false in E.
      assert (is_generating initialTasks p
              = match page_key p with
                | Some k' =>
                    (strict_eq_str (prop "status" p) "GENERATING"
                     || negb (truthy (prop "description_content" p))
                        && held id initialTasks k')%bool
                | None => false
                end) as Hgen by done.
      destruct (page_key p) as [k'|] eqn:Hkey.
      * destruct (strict_eq_str (prop "status" p) "GENERATING"
                  || negb (truthy (prop "description_content" p))
                     && held id initialTasks k')%bool eqn:Hg.
        -- rewrite lookup_assign. destruct (bool_decide (k' = k ∧ _)) eqn:E'.
           ++ apply bool_decide_eq_true in E' as [<- Hk].
              rewrite bool_decide_eq_true_2; [done|]. split; [done|].
              by apply Exists_cons_hd.
           ++ apply bool_decide_eq_false in E'.
              rewrite bool_decide_eq_false_2; [done|].
              intros [Hk [[Hp _]|?]%Exists_cons]; [|by apply E].
              rewrite Hkey in Hp. injection Hp as ->. by apply E'.
        -- rewrite bool_decide_eq_false_2; [done|].
           intros [Hk [[_ Hp]|?]%Exists_cons]; [|by apply E].
           rewrite Hgen in Hp. discriminate Hp.
      * rewrite bool_decide_eq_false_2; [done|].
        intros [Hk [[Hp _]|?]%Exists_cons]; [by rewrite Hkey in Hp|by apply E].
Qed.



Lemma taskProgress_sync_result srv projectId w :
  taskProgress (store (sync_result srv projectId w)) = taskProgress (store w).
Proof. apply sync_result_frame. Qed.

#[local] Hint Rewrite taskProgress_sync_result : sync.

Ltac sync_all :=
  repeat (progress (cbn; autorewrite with sync)); rewrite <- ?app_assoc; try done.



(** ** The material generator *)

Lemma material_poll_waiting
    (getImageUrl : string → string) (hasProject : bool)
    (outcome : JsError + option Task) (m : Material.PollState) :
  match outcome with
  | inr (Some task) => in_progress (task_status task)
  | _ => True
  end →
  (S (Material.attempts m) < Material.maxAttempts)%nat →
  Material.poll getImageUrl hasProject outcome m = Material.count_attempt m.
Proof.
  intros Hout Hm. unfold Material.poll, Material.poll_failed.
  cbn [Material.attempts Material.count_attempt].
  rewrite (proj2 (Nat.leb_gt _ _)) by lia.
  destruct outcome as [e|[task|]]; [done| |done].
  by destruct Hout as [-> | ->].
Qed.

(** X18. The material poller gives up at its 60th attempt and not before:
    as long as the task stays PENDING or PROCESSING, or the status request
    keeps failing, the first 59 polls only count; the 60th stops the
    interval, ends the generating state and shows one toast, a warning for
    a task still in progress and an error for a failing request. *)
Theorem material_poll_gives_up_at_60
    (getImageUrl : string → string) (hasProject : bool)
    (outcome : JsError + option Task) (m : Material.PollState) (n : nat) :
  match outcome with
  | inr (Some task) => in_progress (task_status task)
  | _ => True
  end →
  (Material.attempts m + n = 59)%nat →
  let poll := Material.poll getImageUrl hasProject outcome in
  Nat.iter n poll m = Nat.iter n Material.count_attempt m ∧
  Material.polling (Nat.iter n poll m) = Material.polling m ∧
  Material.toasts (Nat.iter n poll m) = Material.toasts m ∧
  Material.attempts (Nat.iter (S n) poll m) = 60%nat ∧
  Material.polling (Nat.iter (S n) poll m) = false ∧
  Material.isGenerating (Nat.iter (S n) poll m) = false ∧
  Material.toasts (Nat.iter (S n) poll m) =
    Material.toasts m ++
    [match outcome with
     | inr (Some _) => ("素材生成超時，請稍後檢視素材庫", "warning")
     | _ => ("輪詢任務狀態失敗，請稍後檢視素材庫", "error")
     end].
Proof.
  intros Hout Hn poll.
  assert (∀ k, (Material.attempts m + k ≤ 59)%nat →
               Nat.iter k poll m = Nat.iter k Material.count_attempt m ∧
               Material.attempts (Nat.iter k Material.count_attempt m)
               = (Material.attempts m + k)%nat ∧
               Material.polling (Nat.iter k Material.count_attempt m)
               = Material.polling m ∧
               Material.toasts (Nat.iter k Material.count_attempt m)
               = Material.toasts m) as Hiter.
  { induction k as [|k IH]; intros Hk; rewrite ?Nat.iter_succ.
    - split; [done|]. split; [cbn; lia|]. by split.
    - destruct IH as (IH1 & IH2 & IH3 & IH4); [lia|].
      rewrite IH1. unfold poll at 1.
      rewrite material_poll_waiting; [|done|rewrite IH2; unfold Material.maxAttempts; lia].
      cbn. rewrite IH2, IH3, IH4. split; [done|]. split; [lia|]. by split. }
  destruct (Hiter n) as (H1 & H2 & H3 & H4); [lia|].
  rewrite H1, H3, H4. repeat split.
  all: rewrite Nat.iter_succ, H1; unfold poll, Material.poll, Material.poll_failed;
    cbn [Material.attempts Material.count_attempt]; rewrite H2, Hn; cbn [Nat.leb].
  all: destruct outcome as [e|[task|]]; cbn; rewrite ?H2, ?Hn, ?H4; try done.
  all: destruct Hout as [Hs|Hs]; rewrite Hs; cbn; by rewrite ?H2, ?Hn, ?H4.
Qed.

Lemma material_poll_gives_up_at_60_witness :
  let m := {| Material.attempts := 57; Material.isGenerating := true;
              Material.previewUrl := None; Material.polling := true;
              Material.toasts := [] |} in
  let poll := Material.poll (λ url, url) true (inl network_error) in
  Material.polling (poll (poll m)) = true ∧
  Material.polling (poll (poll (poll m))) = false ∧
  Material.toasts (poll (poll (poll m)))
  = [("輪詢任務狀態失敗，請稍後檢視素材庫", "error")].
Proof.
  intros m poll.
  destruct (material_poll_gives_up_at_60 (λ url, url) true (inl network_error) m 2 I
              eq_refl) as (_ & Hgo & _ & _ & Hstop & _ & Htoast).
  split; [exact Hgo|]. split; [exact Hstop|exact Htoast].
Defined.

(** X19. The material poller stops exactly when the task is settled. On
    FAILED it stops and shows the task's message, or a fallback, as an
    error. On COMPLETED with an image address (a non-empty string) in the
    progress it stops, sets the preview to that address and shows the
    success toast of the project or of the global library; on COMPLETED
    with no image address, or a falsy one, it stops, leaves the preview
    and shows an error. On a status it does not know it only counts the
    attempt, however many attempts there have been: it never gives up and
    shows nothing. *)
Theorem material_poll_settles
    (getImageUrl : string → string) (hasProject : bool) (task : Task)
    (m : Material.PollState) :
  let poll := Material.poll getImageUrl hasProject (inr (Some task)) in
  (task_status task = "FAILED" →
   Material.polling (poll m) = false ∧ Material.isGenerating (poll m) = false ∧
   Material.previewUrl (poll m) = Material.previewUrl m ∧
   Material.toasts (poll m)
   = Material.toasts m ++ [(or_lit (task_error_message task) "素材生成失敗", "error")]) ∧
  (task_status task = "COMPLETED" →
   (∀ url, Material.image_url (task_progress task) = VStr url → url ≠ "" →
      Material.polling (poll m) = false ∧ Material.isGenerating (poll m) = false ∧
      Material.previewUrl (poll m) = Some (getImageUrl url) ∧
      Material.toasts (poll m)
      = Material.toasts m ++
        [(if hasProject then "素材生成成功，已保存到歷史素材庫"
          else "素材生成成功，已保存到全域素材庫", "success")]) ∧
   (truthy (Material.image_url (task_progress task)) = false →
      Material.polling (poll m) = false ∧ Material.isGenerating (poll m) = false ∧
      Material.previewUrl (poll m) = Material.previewUrl m ∧
      Material.toasts (poll m)
      = Material.toasts m ++ [("素材生成完成，但未找到圖片位址", "error")])) ∧
  (unknown_status (task_status task) →
   ∀ n, Nat.iter n poll m = Nat.iter n Material.count_attempt m ∧
        Material.polling (Nat.iter n poll m) = Material.polling m ∧
        Material.isGenerating (Nat.iter n poll m) = Material.isGenerating m ∧
        Material.toasts (Nat.iter n poll m) = Material.toasts m).
Proof.
  cbv zeta. split; [|split].
  - intros Hst. unfold Material.poll. rewrite Hst. by cbn.
  - intros Hst. unfold Material.poll. rewrite Hst. cbn -[Material.image_url].
    split.
    + intros url -> Hurl%String.eqb_neq. by rewrite Hurl.
    + destruct (Material.image_url (task_progress task)) as [| |b|n|url| |];
        cbn [truthy]; try done.
      intros Hurl%negb_false_iff. by rewrite Hurl.
  - intros (Hc & Hf & Hp & Hg) n.
    assert (∀ m0, Material.poll getImageUrl hasProject (inr (Some task)) m0
                  = Material.count_attempt m0) as Hstep.
    { intros m0. unfold Material.poll.
      apply String.eqb_neq in Hc, Hf, Hp, Hg. by rewrite Hc, Hf, Hp, Hg. }
    induction n as [|n (IH & IH1 & IH2 & IH3)]; [done|].
    rewrite !Nat.iter_succ, Hstep, IH. split; [done|]. cbn.
    rewrite <- IH. by rewrite IH1, IH2, IH3.
Qed.

Lemma material_poll_settles_witness :
  let m := {| Material.attempts := 0; Material.isGenerating := true;
              Material.previewUrl := None; Material.polling := true;
              Material.toasts := [] |} in
  let poll := Material.poll (λ url, url) true (inr (Some (task_with "CANCELLED"))) in
  Material.polling (Nat.iter 100 poll m) = true ∧
  Material.isGenerating (Nat.iter 100 poll m) = true ∧
  Material.toasts (Nat.iter 100 poll m) = [].
Proof.
  intros m poll.
  destruct (material_poll_settles (λ url, url) true (task_with "CANCELLED") m)
    as (_ & _ & Hunknown).
  destruct (Hunknown ltac:(by repeat split) 100%nat) as (_ & H1 & H2 & H3).
  split; [exact H1|]. split; [exact H2|exact H3].
Defined.

(** ** The actions that use the other endpoints *)

Section ActLaws.
Context (srv : Server) (api : Backend).

Lemma act_exec_bind {A B} (p : Act A) (f : A → Act B) (s : Site) :
  act_exec srv api (p ≫= f) s =
  match act_exec srv api p s with
  | (Returned a, s') => act_exec srv api (f a) s'
  | (Raised e, s') => (Raised e, s')
  end.
Proof.
  revert s. induction p as [a|e|e k IH|r k IH]; intros s; cbn; try reflexivity.
  - destruct (handle srv e (world s)) as [a w']. apply IH.
  - apply IH.
Qed.

Lemma act_exec_catch {R} (p : Act R) (h : JsError → Act R) (s : Site) :
  act_exec srv api (act_catch p h) s =
  match act_exec srv api p s with
  | (Returned r, s') => (Returned r, s')
  | (Raised e, s') => act_exec srv api (h e) s'
  end.
Proof.
  revert s. induction p as [a|e|e k IH|r k IH]; intros s; cbn; try reflexivity.
  - destruct (handle srv e (world s)) as [a w']. apply IH.
  - apply IH.
Qed.

Lemma act_exec_finally {R} (p : Act R) (fin : Act unit) (s : Site) :
  act_exec srv api (act_finally p fin) s =
  match act_exec srv api p s with
  | (Returned r, s') => act_exec srv api (fin ;; Done r) s'
  | (Raised e, s') => act_exec srv api (fin ;; Fail e) s'
  end.
Proof.
  revert s. induction p as [a|e|e k IH|r k IH]; intros s;
    cbn [act_finally act_exec]; try reflexivity.
  - destruct (handle srv e (world s)) as [a w']. apply IH.
  - apply IH.
Qed.

(** An action of [Prog] runs as before, and calls none of the other
    endpoints. *)
Lemma act_exec_lift {R} (p : Prog R) (s : Site) :
  act_exec srv api (lift p) s =
  ((exec srv p (world s)).1,
   {| world := (exec srv p (world s)).2; asked := asked s |}).
Proof.
  revert s. induction p as [a|e|e k IH]; intros [w hist]; cbn; try reflexivity.
  destruct (handle srv e w) as [a w']. by rewrite IH.
Qed.

Lemma act_exec_syncProject (projectId : option string) (s : Site) :
  act_exec srv api (lift (syncProject projectId)) s =
  (Returned (), {| world := sync_result srv projectId (world s); asked := asked s |}).
Proof. by rewrite act_exec_lift, exec_syncProject. Qed.

End ActLaws.

(** X20. Creating a project does not depend on its optional steps: once
    the server has created the project and serves it, [initializeProject]
    returns with the served project mirrored, the pointer on its id (the
    text [undefined] when it has none), the loading flag down and no error, whether the upload of the template and
    the generation from the description succeed or fail. The template is
    uploaded when one is given, the generation is asked for when the type
    is [description], in that order. *)
Theorem initializeProject_optional_steps
    (srv : Server) (api : Backend) (s : Site) (type content : string)
    (templateImage : option File) (projectId : string) (data : RawProject) :
  (∀ request, api (asked s) (createProject request) = inr (Some projectId)) →
  projectId ≠ "" →
  srv (requests (trace (world s))) (getProject projectId) = inr (Some data) →
  ∃ s' request,
    act_exec srv api (initializeProject type content templateImage) s
    = (Returned (), s') ∧
    currentProject (store (world s')) = Some (normalizeProject data) ∧
    storage (world s') = Some (default "undefined" (proj_id (normalizeProject data))) ∧
    isGlobalLoading (store (world s')) = false ∧
    error (store (world s')) = None ∧
    asked s' =
      asked s ++ createProject request ::
        match templateImage with
        | Some file => [uploadTemplate projectId file]
        | None => []
        end ++
        (if String.eqb type "description"
         then [generateFromDescription_api (Some projectId) (Some content)]
         else []).
Proof.
  intros Hcreate Hid%String.eqb_neq Hget.
  unfold initializeProject. cbn. rewrite Hcreate. cbn. rewrite Hid.
  destruct templateImage as [file|]; cbn;
    [destruct (api (asked s ++ _) (uploadTemplate projectId file)) as [e|[]]; cbn|];
    (destruct (String.eqb type "description"); cbn;
     [destruct (api _ (generateFromDescription_api _ _)) as [e'|[]]; cbn|];
     rewrite Hget; cbn; eexists _, _;
     (split; [reflexivity|]); cbn; rewrite <- ?app_assoc; done).
Qed.

Lemma initializeProject_optional_steps_witness :
  ∃ s' request,
    act_exec refuses_reorder (creating_only "proj-1")
      (initializeProject "description" "Three slides about tea" (Some "template.png"))
      home_site = (Returned (), s') ∧
    currentProject (store (world s')) = Some (normalizeProject two_pages_snapshot) ∧
    storage (world s') = Some "proj-1" ∧
    isGlobalLoading (store (world s')) = false ∧
    error (store (world s')) = None ∧
    asked s' = [createProject request; uploadTemplate "proj-1" "template.png";
                generateFromDescription_api (Some "proj-1")
                  (Some "Three slides about tea")].
Proof.
  apply (initializeProject_optional_steps refuses_reorder (creating_only "proj-1")
           home_site "description" "Three slides about tea" (Some "template.png")
           "proj-1" two_pages_snapshot).
  - reflexivity.
  - done.
  - reflexivity.
Defined.

(** X21. The three ways [initializeProject] fails: the creation request
    is rejected, its answer carries no project id, or the fetch of the
    created project is rejected. Each time the error is thrown on to the
    caller after the store's error was set from its message, the loading
    flag is down again, and the mirror and the pointer are as before, also
    when the project was already created on the server. *)
Theorem initializeProject_failures
    (srv : Server) (api : Backend) (s : Site) (type content : string)
    (templateImage : option File) :
  let failed e :=
    ∃ s', act_exec srv api (initializeProject type content templateImage) s
          = (Raised e, s') ∧
          error (store (world s'))
          = Some (normalizeErrorMessage (Some (or_lit (err_message e) "建立專案失敗"))) ∧
          isGlobalLoading (store (world s')) = false ∧
          currentProject (store (world s')) = currentProject (store (world s)) ∧
          storage (world s') = storage (world s) in
  (∀ e, (∀ request, api (asked s) (createProject request) = inl e) → failed e) ∧
  (∀ reply, (∀ request, api (asked s) (createProject request) = inr reply) →
     truthy_str reply = false →
     failed (Error "專案建立失敗：未返回專案ID")) ∧
  (∀ projectId e,
     (∀ request, api (asked s) (createProject request) = inr (Some projectId)) →
     projectId ≠ "" →
     srv (requests (trace (world s))) (getProject projectId) = inl e →
     failed e).
Proof.
  cbv zeta. split; [|split].
  - intros e Hcreate. unfold initializeProject. cbn. rewrite Hcreate. cbn.
    by eexists.
  - intros reply Hcreate Hno. unfold initializeProject. cbn. rewrite Hcreate. cbn.
    destruct reply as [projectId|]; cbn in *.
    + apply negb_false_iff in Hno. rewrite Hno. cbn. by eexists.
    + by eexists.
  - intros projectId e Hcreate Hid%String.eqb_neq Hget.
    unfold initializeProject. cbn. rewrite Hcreate. cbn. rewrite Hid.
    destruct templateImage as [file|]; cbn;
      [destruct (api (asked s ++ _) (uploadTemplate projectId file)) as [e0|[]]; cbn|];
      (destruct (String.eqb type "description"); cbn;
       [destruct (api _ (generateFromDescription_api _ _)) as [e'|[]]; cbn|];
       rewrite Hget; cbn; by eexists).
Qed.

Lemma initializeProject_failures_witness :
  ∃ s', act_exec offline (creating_only "proj-1")
          (initializeProject "idea" "Tea" None) home_site
        = (Raised network_error, s') ∧
        error (store (world s')) = Some "Network Error" ∧
        isGlobalLoading (store (world s')) = false ∧
        currentProject (store (world s')) = None ∧
        storage (world s') = None.
Proof.
  apply (proj2 (proj2 (initializeProject_failures offline (creating_only "proj-1")
                         home_site "idea" "Tea" None)) "proj-1" network_error).
  - reflexivity.
  - done.
  - reflexivity.
Defined.

(** *** Adding and deleting pages *)

(** X22. Adding and deleting a page are not optimistic. With a project
    loaded, a rejected request leaves the mirror as it is and sets the
    error, without resynchronizing and without throwing; an accepted one
    resynchronizes, so that the page list shown is the server's. The new
    page is sent with the number of pages held as its [order_index]. *)
Theorem page_list_edits_are_not_optimistic
    (srv : Server) (api : Backend) (s : Site) (cp : Project) (pageId : string) :
  currentProject (store (world s)) = Some cp →
  let rejected action fallback e :=
    ∃ s', act_exec srv api action s = (Returned (), s') ∧
          currentProject (store (world s')) = Some cp ∧
          error (store (world s')) = Some (or_lit (err_message e) fallback) ∧
          trace (world s') = trace (world s) in
  let accepted action request :=
    act_exec srv api action s =
    (Returned (), {| world := sync_result srv None (world s);
                     asked := asked s ++ [request] |}) in
  let add :=
    addPage (proj_id cp)
      {[ "outline_content" := VObj {[ "title" := VStr "新頁面"; "points" := VArr [] ]};
         "order_index" := VNum (Z.of_nat (length (proj_pages cp))) ]} in
  let del := deletePage (proj_id cp) pageId in
  (∀ e, api (asked s) add = inl e → rejected addNewPage "新增頁面失敗" e) ∧
  (api (asked s) add = inr true → accepted addNewPage add) ∧
  (∀ e, api (asked s) del = inl e →
     rejected (deletePageById pageId) "刪除頁面失敗" e) ∧
  (api (asked s) del = inr () → accepted (deletePageById pageId) del).
Proof.
  intros Hcp. cbv zeta. unfold addNewPage, deletePageById. cbn. rewrite Hcp.
  split; [|split; [|split]].
  - intros e Hapi. cbn. rewrite Hapi. cbn. eexists. split; [reflexivity|]. by cbn.
  - intros Hapi. cbn. rewrite Hapi. cbn.
    by rewrite act_exec_catch, act_exec_syncProject.
  - intros e Hapi. cbn. rewrite Hapi. cbn. eexists. split; [reflexivity|]. by cbn.
  - intros Hapi. cbn. rewrite Hapi. cbn.
    by rewrite act_exec_catch, act_exec_syncProject.
Qed.

Lemma page_list_edits_are_not_optimistic_witness :
  ∃ s', act_exec quiet unreachable (deletePageById "p2") demo_site = (Returned (), s') ∧
        currentProject (store (world s')) = Some demo_project ∧
        error (store (world s')) = Some "Network Error" ∧
        trace (world s') = trace (world demo_site).
Proof.
  destruct (page_list_edits_are_not_optimistic quiet unreachable demo_site
              demo_project "p2" eq_refl) as (_ & _ & Hrejected & _).
  apply (Hrejected network_error). reflexivity.
Defined.

(** *** Global tasks *)

Section PollLoopPost.
Context (srv : Server) (pid : option string) (tid : string).
Context (body : Prog unit) (cb : Callback) (v_go : list PollEvent).
Context (Q : World → Prop).
Hypothesis cb_body : callback_body cb = body.
Hypothesis goes_on : ∀ w task,
  srv (requests (trace w)) (getTaskStatus pid tid) = inr (Some task) →
  in_progress (task_status task) → ticked v_go cb w (run srv body w).
Hypothesis ends : ∀ w task,
  srv (requests (trace w)) (getTaskStatus pid tid) = inr (Some task) →
  task_status task = "COMPLETED" → Q (run srv body w).
Hypothesis clock_free : ∀ t w, Q w → Q (with_clock t w).

(** What the last tick of a polling loop establishes holds when the loop
    has run. *)
Lemma poll_loop_post (going : list Task) (last : Task) (limit : Z) :
  Forall (λ t, in_progress (task_status t)) going →
  task_status last = "COMPLETED" →
  ∀ w w',
    timers w = [] →
    answers_polls_from srv (count_polls (requests (trace w))) (going ++ [last]) →
    clock w + 2000 * Z.of_nat (length going) ≤ limit →
    run_timers (length going) srv limit (run srv body w) = Some w' →
    Q w'.
Proof.
  intros Hgoing Hlast. induction Hgoing as [|t going Ht Hgoing IH];
    intros w w' Htimers Hsrv Hlimit Hrun.
  - cbn in Hrun.
    destruct (next_due limit (timers (run srv body w))); [done|].
    injection Hrun as <-. apply clock_free, (ends w last); [|done].
    apply (Hsrv _ _ _ 0%nat); [lia|done].
  - destruct (goes_on w t) as (Ht' & Hc & Hv & Hn); [|done|].
    { apply (Hsrv _ _ _ 0%nat); [lia|done]. }
    rewrite Htimers in Ht'. cbn in Ht'.
    set (w1 := run srv body w) in *.
    set (T := {| tm_id := next_timer w; tm_due := clock w + 2000; tm_cb := cb |}) in *.
    cbn [length] in *.
    rewrite (run_timers_single srv _ limit w1 T Ht') in Hrun by (cbn; lia).
    cbn [tm_cb T] in Hrun. rewrite cb_body in Hrun.
    apply (IH (fired T w1) w'); [by apply fired_single| |cbn; lia|done].
    intros hist pid' tid' i task Hcount Hi. cbn in Hcount.
    apply (Hsrv hist pid' tid' (S i)); [lia|done].
Qed.

End PollLoopPost.

Lemma isGlobalLoading_sync_result srv projectId w :
  isGlobalLoading (store (sync_result srv projectId w)) = isGlobalLoading (store w).
Proof. apply sync_result_frame. Qed.

#[local] Hint Rewrite isGlobalLoading_sync_result : sync.

Lemma pollTask_poll_releases (srv : Server) pid tid task w :
  srv (requests (trace w)) (getTaskStatus pid tid) = inr (Some task) →
  task_status task = "COMPLETED" →
  let w' := run srv (pollTask_poll pid tid) w in
  isGlobalLoading (store w') = false ∧ activeTaskId (store w') = None ∧
  taskProgress (store w') = VNull.
Proof.
  intros Hsrv Hst. cbv zeta. unfold run, pollTask_poll. rewrite exec_try_catch. cbn.
  rewrite Hsrv. cbn.
  destruct (truthy (task_progress task)); cbn; rewrite Hst; cbn;
    rewrite exec_syncProject; cbn; repeat split; sync_all.
Qed.

(** X23. How [generateImages] starts, with a project loaded. A rejected
    request sets the error to its message, not normalized, or to a
    fallback, lowers the loading flag and is thrown on. An answer without a task id resynchronizes and
    lowers the flag. An answer with a task id records it as the active
    task and sends the first status poll at once; when that poll is
    answered PENDING or PROCESSING the flag stays up and the next poll is
    2000 ms ahead. *)
Theorem generateImages_start
    (srv : Server) (api : Backend) (s : Site) (cp : Project) :
  currentProject (store (world s)) = Some cp →
  let request := generateImages_api (proj_id cp) in
  (∀ e, api (asked s) request = inl e →
     ∃ s', act_exec srv api generateImages s = (Raised e, s') ∧
           error (store (world s')) = Some (or_lit (err_message e) "任務啟動失敗") ∧
           isGlobalLoading (store (world s')) = false ∧
           activeTaskId (store (world s')) = activeTaskId (store (world s)) ∧
           trace (world s') = trace (world s)) ∧
  (∀ taskId, api (asked s) request = inr taskId → truthy_str taskId = false →
     ∃ s', act_exec srv api generateImages s = (Returned (), s') ∧
           isGlobalLoading (store (world s')) = false ∧
           poll_view (trace (world s')) = poll_view (trace (world s)) ++ [Synced]) ∧
  (∀ taskId task, api (asked s) request = inr (Some taskId) → taskId ≠ "" →
     srv (requests (trace (world s))) (getTaskStatus (proj_id cp) taskId)
     = inr (Some task) →
     in_progress (task_status task) →
     ∃ s', act_exec srv api generateImages s = (Returned (), s') ∧
           isGlobalLoading (store (world s')) = true ∧
           activeTaskId (store (world s')) = Some taskId ∧
           error (store (world s')) = None ∧
           timers (world s') =
             timers (world s) ++
             [{| tm_id := next_timer (world s); tm_due := clock (world s) + 2000;
                 tm_cb := CbPollTask (proj_id cp) taskId |}] ∧
           trace (world s') =
             trace (world s) ++ [EvCall (getTaskStatus (proj_id cp) taskId)]).
Proof.
  intros Hcp. cbv zeta. unfold generateImages, startAsyncTask. cbn. rewrite Hcp.
  split; [|split].
  - intros e Hapi. cbn. rewrite Hapi. cbn. by eexists.
  - intros taskId Hapi Hno. cbn. rewrite Hapi. cbn.
    assert (act_exec srv api
              (act_catch
                 (lift (syncProject None) ;; lift (set (set_isGlobalLoading false)))
                 (λ error,
                    lift (set (λ st, set_isGlobalLoading false
                                       (set_error
                                          (Some (or_lit (err_message error)
                                                   "任務啟動失敗")) st))) ;;
                    Fail error))
              {| world := with_store (λ st, set_error None (set_isGlobalLoading true st))
                            (world s);
                 asked := asked s ++ [generateImages_api (proj_id cp)] |}
            = (Returned (),
               {| world := with_store (set_isGlobalLoading false)
                             (sync_result srv None
                                (with_store
                                   (λ st, set_error None (set_isGlobalLoading true st))
                                   (world s)));
                  asked := asked s ++ [generateImages_api (proj_id cp)] |})) as Hrun.
    { rewrite act_exec_catch.
      change (lift (syncProject None) ;; lift (set (set_isGlobalLoading false)))
        with (lift (syncProject None) ≫= λ _, lift (set (set_isGlobalLoading false))).
      by rewrite act_exec_bind, act_exec_syncProject. }
    destruct taskId as [id|]; cbn in *.
    + apply negb_false_iff in Hno. rewrite Hno. rewrite Hrun.
      eexists. split; [reflexivity|]. split; [done|]. sync_all.
    + rewrite Hrun. eexists. split; [reflexivity|]. split; [done|]. sync_all.
  - intros taskId task Hapi Hid%String.eqb_neq Hsrv Hst. cbn. rewrite Hapi. cbn.
    rewrite Hid. cbn. rewrite Hcp. cbn. rewrite Hsrv. cbn.
    destruct (truthy (task_progress task)); cbn;
      destruct Hst as [-> | ->]; cbn; by eexists.
Qed.

Lemma generateImages_start_witness :
  ∃ s', act_exec quiet unreachable generateImages demo_site
        = (Raised network_error, s') ∧
        error (store (world s')) = Some "Network Error" ∧
        isGlobalLoading (store (world s')) = false ∧
        activeTaskId (store (world s')) = None ∧
        trace (world s') = [].
Proof.
  destruct (generateImages_start quiet unreachable demo_site demo_project eq_refl)
    as (Hrejected & _).
  apply (Hrejected network_error). reflexivity.
Defined.

(** [pollTask] catches whatever its poll throws. *)
Lemma pollTask_poll_returns (srv : Server) pid tid w :
  (exec srv (pollTask_poll pid tid) w).1 = Returned ().
Proof.
  unfold pollTask_poll. rewrite exec_try_catch. cbn.
  destruct (srv _ _) as [e|[task|]]; cbn; [done| |done].
  destruct (truthy (task_progress task)); cbn;
    (destruct (String.eqb (task_status task) "COMPLETED"); cbn;
     [by rewrite exec_syncProject|]);
    (destruct (String.eqb (task_status task) "FAILED"); cbn; [done|]);
    by destruct (String.eqb (task_status task) "PENDING"
                 || String.eqb (task_status task) "PROCESSING")%bool.
Qed.

Lemma exec_pollTask (srv : Server) (taskId : string) (w : World) (cp : Project) :
  currentProject (store w) = Some cp →
  exec srv (pollTask taskId) w = exec srv (pollTask_poll (proj_id cp) taskId) w.
Proof. intros Hcp. unfold pollTask. cbn. by rewrite Hcp. Qed.



Lemma error_sync_result_failed srv projectId w target e :
  sync_target projectId w = Some target →
  srv (requests (trace w)) (getProject target) = inl e →
  error (store (sync_result srv projectId w))
  = Some (normalizeErrorMessage (Some (sync_error e).1)).
Proof.
  intros Ht Hsrv. unfold sync_result. rewrite Ht, Hsrv.
  by destruct (is_not_found e).
Qed.

(** X25. [generateOutline] and [generateFromDescription], with a project
    loaded, lower the loading flag however they end. A rejected request
    sets the error to its message, not normalized, or to a fallback, and
    is thrown on, without a resynchronization. An accepted request is followed by one
    resynchronization and a normal return; when the fetch of that
    resynchronization fails, nothing is thrown and the failure shows in the
    error only. *)
Theorem outline_generation_outcomes
    (srv : Server) (api : Backend) (s : Site) (cp : Project) :
  currentProject (store (world s)) = Some cp →
  let outcomes action request fallback :=
    (∀ e, api (asked s) request = inl e →
       ∃ s', act_exec srv api action s = (Raised e, s') ∧
             isGlobalLoading (store (world s')) = false ∧
             error (store (world s')) = Some (or_lit (err_message e) fallback) ∧
             trace (world s') = trace (world s)) ∧
    (∀ reply, api (asked s) request = inr reply →
       ∃ s', act_exec srv api action s = (Returned (), s') ∧
             isGlobalLoading (store (world s')) = false ∧
             poll_view (trace (world s')) = poll_view (trace (world s)) ++ [Synced] ∧
             ∀ target e,
               sync_target None (world s) = Some target →
               srv (requests (trace (world s))) (getProject target) = inl e →
               error (store (world s'))
               = Some (normalizeErrorMessage (Some (sync_error e).1))) in
  outcomes generateOutline (generateOutline_api (proj_id cp)) "生成大綱失敗" ∧
  outcomes generateFromDescription
    (generateFromDescription_api (proj_id cp) None) "從描述生成失敗".
Proof.
  intros Hcp. cbv zeta. unfold generateOutline, generateFromDescription. cbn.
  rewrite Hcp.
  split; (split; [intros e Hapi|intros [] Hapi]); cbn; rewrite Hapi; cbn;
    try (by eexists);
    rewrite act_exec_finally, act_exec_catch, act_exec_syncProject; cbn;
    (eexists; split; [reflexivity|]; cbn; split; [done|]; split; [sync_all|]);
    intros target e Ht Hsrv;
    exact (error_sync_result_failed srv None
             (with_store (λ st, set_error None (set_isGlobalLoading true st)) (world s))
             target e Ht Hsrv).
Qed.

Lemma outline_generation_outcomes_witness :
  ∃ s', act_exec offline (accepting "proj-1" "task-1") generateOutline demo_site
        = (Returned (), s') ∧
        isGlobalLoading (store (world s')) = false ∧
        error (store (world s'))
        = Some (normalizeErrorMessage (Some (sync_error network_error).1)).
Proof.
  destruct (outline_generation_outcomes offline (accepting "proj-1" "task-1")
              demo_site demo_project eq_refl) as [[_ Haccepted] _].
  destruct (Haccepted () eq_refl) as (s' & Hrun & Hload & _ & Herr).
  exists s'. split; [exact Hrun|]. split; [exact Hload|].
  apply (Herr "proj-1" network_error); reflexivity.
Defined.

(** *** Saving *)

Lemma pending_flushed (srv : Server) fuel cp e writes w ms :
  pending cp e writes w → 1000 ≤ ms →
  ∃ w2, advance (S fuel) srv ms w = Some w2 ∧
        page_writes (trace w2) =
          writes ++ [persist_request (proj_id cp) (edit_page e) (edit_data e)] ∧
        timers w2 = [] ∧ clock w2 = clock w + ms.
Proof.
  intros (id & Ht & Hv & Hw & _) Hms. unfold advance.
  rewrite (run_timers_single srv fuel _ w _ Ht) by (cbn; lia). cbn [tm_cb callback_body].
  pose proof (fired_single _ _ Ht) as Hfired.
  destruct (persistPage_frame srv (proj_id cp) (edit_page e) (edit_data e)
              (fired {| tm_id := id; tm_due := clock w + 1000;
                        tm_cb := CbDebouncedUpdatePage (proj_id cp) (edit_page e)
                                   (edit_data e) |} w)) as [Htimers Hwrites].
  rewrite Hfired in Htimers. cbn in Hwrites. rewrite Hw in Hwrites.
  eexists. split; [by apply run_timers_idle|]. by split.
Qed.

(** X26. The save button sends no write of its own. Pressed right
    after an edit, whose write still waits in the debounce, [saveAllPages]
    returns 1500 ms later: by then the waiting edit has been written,
    once, and the resynchronization that ends the save comes after that
    write. *)
Theorem saveAllPages_flushes_pending_edit
    (srv : Server) (fuel : nat) (cp : Project) (e : Edit) (writes : list Request)
    (w : World) :
  pending cp e writes w →
  ∃ w1 w2 tr,
    advance (S fuel) srv 1500 w = Some w1 ∧
    saveAllPages (S fuel) srv w = Some w2 ∧
    page_writes (trace w1) =
      writes ++ [persist_request (proj_id cp) (edit_page e) (edit_data e)] ∧
    trace w2 = trace w1 ++ EvSync (proj_id cp) :: tr ∧
    page_writes (trace w2) = page_writes (trace w1) ∧
    timers w2 = [] ∧
    clock w2 = clock w + 1500.
Proof.
  intros Hp.
  destruct (pending_flushed srv fuel cp e writes w 1500 Hp) as (w1 & Hadv & Hw & Ht & Hc);
    [lia|].
  destruct Hp as (id & _ & _ & _ & cp' & Hcp & Hid).
  exists w1, (sync_result srv (proj_id cp) w1). eexists. split; [done|].
  unfold saveAllPages. rewrite Hcp, Hadv, Hid, run_syncProject.
  split; [done|]. split; [done|]. split; [apply sync_result_trace|].
  split; [apply page_writes_sync_result|]. autorewrite with sync. by split.
Qed.

Lemma saveAllPages_flushes_pending_edit_witness :
  ∃ w1 w2 tr,
    advance 1 quiet 1500 editing_world = Some w1 ∧
    saveAllPages 1 quiet editing_world = Some w2 ∧
    page_writes (trace w1) = [updatePage (Some "proj-1") "p1" {[ "title" := VStr "A" ]}] ∧
    trace w2 = trace w1 ++ EvSync (Some "proj-1") :: tr ∧
    page_writes (trace w2) = page_writes (trace w1) ∧
    timers w2 = [] ∧
    clock w2 = clock editing_world + 1500.
Proof.
  apply (saveAllPages_flushes_pending_edit quiet 0 demo_project title_edit []
           editing_world).
  exists 1%positive. split; [reflexivity|]. split; [reflexivity|].
  split; [reflexivity|]. eexists. split; reflexivity.
Defined.

(** *** Edits a window apart *)

Section Spaced.
Context (srv : Server).
Hypothesis Hnever : never_not_found srv.

Lemma persistPage_loaded projectId pageId data w cp :
  currentProject (store w) = Some cp →
  ∃ cp', currentProject (store (run srv (persistPage projectId pageId data) w))
         = Some cp'.
Proof.
  intros Hcp. unfold run, persistPage. rewrite exec_try_catch, exec_bind.
  destruct (truthy (prop "description_content" data));
    [|destruct (truthy (prop "outline_content" data))]; cbn;
    (destruct (srv _ _) as [e|[]]; cbn; [by eauto|];
     rewrite exec_syncProject; cbn;
     by apply (sync_result_loaded srv _ _ cp Hnever)).
Qed.

Lemma pending_flushed_loaded fuel cp e writes w ms :
  pending cp e writes w → 1000 ≤ ms →
  ∃ w2 cp2,
    advance (S fuel) srv ms w = Some w2 ∧
    page_writes (trace w2) =
      writes ++ [persist_request (proj_id cp) (edit_page e) (edit_data e)] ∧
    timers w2 = [] ∧ currentProject (store w2) = Some cp2.
Proof.
  intros (id & Ht & Hv & Hw & cp' & Hcp & Hid) Hms. unfold advance.
  rewrite (run_timers_single srv fuel _ w _ Ht) by (cbn; lia). cbn [tm_cb callback_body].
  pose proof (fired_single _ _ Ht) as Hfired.
  set (w0 := fired _ w) in *.
  destruct (persistPage_frame srv (proj_id cp) (edit_page e) (edit_data e) w0)
    as [Htimers Hwrites].
  destruct (persistPage_loaded (proj_id cp) (edit_page e) (edit_data e) w0 cp' Hcp)
    as [cp2 Hcp2].
  rewrite Hfired in Htimers. subst w0. cbn in Hwrites. rewrite Hw in Hwrites.
  eexists _, cp2. split; [by apply run_timers_idle|]. by split.
Qed.

(** The write that persists an edit, whatever the project id it names. *)
Lemma spaced_edits_step fuel (rest : list Edit) :
  Forall (λ e, 1000 ≤ gap e) rest →
  ∀ e cp writes w,
    pending cp e writes w →
    ∃ w1 ws cp1,
      apply_edits (S fuel) srv rest w = Some w1 ∧
      pending cp1 (default e (last rest)) (writes ++ ws) w1 ∧
      Forall2 (λ r e', ∃ pid, r = persist_request pid (edit_page e') (edit_data e'))
        (ws ++ [persist_request (proj_id cp1) (edit_page (default e (last rest)))
                  (edit_data (default e (last rest)))])
        (e :: rest).
Proof.
  induction 1 as [|e' rest He' Hrest IH]; intros e cp writes w Hp.
  - exists w, [], cp. split; [done|]. rewrite app_nil_r. split; [done|].
    repeat constructor. by eexists.
  - cbn [apply_edits].
    destruct (pending_flushed_loaded fuel cp e writes w (gap e') Hp He')
      as (w2 & cp2 & -> & Hw2 & Ht2 & Hcp2).
    pose proof (updatePageLocal_pending srv cp2 cp2 e' w2 Hcp2 eq_refl
                  (or_introl Ht2)) as Hp'.
    rewrite Hw2 in Hp'.
    destruct (IH e' cp2 _ _ Hp') as (w1 & ws & cp1 & Hrun & Hp1 & Hall).
    assert (default e (last (e' :: rest)) = default e' (last rest)) as Hlast.
    { destruct rest as [|r rest']; [done|].
      change (last (e' :: r :: rest')) with (last (r :: rest')).
      by destruct (proj2 (last_is_Some (r :: rest'))) as [x ->]. }
    exists w1, (persist_request (proj_id cp) (edit_page e) (edit_data e) :: ws), cp1.
    rewrite Hlast. split; [done|]. split.
    + by rewrite <- app_assoc in Hp1.
    + constructor; [by eexists|done].
Qed.

End Spaced.

(** X27. No edit is lost when the edits are a full window apart: with a
    project loaded, no timer pending and a server that reports no project
    as deleted, local edits made 1000 ms or more after one another are
    each written, in order, one write per edit with that edit's page and
    data. *)
Theorem spaced_edits_are_all_written
    (srv : Server) (fuel : nat) (w : World) (cp : Project)
    (first : Edit) (rest : list Edit) :
  never_not_found srv →
  currentProject (store w) = Some cp →
  timers w = [] →
  Forall (λ e, 1000 ≤ gap e) rest →
  ∃ w1 w2 ws,
    apply_edits (S fuel) srv (first :: rest) w = Some w1 ∧
    advance (S fuel) srv 1000 w1 = Some w2 ∧
    page_writes (trace w2) = page_writes (trace w) ++ ws ∧
    Forall2 (λ r e, ∃ pid, r = persist_request pid (edit_page e) (edit_data e))
      ws (first :: rest).
Proof.
  intros Hnever Hcp Htimers Hrest. cbn [apply_edits]. unfold advance at 1.
  rewrite run_timers_idle by done.
  pose proof (updatePageLocal_pending srv cp cp first
                (with_clock (clock w + gap first) w) Hcp eq_refl (or_introl Htimers))
    as Hp. cbn in Hp.
  destruct (spaced_edits_step srv Hnever fuel rest Hrest _ _ _ _ Hp)
    as (w1 & ws & cp1 & Hrun & Hp1 & Hall).
  destruct (pending_flushed srv fuel cp1 _ _ w1 1000 Hp1) as (w2 & Hadv & Hw & _);
    [lia|].
  exists w1, w2. eexists. split; [done|]. split; [done|].
  split; [by rewrite Hw, <- app_assoc|done].
Qed.

Lemma spaced_edits_are_all_written_witness :
  ∃ w1 w2 ws,
    apply_edits 1 quiet
      [title_edit;
       {| gap := 1000; edit_page := "p2"; edit_data := {[ "title" := VStr "B" ]} |}]
      demo_world = Some w1 ∧
    advance 1 quiet 1000 w1 = Some w2 ∧
    page_writes (trace w2) = page_writes (trace demo_world) ++ ws ∧
    Forall2 (λ r e, ∃ pid, r = persist_request pid (edit_page e) (edit_data e))
      ws
      [title_edit;
       {| gap := 1000; edit_page := "p2"; edit_data := {[ "title" := VStr "B" ]} |}].
Proof.
  apply (spaced_edits_are_all_written quiet 0 demo_world demo_project title_edit
           [ {| gap := 1000; edit_page := "p2";
                edit_data := {[ "title" := VStr "B" ]} |} ]).
  - intros hist target e H. discriminate H.
  - reflexivity.
  - reflexivity.
  - apply Forall_cons_2; [cbn; lia|apply Forall_nil_2].
Defined.

(** ** [throttle] *)

Section ThrottleFacts.
Context {A : Type} (throws : A → bool) (limit : Z).
Hypothesis returns : ∀ args, throws args = false.

(** While the throttle is closed exactly one reset is pending, [limit]
    after the last call let through; while it is open none is, and that
    call is at least [limit] back. *)
Lemma throttle_invariant (actions : list (Throttle.Action (A:=A))) :
  Forall Throttle.forward actions →
  let c := Throttle.play throws limit actions in
  (Throttle.passed c = [] → Throttle.inThrottle c = false ∧ Throttle.resets c = []) ∧
  (∀ t a, last (Throttle.passed c) = Some (t, a) →
     if Throttle.inThrottle c
     then Throttle.resets c = [t + limit] ∧ t ≤ Throttle.now c
     else Throttle.resets c = [] ∧ t + limit ≤ Throttle.now c) ∧
  (∀ i t1 a1 t2 a2,
     Throttle.passed c !! i = Some (t1, a1) →
     Throttle.passed c !! S i = Some (t2, a2) →
     t1 + limit ≤ t2).
Proof.
  induction actions as [|a actions IH] using rev_ind; intros Hfw; cbv zeta.
  { cbn. split; [done|]. split; [done|]. intros i ? ? ? ? H. by destruct i. }
  apply Forall_app in Hfw as [Hfw Ha]. rewrite Forall_singleton in Ha.
  specialize (IH Hfw). cbv zeta in IH. destruct IH as (Hnil & Hlast & Hsp).
  unfold Throttle.play in *. rewrite foldl_app. cbn [foldl].
  set (c := foldl (Throttle.act throws limit) Throttle.fresh actions) in *.
  destruct a as [args|ms]; cbn [Throttle.act].
  - unfold Throttle.throttle. destruct (Throttle.inThrottle c) eqn:Hin.
    { rewrite Hin. by split. }
    rewrite returns. cbn. split; [by intros [_ [=]]%app_eq_nil|]. split.
    + intros t a. rewrite last_snoc. intros [= <- <-].
      destruct (Throttle.passed c) as [|p l] eqn:Hp.
      * by destruct Hnil as [_ ->].
      * destruct (proj2 (last_is_Some (p :: l))) as [[t a] Hl]; [done|].
        by destruct (Hlast _ _ Hl) as [-> _].
    + intros i t1 a1 t2 a2 H1 H2.
      destruct (decide (S i < length (Throttle.passed c))%nat) as [Hlt|Hge].
      * rewrite lookup_app_l in H1 by lia. rewrite lookup_app_l in H2 by lia.
        by apply (Hsp i t1 a1 t2 a2).
      * apply lookup_lt_Some in H2 as Hlen. rewrite length_app in Hlen. cbn in Hlen.
        assert (S i = length (Throttle.passed c)) as Hi by lia.
        rewrite Hi, lookup_app_r, Nat.sub_diag in H2 by lia. injection H2 as <- <-.
        rewrite lookup_app_l in H1 by lia.
        assert (last (Throttle.passed c) = Some (t1, a1)) as Hl.
        { rewrite last_lookup. rewrite <- Hi. exact H1. }
        by destruct (Hlast _ _ Hl) as [_ ?].
  - cbn in Ha. unfold Throttle.elapse. cbn. split; [|split; [|done]].
    + intros Hp. destruct (Hnil Hp) as [-> ->]. done.
    + intros t a Hl. specialize (Hlast t a Hl).
      destruct (Throttle.inThrottle c).
      * destruct Hlast as [-> Ht]. cbn.
        destruct (Z.leb_spec (t + limit) (Throttle.now c + ms)) as [Hdue|Hnot]; cbn.
        -- rewrite (proj2 (Z.ltb_ge _ _)) by lia. split; [done|lia].
        -- rewrite (proj2 (Z.ltb_lt _ _)) by lia. split; [done|lia].
      * destruct Hlast as [-> Ht]. cbn. split; [done|lia].
Qed.

End ThrottleFacts.

(** X28. A throttled function that returns normally runs at most once per
    [limit] milliseconds and is never shut for longer, for a [limit]
    within the range of [setTimeout]: over any sequence of calls and
    waits, consecutive calls let through are at least [limit] apart, and a
    call made [limit] or more after the sequence is let through with its
    own arguments. Calls made in between are dropped, none is run later. *)
Theorem throttle_once_per_limit
    {A : Type} (throws : A → bool) (limit : Z)
    (actions : list (Throttle.Action (A:=A))) :
  (∀ args, throws args = false) →
  limit < 2 ^ 31 →
  Forall Throttle.forward actions →
  let c := Throttle.play throws limit actions in
  (∀ i t1 a1 t2 a2,
     Throttle.passed c !! i = Some (t1, a1) →
     Throttle.passed c !! S i = Some (t2, a2) →
     t1 + limit ≤ t2) ∧
  (∀ ms args, 0 ≤ ms → limit ≤ ms →
     Throttle.passed (Throttle.throttle throws limit args (Throttle.elapse ms c))
     = Throttle.passed c ++ [(Throttle.now c + ms, args)]) ∧
  (∀ args, Throttle.inThrottle c = true →
     Throttle.throttle throws limit args c = c).
Proof.
  intros Hret _ Hfw c.
  destruct (throttle_invariant throws limit Hret actions Hfw)
    as (Hnil & Hlast & Hsp).
  fold c in Hnil, Hlast, Hsp. split; [exact Hsp|]. split.
  - intros ms args _ Hms.
    assert (Throttle.inThrottle (Throttle.elapse ms c) = false) as Hopen.
    { unfold Throttle.elapse. cbn.
      destruct (Throttle.passed c) as [|p l] eqn:Hp.
      - by destruct Hnil as [-> ->].
      - destruct (proj2 (last_is_Some (p :: l))) as [[t a] Hl]; [done|].
        specialize (Hlast t a Hl).
        destruct (Throttle.inThrottle c); [|by destruct Hlast as [-> _]].
        destruct Hlast as [-> Ht]. cbn.
        by rewrite (proj2 (Z.leb_le _ _)) by lia. }
    unfold Throttle.throttle. rewrite Hopen, Hret. done.
  - intros args Hin. unfold Throttle.throttle. by rewrite Hin.
Qed.

Lemma throttle_once_per_limit_witness :
  let c := Throttle.play (λ _ : string, false) 100
             [Throttle.Call "a"; Throttle.Wait 50; Throttle.Call "b";
              Throttle.Wait 50; Throttle.Call "c"] in
  Throttle.passed c = [(0, "a"); (100, "c")] ∧
  Throttle.passed (Throttle.throttle (λ _, false) 100 "d" (Throttle.elapse 100 c))
  = [(0, "a"); (100, "c"); (200, "d")].
Proof.
  split; [reflexivity|].
  apply (throttle_once_per_limit (λ _ : string, false) 100
           [Throttle.Call "a"; Throttle.Wait 50; Throttle.Call "b";
            Throttle.Wait 50; Throttle.Call "c"]).
  - reflexivity.
  - lia.
  - repeat (apply Forall_cons_2; [cbn; try lia; exact I|]). apply Forall_nil_2.
  - lia.
  - lia.
Defined.

(** ** The form of the material generator *)

Lemma filter_index_past {A} (target i : nat) (xs : list A) :
  (target < i)%nat →
  MaterialForm.filter_index (λ _ j, negb (j =? target)%nat) i xs = xs.
Proof.
  revert i. induction xs as [|x xs IH]; intros i Hi; [done|].
  cbn [MaterialForm.filter_index].
  rewrite (proj2 (Nat.eqb_neq i target)) by lia. cbn. f_equal. apply IH. lia.
Qed.

Lemma filter_index_delete {A} (index i : nat) (xs : list A) :
  MaterialForm.filter_index (λ _ j, negb (j =? i + index)%nat) i xs = delete index xs.
Proof.
  revert index i. induction xs as [|x xs IH]; intros index i; [done|].
  cbn [MaterialForm.filter_index]. destruct index as [|index].
  - rewrite Nat.add_0_r, Nat.eqb_refl. cbn. apply filter_index_past. lia.
  - rewrite (proj2 (Nat.eqb_neq i (i + S index))) by lia. cbn. f_equal.
    replace (i + S index)%nat with (S i + index)%nat by lia. apply IH.
Qed.



(** X30. Removing an extra image removes the one at that position and
    no other: the others keep their order, the main reference and the
    toasts are untouched, and a position past the end removes nothing. *)
Theorem removeExtraImage_removes_one (index : nat) (f : MaterialForm.Form) :
  let f' := MaterialForm.removeExtraImage index f in
  MaterialForm.extraImages f' = delete index (MaterialForm.extraImages f) ∧
  MaterialForm.refImage f' = MaterialForm.refImage f ∧
  MaterialForm.toasts f' = MaterialForm.toasts f ∧
  ((length (MaterialForm.extraImages f) ≤ index)%nat →
   MaterialForm.extraImages f' = MaterialForm.extraImages f) ∧
  (∀ i, (i < index)%nat →
     MaterialForm.extraImages f' !! i = MaterialForm.extraImages f !! i) ∧
  (∀ i, (index ≤ i)%nat →
     MaterialForm.extraImages f' !! i = MaterialForm.extraImages f !! S i).
Proof.
  cbv zeta. unfold MaterialForm.removeExtraImage. cbn.
  rewrite (filter_index_delete index 0).
  split; [done|]. split; [done|]. split; [done|]. split; [|split].
  - intros Hlen. rewrite delete_take_drop, take_ge, drop_ge by lia.
    apply app_nil_r.
  - intros i Hi. by apply list_lookup_delete_lt.
  - intros i Hi. by apply list_lookup_delete_ge.
Qed.

Lemma removeExtraImage_removes_one_witness :
  let f := {| MaterialForm.refImage := Some "main.png";
              MaterialForm.extraImages := ["a.png"; "b.png"];
              MaterialForm.toasts := [] |} in
  MaterialForm.extraImages (MaterialForm.removeExtraImage 2 f) = ["a.png"; "b.png"].
Proof.
  intros f.
  destruct (removeExtraImage_removes_one 2 f) as (_ & _ & _ & Hpast & _).
  apply Hpast. cbn. lia.
Defined.
